(** * timeperiod: is a datetime inside a Time::Period expression?

    A shallow embedding of [timeperiod.py] and the properties its
    specification states about it.

    Conventions of the embedding.
    - The module is read with Python 3 semantics, the interpreter family
      [setup.py] lists next to 2.7: [/] on two [int]s is true division and
      yields a [float] (modelled by the kernel's binary64 floats), a [dict]
      iterates in insertion order, and [\s], [\w], [str.lower] and [int]
      follow the rules for [str].
    - A [str] is a [string]; the character classes below are those of Python
      on code points 0..127.  Code points above 127 are outside the model
      (they are treated as ordinary symbols: no space, no word character, no
      case).
    - A raised exception is the [Raise] branch of [result]; the only
      exception the module raises itself is [InvalidFormat].
    - [int] refuses a literal of more than 4300 digits, the limit an
      interpreter of version 3.11 or later starts with.
    - [datetime.now()] is not modelled: the instant is always an argument. *)

From Stdlib Require Import ZArith List String Ascii Bool Lia Permutation.
From Stdlib Require Import DecimalString Floats.
Import ListNotations.

Local Open Scope string_scope.
Local Open Scope Z_scope.

(** ** Python runtime: the pieces of [str], [int], [float], [re] and
       [datetime] the module relies on *)

Module Py.

(** *** Characters *)

Definition ord (c : ascii) : Z := Z.of_N (N_of_ascii c).

(** [\s] on a [str] pattern, and [str.isspace]: TAB LF VT FF CR, the four
    separators 0x1C..0x1F, and SPACE. *)
Definition is_space (c : ascii) : bool :=
  let n := ord c in
  ((9 <=? n) && (n <=? 13)) || ((28 <=? n) && (n <=? 32)).

Definition is_digit (c : ascii) : bool :=
  let n := ord c in (48 <=? n) && (n <=? 57).

Definition is_upper (c : ascii) : bool :=
  let n := ord c in (65 <=? n) && (n <=? 90).

Definition is_lower (c : ascii) : bool :=
  let n := ord c in (97 <=? n) && (n <=? 122).

(** [\w]: letters, digits and the underscore. *)
Definition is_word (c : ascii) : bool :=
  is_digit c || is_upper c || is_lower c || (c =? "_")%char.

Definition lower_char (c : ascii) : ascii :=
  if is_upper c then ascii_of_N (N_of_ascii c + 32) else c.

(** *** Strings *)

(** [str.lower]. *)
Fixpoint lower (s : string) : string :=
  match s with
  | EmptyString => EmptyString
  | String c s' => String (lower_char c) (lower s')
  end.

(** [str.lstrip()]. *)
Fixpoint lstrip (s : string) : string :=
  match s with
  | EmptyString => EmptyString
  | String c s' => if is_space c then lstrip s' else s
  end.

(** The whitespace [int] skips around the digits of an ASCII [str]: TAB LF
    VT FF CR and SPACE, but not the separators 0x1C..0x1F. *)
Definition is_blank (c : ascii) : bool :=
  let n := ord c in
  ((9 <=? n) && (n <=? 13)) || (n =? 32).

Fixpoint skip_blanks (s : string) : string :=
  match s with
  | EmptyString => EmptyString
  | String c s' => if is_blank c then skip_blanks s' else s
  end.

Fixpoint all_blank (s : string) : bool :=
  match s with
  | EmptyString => true
  | String c s' => is_blank c && all_blank s'
  end.

Fixpoint drop_final_blanks (s : string) : string :=
  match s with
  | EmptyString => EmptyString
  | String c s' =>
      if all_blank s then EmptyString else String c (drop_final_blanks s')
  end.

(** Splitting at every character that satisfies [sep]: [str.split(c)] for a
    one-character separator, [re.split] for a one-character class.  The
    result is never empty; adjacent separators give empty pieces. *)
Fixpoint split_at (sep : ascii -> bool) (s : string) : list string :=
  match s with
  | EmptyString => [EmptyString]
  | String c s' =>
      if sep c then EmptyString :: split_at sep s'
      else match split_at sep s' with
           | piece :: pieces => String c piece :: pieces
           | [] => [String c EmptyString]
           end
  end.

Definition split_char (c : ascii) : string -> list string :=
  split_at (Ascii.eqb c).

(** [s.startswith(p)]. *)
Fixpoint startswith (p s : string) : bool :=
  match p, s with
  | EmptyString, _ => true
  | String a p', String b s' => (a =? b)%char && startswith p' s'
  | String _ _, EmptyString => false
  end.

(** *** Integers *)

(** [str(n)] and ["%d" % n] for an [int]. *)
Definition str (n : Z) : string := NilZero.string_of_int (Z.to_int n).

Definition digit_value (c : ascii) : Z := ord c - 48.

(** The digits of an [int] literal as [int(str)] reads them in base 10: one
    or more digits, single underscores allowed between two digits. *)
Fixpoint int_digits (acc : Z) (after_digit : bool) (s : string) : option Z :=
  match s with
  | EmptyString => if after_digit then Some acc else None
  | String c s' =>
      if is_digit c then int_digits (10 * acc + digit_value c) true s'
      else if (c =? "_")%char && after_digit then int_digits acc false s'
      else None
  end.

(** The number of digits of [s]. *)
Fixpoint count_digits (s : string) : Z :=
  match s with
  | EmptyString => 0
  | String c s' => (if is_digit c then 1 else 0) + count_digits s'
  end.

(** [sys.get_int_max_str_digits()], as the interpreter starts. *)
Definition max_str_digits : Z := 4300.

(** [int(s)] for a [str]; [None] stands for [ValueError]: the text is no
    integer literal, or (since Python 3.11) it has more than
    [max_str_digits] digits. *)
Definition int_of_str (s : string) : option Z :=
  if max_str_digits <? count_digits s then None
  else
    match drop_final_blanks (skip_blanks s) with
    | String "+" r => int_digits 0 false r
    | String "-" r => option_map Z.opp (int_digits 0 false r)
    | r => int_digits 0 false r
    end.

(** *** Numbers: [int] and [float], and their mixed comparisons *)

Inductive num : Type :=
| Int (z : Z)
| Float (f : float).

(** [float(z)]; exact for [|z| < 2^53], which covers every conversion the
    module can reach (a year of a [datetime], a literal below 100, a day of
    the month). *)
Definition float_of_Z (z : Z) : float :=
  if z <? 0 then PrimFloat.opp (PrimFloat.of_uint63 (Uint63.of_Z (- z)))
  else PrimFloat.of_uint63 (Uint63.of_Z z).

(** [a / b] on two [int]s: true division. *)
Definition truediv (a b : Z) : float :=
  PrimFloat.div (float_of_Z a) (float_of_Z b).

(** The exact comparison of a [float] with an [int]; [None] for a NaN. *)
Definition float_compare_Z (f : float) (z : Z) : option comparison :=
  match Prim2SF f with
  | S754_nan => None
  | S754_infinity s => Some (if s then Lt else Gt)
  | S754_zero _ => Some (0 ?= z)
  | S754_finite s m e =>
      let v := if s then Z.neg m else Z.pos m in
      if 0 <=? e then Some (v * 2 ^ e ?= z) else Some (v ?= z * 2 ^ (- e))
  end.

Definition compare (a b : num) : option comparison :=
  match a, b with
  | Int x, Int y => Some (x ?= y)
  | Float f, Int y => float_compare_Z f y
  | Int x, Float g => option_map CompOpp (float_compare_Z g x)
  | Float f, Float g =>
      match PrimFloat.compare f g with
      | FEq => Some Eq
      | FLt => Some Lt
      | FGt => Some Gt
      | FNotComparable => None
      end
  end.

Definition eq (a b : num) : bool :=
  match compare a b with Some Eq => true | _ => false end.
Definition ne (a b : num) : bool := negb (eq a b).
Definition lt (a b : num) : bool :=
  match compare a b with Some Lt => true | _ => false end.
Definition gt (a b : num) : bool :=
  match compare a b with Some Gt => true | _ => false end.
Definition le (a b : num) : bool :=
  match compare a b with Some Lt | Some Eq => true | _ => false end.
Definition ge (a b : num) : bool :=
  match compare a b with Some Gt | Some Eq => true | _ => false end.

(** Truth value of an [int]. *)
Definition truthy (z : Z) : bool := negb (z =? 0).

(** *** [datetime] *)

Record datetime : Type := mkdatetime {
  year : Z; month : Z; day : Z; hour : Z; minute : Z; second : Z
}.

Definition is_leap (y : Z) : bool :=
  (y mod 4 =? 0) && (negb (y mod 100 =? 0) || (y mod 400 =? 0)).

Definition days_before_year (y : Z) : Z :=
  let p := y - 1 in p * 365 + p / 4 - p / 100 + p / 400.

Definition days_before_month (y m : Z) : Z :=
  nth (Z.to_nat m) [0; 0; 31; 59; 90; 120; 151; 181; 212; 243; 273; 304; 334] 0
  + (if (2 <? m) && is_leap y then 1 else 0).

(** [dt.toordinal()]. *)
Definition toordinal (dt : datetime) : Z :=
  days_before_year (year dt) + days_before_month (year dt) (month dt) + day dt.

(** [dt.weekday()]: Monday is 0, Sunday is 6. *)
Definition weekday (dt : datetime) : Z := (toordinal dt + 6) mod 7.

(** [int(dt.strftime('%j'))]: the day of the year, from 1. *)
Definition yday (dt : datetime) : Z :=
  days_before_month (year dt) (month dt) + day dt.

End Py.

(** ** The module [timeperiod] *)

Module timeperiod.
Import Py.

(** *** Exceptions *)

Inductive exn : Type :=
| InvalidFormat (msg : string)
| KeyError (key : string).

Inductive result (A : Type) : Type :=
| Ok (a : A)
| Raise (e : exn).
Arguments Ok {A} a.
Arguments Raise {A} e.

Definition bind {A B : Type} (r : result A) (k : A -> result B) : result B :=
  match r with
  | Ok a => k a
  | Raise e => Raise e
  end.

Notation "x <- r ;; k" := (bind r (fun x => k))
  (at level 61, r at next level, right associativity).
Notation "' p <- r ;; k" := (bind r (fun p => k))
  (at level 61, p pattern, r at next level, right associativity).

(** *** Tables *)

Definition DAYS : list (string * Z) :=
  [("su", 1); ("mo", 2); ("tu", 3); ("we", 4); ("th", 5); ("fr", 6); ("sa", 7)].

Definition MONTHS : list (string * Z) :=
  [("jan", 1); ("feb", 2); ("mar", 3); ("apr", 4); ("may", 5); ("jun", 6);
   ("jul", 7); ("aug", 8); ("sep", 9); ("oct", 10); ("nov", 11); ("dec", 12)].

(** *** The rewriting passes of [in_period] *)

Definition first_nonspace (s : string) : option ascii :=
  match lstrip s with
  | EmptyString => None
  | String c _ => Some c
  end.

Definition is_char (c : ascii) (o : option ascii) : bool :=
  match o with
  | Some d => (d =? c)%char
  | None => false
  end.

Definition is_end (o : option ascii) : bool :=
  match o with
  | Some _ => false
  | None => true
  end.

(** Six of the seven [re.sub] calls delete runs of whitespace and nothing
    else; they differ in which runs.  A run is a maximal sequence of [\s]
    characters; [doomed before after] decides its fate from the character
    just before it and the one just after it ([None] at either end of the
    string).  [before] is the last character seen that is no whitespace. *)
Fixpoint delete_runs (doomed : option ascii -> option ascii -> bool)
    (before : option ascii) (s : string) : string :=
  match s with
  | EmptyString => EmptyString
  | String c s' =>
      if is_space c then
        if doomed before (first_nonspace s') then delete_runs doomed before s'
        else String c (delete_runs doomed before s')
      else String c (delete_runs doomed (Some c) s')
  end.

(** [re.sub(r"^\s*|\s*$", '', period)]: the run at the start and the run at
    the end. *)
Definition strip_ends : string -> string :=
  delete_runs (fun before after => is_end before || is_end after) None.

(** [re.sub(r"\s*(?={|$)", '', period)]: a run followed by an opening brace
    or by the end. *)
Definition squeeze_before_open : string -> string :=
  delete_runs (fun _ after => is_char "{" after || is_end after) None.

(** [re.sub(r",\s*", ',', period)]: a run that follows a comma. *)
Definition squeeze_after_comma : string -> string :=
  delete_runs (fun before _ => is_char "," before) None.

(** [re.sub(r"\s*-\s*", '-', period)]: a run next to a dash. *)
Definition squeeze_around_dash : string -> string :=
  delete_runs (fun before after => is_char "-" after || is_char "-" before) None.

(** [re.sub(r"{\s*", '{', period)]: a run that follows an opening brace. *)
Definition squeeze_after_open : string -> string :=
  delete_runs (fun before _ => is_char "{" before) None.

(** [re.sub(r"\s*}\s*", '}', period)]: a run next to a closing brace. *)
Definition squeeze_around_close : string -> string :=
  delete_runs (fun before after => is_char "}" after || is_char "}" before) None.

(** [re.sub(r"}(?=[^,])", '}|', period)]: a closing brace followed by any
    character but a comma gets a bar after it. *)
Fixpoint insert_bars (s : string) : string :=
  match s with
  | EmptyString => EmptyString
  | String c s' =>
      match s' with
      | String d _ =>
          if (c =? "}")%char && negb (d =? ",")%char
          then String "}" (String "|" (insert_bars s'))
          else String c (insert_bars s')
      | EmptyString => String c EmptyString
      end
  end.

(** The first half of [in_period]: the eight reassignments of [period]. *)
Definition normalize (period : string) : string :=
  let period := strip_ends period in
  let period := squeeze_before_open period in
  let period := squeeze_after_comma period in
  let period := squeeze_around_dash period in
  let period := squeeze_after_open period in
  let period := squeeze_around_close period in
  let period := insert_bars period in
  lower period.

(** *** Ranges *)

(** [_splitrange]: the text before the first dash, and the text between the
    first and the second dash if there is a dash. *)
Definition _splitrange (range : string) : string * option string :=
  match split_char "-" range with
  | low :: high :: _ => (low, Some high)
  | low :: [] => (low, None)
  | [] => (EmptyString, None)
  end.

(** What [_in_min_max] is given as a bound: a [str], or (from [hr]) an
    [int]. *)
Inductive bound : Type :=
| Text (s : string)
| Number (z : Z).

(** [int(b)]; [None] stands for [ValueError]. *)
Definition int (b : bound) : option Z :=
  match b with
  | Text s => int_of_str s
  | Number z => Some z
  end.

Definition integer_required (scale : string) : exn :=
  InvalidFormat ("An integer value is required for " ++ scale ++ ".").

Definition not_valid (value : Z) (scale : string) (min max : Z) : exn :=
  InvalidFormat (str value ++ " is not valid for " ++ scale
                 ++ ". Valid options are between " ++ str min
                 ++ " and " ++ str max ++ ".").

Definition _in_min_max (low : bound) (high : option bound) (min max : Z)
    (scale : string) : result (Z * option Z) :=
  match int low with
  | None => Raise (integer_required scale)
  | Some low =>
      if (low <? min) || (low >? max) then Raise (not_valid low scale min max)
      else
        match high with
        | None => Ok (low, None)
        | Some high =>
            match int high with
            | None => Raise (integer_required scale)
            | Some high =>
                if (high <? min) || (high >? max)
                then Raise (not_valid high scale min max)
                else Ok (low, Some high)
            end
        end
  end.

Definition _is_in_range (x low : num) (high : option num) : Z :=
  match high with
  | None => if ne low x then 0 else 1
  | Some high =>
      if eq low high then
        if ne low x then 0 else 1
      else if gt high low then
        if gt x high || lt x low then 0 else 1
      else if gt low high then
        if negb (ge x low || le x high) then 0 else 1
      else 1
  end.

(** *** The scales *)

(** The loop every scale runs: [for range in ranges], return 1 at the first
    range whose test is true, 0 when the list is exhausted.  An exception
    raised by a test leaves the loop. *)
Fixpoint any_range (test : string -> result Z) (ranges : list string)
    : result Z :=
  match ranges with
  | [] => Ok 0
  | range :: ranges' =>
      r <- test range ;;
      if truthy r then Ok 1 else any_range test ranges'
  end.

(** [re.sub("%s.*?(?=\s|-|$)" % name, repl, range)]: every occurrence of
    [name] is replaced, together with what follows it up to the next
    whitespace, dash or end.  [inside] is true while such a tail is being
    consumed.  (The names of [DAYS] and [MONTHS] are letters only, so a tail
    never ends inside the name.) *)
Fixpoint sub_name (name repl : string) (inside : bool) (s : string) : string :=
  match s with
  | EmptyString => EmptyString
  | String c s' =>
      if inside && negb (is_space c || (c =? "-")%char)
      then sub_name name repl true s'
      else if startswith name s then repl ++ sub_name name repl true s'
      else String c (sub_name name repl false s')
  end.

(** [for name in TABLE.keys(): range = re.sub(...)]. *)
Definition translate (table : list (string * Z)) (range : string) : string :=
  fold_left (fun range entry => sub_name (fst entry) (str (snd entry)) false range)
            table range.

(** [normal_year] on a bound that is present. *)
Definition normal_year_of (year : string) (dt : datetime) : result num :=
  match int_of_str year with
  | None => Raise (integer_required "year")
  | Some year =>
      if year <? 100 then
        let century := truediv (Py.year dt) 100 in
        Ok (Float (PrimFloat.add (PrimFloat.mul (float_of_Z 100) century)
                                 (float_of_Z year)))
      else Ok (Int year)
  end.

(** [normal_year]: [None] stays [None]. *)
Definition normal_year (year : option string) (dt : datetime)
    : result (option num) :=
  match year with
  | None => Ok None
  | Some year => y <- normal_year_of year dt ;; Ok (Some y)
  end.

Definition yr (ranges : list string) (dt : datetime) : result Z :=
  any_range (fun range =>
    let '(low, high) := _splitrange range in
    low <- normal_year_of low dt ;;
    high <- normal_year high dt ;;
    Ok (_is_in_range (Int (year dt)) low high)) ranges.

Definition mo (ranges : list string) (dt : datetime) : result Z :=
  any_range (fun range =>
    let range := translate MONTHS range in
    let '(low, high) := _splitrange range in
    '(low, high) <- _in_min_max (Text low) (option_map Text high) 1 12 "month" ;;
    Ok (_is_in_range (Int (month dt)) (Int low) (option_map Int high))) ranges.

Definition _simple_test (now : num) (ranges : list string) (min max : Z)
    (scale : string) : result Z :=
  any_range (fun range =>
    let '(low, high) := _splitrange range in
    '(low, high) <- _in_min_max (Text low) (option_map Text high) min max scale ;;
    Ok (_is_in_range now (Int low) (option_map Int high))) ranges.

Definition wk (ranges : list string) (dt : datetime) : result Z :=
  let week := PrimFloat.add (truediv (day dt - 1) 7) (float_of_Z 1) in
  _simple_test (Float week) ranges 1 5 "week".

Definition yd (ranges : list string) (dt : datetime) : result Z :=
  let today := yday dt in
  _simple_test (Int today) ranges 1 366 "year day".

Definition md (ranges : list string) (dt : datetime) : result Z :=
  _simple_test (Int (day dt)) ranges 1 31 "day".

(** The day of the week as [wd] counts it: Sunday is 1, Saturday is 7. *)
Definition wd_today (dt : datetime) : Z :=
  let today := (weekday dt + 2) mod 7 in
  if today =? 0 then 7 else today.

Definition wd (ranges : list string) (dt : datetime) : result Z :=
  let today := wd_today dt in
  any_range (fun range =>
    let range := translate DAYS range in
    let '(low, high) := _splitrange range in
    '(low, high) <- _in_min_max (Text low) (option_map Text high) 1 7 "weekday" ;;
    Ok (_is_in_range (Int today) (Int low) (option_map Int high))) ranges.

(** [normal_hour] on a bound that is present. *)
Definition normal_hour_of (hour : string) : result Z :=
  match int_of_str hour with
  | None => Raise (integer_required "hour")
  | Some hour => Ok hour
  end.

(** [normal_hour]: [None] stays [None]. *)
Definition normal_hour (hour : option string) : result (option Z) :=
  match hour with
  | None => Ok None
  | Some hour => h <- normal_hour_of hour ;; Ok (Some h)
  end.

Definition hr (ranges : list string) (dt : datetime) : result Z :=
  let now := hour dt in
  any_range (fun range =>
    let '(low, high) := _splitrange range in
    low <- normal_hour_of low ;;
    high <- normal_hour high ;;
    '(low, high) <- _in_min_max (Number low) (option_map Number high) 0 23 "hour" ;;
    Ok (_is_in_range (Int now) (Int low) (option_map Int high))) ranges.

Definition min (ranges : list string) (dt : datetime) : result Z :=
  _simple_test (Int (minute dt)) ranges 0 59 "minute".

Definition sec (ranges : list string) (dt : datetime) : result Z :=
  _simple_test (Int (second dt)) ranges 0 59 "second".

Definition scale_function : Type := list string -> datetime -> result Z.

Definition SCALES : list (string * scale_function) :=
  [("yr", yr); ("year", yr); ("mo", mo); ("month", mo); ("wk", wk);
   ("week", wk); ("yd", yd); ("yday", yd); ("md", md); ("mday", md);
   ("wd", wd); ("wday", wd); ("hr", hr); ("hour", hr); ("min", min);
   ("minute", min); ("sec", sec); ("second", sec)].

(** [d.get(key)] on a [dict] kept as the list of its items in insertion
    order. *)
Fixpoint get {A : Type} (d : list (string * A)) (key : string) : option A :=
  match d with
  | [] => None
  | (k, v) :: d' => if (k =? key)%string then Some v else get d' key
  end.

(** *** Scale expressions *)

(** The longest prefix of word characters, and the rest. *)
Fixpoint span_word (s : string) : string * string :=
  match s with
  | EmptyString => (EmptyString, EmptyString)
  | String c s' =>
      if is_word c then let '(w, rest) := span_word s' in (String c w, rest)
      else (EmptyString, s)
  end.

(** [(.*?)\}]: the text up to the first closing brace, which must come
    before any line feed. *)
Fixpoint until_close (s : string) : option string :=
  match s with
  | EmptyString => None
  | String c s' =>
      if (c =? "}")%char then Some EmptyString
      else if (c =? "010")%char then None
      else option_map (String c) (until_close s')
  end.

(** A match of [(\w+?)\{(.*?)\}] that starts at the first character of [s]:
    its two groups.  The lazy [\w+?] has to reach a brace, so group 1 is the
    whole run of word characters. *)
Definition match_here (s : string) : option (string * string) :=
  match span_word s with
  | (String c w, String "{" rest) => option_map (pair (String c w)) (until_close rest)
  | _ => None
  end.

(** [re.search("(\w+?)\{(.*?)\}", s)]: the leftmost match. *)
Fixpoint search (s : string) : option (string * string) :=
  match match_here s with
  | Some m => Some m
  | None =>
      match s with
      | EmptyString => None
      | String _ s' => search s'
      end
  end.

Definition _parse_scale (scale_exp : string) : result (string * list string) :=
  match search scale_exp with
  | None => Raise (InvalidFormat "Unable to parse the given time period.")
  | Some (scale, range) =>
      match get SCALES scale with
      | None => Raise (InvalidFormat (scale ++ " is not a valid scale."))
      | Some _ => Ok (scale, split_at is_space range)
      end
  end.

(** *** Sub-periods *)

(** The [if scale in range_lists: ... += ranges / else: ... = ranges] of
    [_is_in_sub_period]. *)
Fixpoint add_ranges (range_lists : list (string * list string))
    (scale : string) (ranges : list string) : list (string * list string) :=
  match range_lists with
  | [] => [(scale, ranges)]
  | (k, v) :: rest =>
      if (k =? scale)%string then (k, (v ++ ranges)%list) :: rest
      else (k, v) :: add_ranges rest scale ranges
  end.

(** The first loop of [_is_in_sub_period]. *)
Fixpoint build_range_lists (scales : list string)
    (range_lists : list (string * list string))
    : result (list (string * list string)) :=
  match scales with
  | [] => Ok range_lists
  | scale_exp :: scales' =>
      '(scale, ranges) <- _parse_scale scale_exp ;;
      build_range_lists scales' (add_ranges range_lists scale ranges)
  end.

(** The second loop of [_is_in_sub_period]. *)
Fixpoint check_scales (range_lists : list (string * list string))
    (dt : datetime) : result Z :=
  match range_lists with
  | [] => Ok 1
  | (scale, ranges) :: rest =>
      match get SCALES scale with
      | None => Raise (KeyError scale)
      | Some f =>
          result <- f ranges dt ;;
          if negb (result =? 1) then Ok result else check_scales rest dt
      end
  end.

Definition _is_in_sub_period (sp : string) (dt : datetime) : result Z :=
  if (sp =? "never")%string then Ok 0
  else if (sp =? "none")%string || (sp =? "always")%string || (sp =? "")%string
  then Ok 1
  else
    let scales := split_char "|" sp in
    range_lists <- build_range_lists scales [] ;;
    check_scales range_lists dt.

(** *** Periods *)

(** The loop of [in_period] over the sub-periods. *)
Fixpoint any_sub_period (sub_periods : list string) (dt : datetime)
    : result bool :=
  match sub_periods with
  | [] => Ok false
  | sp :: rest =>
      r <- _is_in_sub_period sp dt ;;
      if truthy r then Ok true else any_sub_period rest dt
  end.

Definition in_period (period : string) (dt : datetime) : result bool :=
  let period := normalize period in
  if (period =? "")%string then Ok true
  else
    let sub_periods := split_char "," period in
    any_sub_period sub_periods dt.

End timeperiod.

(** ** Vocabulary of the specification *)

Import timeperiod.

(** The nine scales; every code of [SCALES] names one. *)
Inductive scale_kind : Type :=
| Year | Month | Week | YearDay | MonthDay | WeekDay | Hour | Minute | Second.

Definition kind_of (code : string) : option scale_kind :=
  get [("yr", Year); ("year", Year); ("mo", Month); ("month", Month);
       ("wk", Week); ("week", Week); ("yd", YearDay); ("yday", YearDay);
       ("md", MonthDay); ("mday", MonthDay); ("wd", WeekDay); ("wday", WeekDay);
       ("hr", Hour); ("hour", Hour); ("min", Minute); ("minute", Minute);
       ("sec", Second); ("second", Second)] code.

(** The value of the instant on a scale, as the scale's function computes
    it. *)
Definition now (k : scale_kind) (dt : Py.datetime) : Py.num :=
  match k with
  | Year => Py.Int (Py.year dt)
  | Month => Py.Int (Py.month dt)
  | Week => Py.Float (PrimFloat.add (Py.truediv (Py.day dt - 1) 7) (Py.float_of_Z 1))
  | YearDay => Py.Int (Py.yday dt)
  | MonthDay => Py.Int (Py.day dt)
  | WeekDay => Py.Int (wd_today dt)
  | Hour => Py.Int (Py.hour dt)
  | Minute => Py.Int (Py.minute dt)
  | Second => Py.Int (Py.second dt)
  end.

Definition as_nums (r : result (Z * option Z)) : result (Py.num * option Py.num) :=
  '(low, high) <- r ;; Ok (Py.Int low, option_map Py.Int high).

Definition checked_bounds (range : string) (min max : Z) (scale : string)
    : result (Py.num * option Py.num) :=
  let '(low, high) := _splitrange range in
  as_nums (_in_min_max (Text low) (option_map Text high) min max scale).

(** The bounds a scale reads from one range token. *)
Definition read_bounds (k : scale_kind) (dt : Py.datetime) (range : string)
    : result (Py.num * option Py.num) :=
  match k with
  | Year =>
      let '(low, high) := _splitrange range in
      low <- normal_year_of low dt ;;
      high <- normal_year high dt ;;
      Ok (low, high)
  | Month => checked_bounds (translate MONTHS range) 1 12 "month"
  | Week => checked_bounds range 1 5 "week"
  | YearDay => checked_bounds range 1 366 "year day"
  | MonthDay => checked_bounds range 1 31 "day"
  | WeekDay => checked_bounds (translate DAYS range) 1 7 "weekday"
  | Hour =>
      let '(low, high) := _splitrange range in
      low <- normal_hour_of low ;;
      high <- normal_hour high ;;
      as_nums (_in_min_max (Number low) (option_map Number high) 0 23 "hour")
  | Minute => checked_bounds range 0 59 "minute"
  | Second => checked_bounds range 0 59 "second"
  end.

(** One range of a scale tested against the instant. *)
Definition range_test (k : scale_kind) (dt : Py.datetime) (range : string)
    : result Z :=
  '(low, high) <- read_bounds k dt range ;;
  Ok (_is_in_range (now k dt) low high).

(** The matching rule of the specification, on integers. *)
Definition in_range_rule (x low : Z) (high : option Z) : bool :=
  match high with
  | None => x =? low
  | Some high =>
      if high =? low then x =? low
      else if low <? high then (low <=? x) && (x <=? high)
      else (low <=? x) || (x <=? high)
  end.

(** Every character of [s] satisfies [p]. *)
Fixpoint all_chars (p : ascii -> bool) (s : string) : bool :=
  match s with
  | EmptyString => true
  | String c s' => p c && all_chars p s'
  end.

(** A range matches when its test returns a true value; it is in order when
    reading its bounds raises nothing. *)
Definition range_matches (k : scale_kind) (dt : Py.datetime) (range : string) : bool :=
  match range_test k dt range with
  | Ok r => Py.truthy r
  | Raise _ => false
  end.

Definition range_ok (k : scale_kind) (dt : Py.datetime) (range : string) : bool :=
  match range_test k dt range with
  | Ok _ => true
  | Raise _ => false
  end.

(** A scale test is a scale code with the ranges accumulated for it; it
    matches when any of its ranges does. *)
Definition scale_test_matches (dt : Py.datetime) (test : string * list string) : bool :=
  match kind_of (fst test) with
  | Some k => existsb (range_matches k dt) (snd test)
  | None => false
  end.

Definition scale_test_ok (dt : Py.datetime) (test : string * list string) : bool :=
  match kind_of (fst test) with
  | Some k => forallb (range_ok k dt) (snd test)
  | None => false
  end.

(** The sub-periods with a fixed outcome. *)
Definition fixed_sub_period (sp : string) : option bool :=
  if (sp =? "never")%string then Some false
  else if (sp =? "none")%string || (sp =? "always")%string || (sp =? "")%string
  then Some true
  else None.

(** A fragment of the shape [code{ranges}] read as the specification words
    it: the fragment has to hold word characters followed by a body between
    braces, the code has to name a scale, and the body is split at
    whitespace into range tokens. *)
Definition read_fragment (fragment : string) : result (string * list string) :=
  match search fragment with
  | None => Raise (InvalidFormat "Unable to parse the given time period.")
  | Some (code, body) =>
      match kind_of code with
      | None => Raise (InvalidFormat (code ++ " is not a valid scale."))
      | Some _ => Ok (code, Py.split_at Py.is_space body)
      end
  end.

(** All fragments read, or the error of the first that cannot be. *)
Fixpoint read_fragments (fragments : list string)
    : result (list (string * list string)) :=
  match fragments with
  | [] => Ok []
  | fragment :: rest =>
      test <- read_fragment fragment ;;
      tests <- read_fragments rest ;;
      Ok (test :: tests)
  end.

(** The ranges the fragments [tests] give for [code], in the order of the
    text. *)
Definition ranges_for (code : string) (tests : list (string * list string))
    : list string :=
  flat_map (fun test => if (fst test =? code)%string then snd test else []) tests.

(** The codes of the fragments [tests], each once, in the order in which
    they first appear. *)
Fixpoint codes_of (tests : list (string * list string)) : list string :=
  match tests with
  | [] => []
  | test :: rest =>
      fst test :: filter (fun code => negb (code =? fst test)%string) (codes_of rest)
  end.

(** Fragments with the same code accumulate their ranges into one scale
    test. *)
Definition accumulate (tests : list (string * list string))
    : list (string * list string) :=
  map (fun code => (code, ranges_for code tests)) (codes_of tests).

(** The scale tests of a sub-period: its fragments between bars, the ranges
    of fragments with the same code accumulated. *)
Definition scale_tests (sp : string) : result (list (string * list string)) :=
  tests <- read_fragments (Py.split_char "|" sp) ;;
  Ok (accumulate tests).

(** A sub-period matches when all its scale tests do. *)
Definition sub_period_matches (dt : Py.datetime) (sp : string) : bool :=
  match fixed_sub_period sp with
  | Some b => b
  | None =>
      match scale_tests sp with
      | Ok tests => forallb (scale_test_matches dt) tests
      | Raise _ => false
      end
  end.

Definition sub_period_ok (dt : Py.datetime) (sp : string) : bool :=
  match fixed_sub_period sp with
  | Some _ => true
  | None =>
      match scale_tests sp with
      | Ok tests => forallb (scale_test_ok dt) tests
      | Raise _ => false
      end
  end.

(** The sub-periods of a period: the pieces of its normal form between
    commas. *)
Definition sub_periods (period : string) : list string :=
  Py.split_char "," (normalize period).

(** A period matches when any of its sub-periods does. *)
Definition period_matches (period : string) (dt : Py.datetime) : bool :=
  existsb (sub_period_matches dt) (sub_periods period).

(** A period is well formed when every fragment of every sub-period parses
    and every range of every scale test has bounds its scale accepts. *)
Definition well_formed (period : string) (dt : Py.datetime) : bool :=
  forallb (sub_period_ok dt) (sub_periods period).

(** The runs of whitespace the six squeezing passes delete between them. *)
Definition doomed_anywhere (before after : option ascii) : bool :=
  (is_end before || is_end after)
  || (is_char "{" after || is_end after)
  || is_char "," before
  || (is_char "-" after || is_char "-" before)
  || is_char "{" before
  || (is_char "}" after || is_char "}" before).

(** No closing brace of [s] calls for a bar: each is the last character or
    is followed by a comma. *)
Fixpoint braces_before_commas (s : string) : bool :=
  match s with
  | EmptyString => true
  | String c s' =>
      match s' with
      | String d _ => negb ((c =? "}")%char && negb (d =? ",")%char)
      | EmptyString => true
      end && braces_before_commas s'
  end.

(** The bound the specification promises for a year literal: below 100, the
    century of the evaluation year is added, [//] being floor division. *)
Definition expand_year_spec (literal eval_year : Z) : Z :=
  if literal <? 100 then literal + 100 * (eval_year / 100) else literal.

(** The exceptions of the module are [InvalidFormat]s. *)
Definition is_invalid_format (e : exn) : Prop := exists msg, e = InvalidFormat msg.

(** The keys of a [range_lists] dictionary are codes of [SCALES]. *)
Definition known_scales (range_lists : list (string * list string)) : Prop :=
  Forall (fun entry => kind_of (fst entry) <> None) range_lists.

(** The name a scale gives itself in its messages. *)
Definition scale_label (k : scale_kind) : string :=
  match k with
  | Year => "year"
  | Month => "month"
  | Week => "week"
  | YearDay => "year day"
  | MonthDay => "day"
  | WeekDay => "weekday"
  | Hour => "hour"
  | Minute => "minute"
  | Second => "second"
  end.

(** The characters of [s] that satisfy [p], in order. *)
Fixpoint keep (p : ascii -> bool) (s : string) : string :=
  match s with
  | EmptyString => EmptyString
  | String c s' => if p c then String c (keep p s') else keep p s'
  end.

(** What the normalizer neither deletes nor inserts: every character but
    whitespace and the bar. *)
Definition is_payload (c : ascii) : bool :=
  negb (Py.is_space c || (c =? "|")%char).

(** [s] is empty or ends with a character that is no whitespace. *)
Fixpoint ends_without_space (s : string) : bool :=
  match s with
  | EmptyString => true
  | String c EmptyString => negb (Py.is_space c)
  | String _ s' => ends_without_space s'
  end.

(** The characters that end the tail of a day or month name. *)
Definition ends_name (c : ascii) : bool := Py.is_space c || (c =? "-")%char.

(** [name] cannot begin at the first character of [u ++ tail], whatever
    [tail] is: neither is a prefix of the other. *)
Definition cannot_start (name u : string) : bool :=
  negb (Py.startswith name u || Py.startswith u name).

(** The suffixes of [s] that are not empty. *)
Fixpoint suffixes (s : string) : list string :=
  match s with
  | EmptyString => []
  | String _ s' => s :: suffixes s'
  end.

(** An entry of a name table handled before [name] leaves a leading [name]
    alone. *)
Definition leaves_alone (name : string) (earlier : string * Z) : bool :=
  forallb (cannot_start (fst earlier)) (suffixes name).

(** Every entry of the table leaves the names after it alone. *)
Fixpoint names_in_order (table : list (string * Z)) : bool :=
  match table with
  | [] => true
  | entry :: rest =>
      forallb (fun later => leaves_alone (fst later) entry) rest
      && names_in_order rest
  end.

(** What may stand between the braces of a scale test: no closing brace, no
    line feed, no bar. *)
Definition body_ok (body : string) : bool :=
  all_chars (fun c => negb ((c =? "}")%char || (c =? "010")%char)) body
  && all_chars (fun c => negb ("|" =? c)%char) body.

(** The integers [first, first + 1, ...], [count] of them. *)
Fixpoint Zrange (first : Z) (count : nat) : list Z :=
  match count with
  | O => []
  | S count' => first :: Zrange (first + 1) count'
  end.

(** The bound [normal_year] makes of a literal below 100 differs from the
    year whose century it takes. *)
Definition short_year_misses (year literal : Z) : bool :=
  Py.ne (Py.Float (PrimFloat.add (PrimFloat.mul (Py.float_of_Z 100) (Py.truediv year 100))
                                 (Py.float_of_Z literal)))
        (Py.Int year).

(** The week [wk] computes for a day of the month equals [n] exactly on day
    [7 * (n - 1) + 1]. *)
Definition week_is_exact (day n : Z) : bool :=
  Bool.eqb (Py.eq (Py.Int n)
                  (Py.Float (PrimFloat.add (Py.truediv (day - 1) 7) (Py.float_of_Z 1))))
           (day =? 7 * (n - 1) + 1).

(** A name of a table: it begins with a character that is no digit and
    holds no whitespace and no dash; its code is written with digits. *)
Definition entry_ok (entry : string * Z) : bool :=
  match fst entry with
  | EmptyString => false
  | String c _ => negb (Py.is_digit c)
  end
  && all_chars (fun c => negb (ends_name c)) (fst entry)
  && all_chars Py.is_digit (Py.str (snd entry)).

(** The values a scale accepts as bounds; the year scale accepts all. *)
Definition domain (k : scale_kind) : option (Z * Z) :=
  match k with
  | Year => None
  | Month => Some (1, 12)
  | Week => Some (1, 5)
  | YearDay => Some (1, 366)
  | MonthDay => Some (1, 31)
  | WeekDay => Some (1, 7)
  | Hour => Some (0, 23)
  | Minute => Some (0, 59)
  | Second => Some (0, 59)
  end.

(** No two adjacent characters of [s] satisfy [bad]. *)
Fixpoint pairs_ok (bad : ascii -> ascii -> bool) (s : string) : bool :=
  match s with
  | EmptyString => true
  | String a s' =>
      match s' with
      | EmptyString => true
      | String b _ => negb (bad a b)
      end && pairs_ok bad s'
  end.

Definition is_mark (c : ascii) : bool :=
  (c =? ",")%char || (c =? "{")%char || (c =? "}")%char || (c =? "-")%char.

(** Whitespace the squeezing passes would have deleted: before a brace or a
    dash, or after a comma, a brace or a dash. *)
Definition bad_gap (a b : ascii) : bool :=
  (Py.is_space a && ((b =? "{")%char || (b =? "}")%char || (b =? "-")%char))
  || (is_mark a && Py.is_space b).

(** A closing brace followed by something other than a comma or a bar. *)
Definition bad_close (a b : ascii) : bool :=
  (a =? "}")%char && negb ((b =? ",")%char || (b =? "|")%char).

(** The dictionary the building loop of a sub-period leaves when it has
    added the fragments [tests] to [range_lists] in turn. *)
Definition add_all (range_lists tests : list (string * list string))
    : list (string * list string) :=
  fold_left (fun acc test => add_ranges acc (fst test) (snd test)) tests range_lists.

(** The range token as its scale reads it: the month and weekday scales put
    numbers for the names first. *)
Definition resolved (k : scale_kind) (range : string) : string :=
  match k with
  | Month => translate MONTHS range
  | WeekDay => translate DAYS range
  | _ => range
  end.

(** What a scale holds against a bound, if anything: it is no integer, or
    it lies outside the domain of the scale. *)
Definition bound_fault (k : scale_kind) (bound : string) : option exn :=
  match Py.int_of_str bound with
  | None =>
      Some (InvalidFormat ("An integer value is required for " ++ scale_label k ++ "."))
  | Some n =>
      match domain k with
      | Some (lo, hi) =>
          if (lo <=? n) && (n <=? hi) then None
          else Some (InvalidFormat
                       (Py.str n ++ " is not valid for " ++ scale_label k
                        ++ ". Valid options are between " ++ Py.str lo
                        ++ " and " ++ Py.str hi ++ "."))
      | None => None
      end
  end.

(** Neither bound of the range has a fault. *)
Definition bounds_ok (k : scale_kind) (range : string) : bool :=
  let '(low, high) := _splitrange (resolved k range) in
  match bound_fault k low, high with
  | None, None => true
  | None, Some high =>
      match bound_fault k high with
      | None => true
      | Some _ => false
      end
  | Some _, _ => false
  end.

(** The token of [count] zeros. *)
Fixpoint zeros (count : nat) : string :=
  match count with
  | O => EmptyString
  | S count' => String "0" (zeros count')
  end.

(** ** Properties *)

Lemma any_range_ext (f g : string -> result Z) (ranges : list string) :
  (forall range, f range = g range) -> any_range f ranges = any_range g ranges.
Proof.
  intros H. induction ranges as [|r rs IH]; simpl; [reflexivity|].
  rewrite H, IH. reflexivity.
Qed.

Lemma simple_test_loop (k : scale_kind) (dt : Py.datetime) (min max : Z)
    (scale : string) (ranges : list string) :
  (forall range, read_bounds k dt range = checked_bounds range min max scale) ->
  _simple_test (now k dt) ranges min max scale = any_range (range_test k dt) ranges.
Proof.
  intros H. unfold _simple_test. apply any_range_ext. intros range.
  unfold range_test. rewrite H. unfold checked_bounds, as_nums.
  destruct (_splitrange range) as [low high].
  destruct (_in_min_max _ _ _ _ _) as [[l h]|e]; reflexivity.
Qed.

Lemma translated_loop (k : scale_kind) (dt : Py.datetime) (table : list (string * Z))
    (min max : Z) (scale : string) (ranges : list string) :
  (forall range, read_bounds k dt range
                 = checked_bounds (translate table range) min max scale) ->
  any_range (fun range =>
    let range := translate table range in
    let '(low, high) := _splitrange range in
    '(low, high) <- _in_min_max (Text low) (option_map Text high) min max scale ;;
    Ok (_is_in_range (now k dt) (Py.Int low) (option_map Py.Int high))) ranges
  = any_range (range_test k dt) ranges.
Proof.
  intros H. apply any_range_ext. intros range.
  unfold range_test. rewrite H. unfold checked_bounds, as_nums.
  destruct (_splitrange _) as [low high].
  destruct (_in_min_max _ _ _ _ _) as [[l h]|e]; reflexivity.
Qed.

Lemma yr_loop ranges dt : yr ranges dt = any_range (range_test Year dt) ranges.
Proof.
  unfold yr. apply any_range_ext. intros range. unfold range_test, read_bounds.
  destruct (_splitrange range) as [low high].
  destruct (normal_year_of low dt) as [l|e]; [|reflexivity]. simpl.
  destruct (normal_year high dt) as [h|e]; reflexivity.
Qed.

Lemma hr_loop ranges dt : hr ranges dt = any_range (range_test Hour dt) ranges.
Proof.
  unfold hr. apply any_range_ext. intros range. unfold range_test, read_bounds.
  destruct (_splitrange range) as [low high].
  destruct (normal_hour_of low) as [l|e]; [|reflexivity]. simpl.
  destruct (normal_hour high) as [h|e]; [|reflexivity]. simpl.
  unfold as_nums.
  destruct (_in_min_max _ _ _ _ _) as [[l' h']|e]; reflexivity.
Qed.

Lemma mo_loop ranges dt : mo ranges dt = any_range (range_test Month dt) ranges.
Proof. apply (translated_loop Month). reflexivity. Qed.

Lemma wd_loop ranges dt : wd ranges dt = any_range (range_test WeekDay dt) ranges.
Proof. apply (translated_loop WeekDay). reflexivity. Qed.

Lemma wk_loop ranges dt : wk ranges dt = any_range (range_test Week dt) ranges.
Proof. apply (simple_test_loop Week). reflexivity. Qed.

Lemma yd_loop ranges dt : yd ranges dt = any_range (range_test YearDay dt) ranges.
Proof. apply (simple_test_loop YearDay). reflexivity. Qed.

Lemma md_loop ranges dt : md ranges dt = any_range (range_test MonthDay dt) ranges.
Proof. apply (simple_test_loop MonthDay). reflexivity. Qed.

Lemma min_loop ranges dt : min ranges dt = any_range (range_test Minute dt) ranges.
Proof. apply (simple_test_loop Minute). reflexivity. Qed.

Lemma sec_loop ranges dt : sec ranges dt = any_range (range_test Second dt) ranges.
Proof. apply (simple_test_loop Second). reflexivity. Qed.

(** Every entry of [SCALES] is the loop over the ranges of one scale. *)
Lemma scales_are_loops (code : string) (f : scale_function) :
  get SCALES code = Some f ->
  exists k, kind_of code = Some k /\
            forall ranges dt, f ranges dt = any_range (range_test k dt) ranges.
Proof.
  unfold SCALES, kind_of. cbn [get].
  repeat (destruct (_ =? code)%string;
          [ intros H; injection H as <-; eexists; split; [reflexivity|];
            intros ranges dt;
            first [ apply yr_loop | apply mo_loop | apply wk_loop | apply yd_loop
                  | apply md_loop | apply wd_loop | apply hr_loop | apply min_loop
                  | apply sec_loop ]
          | ]).
  discriminate.
Qed.

Lemma is_in_range_ints (x low : Z) (high : option Z) :
  _is_in_range (Py.Int x) (Py.Int low) (option_map Py.Int high)
  = if in_range_rule x low high then 1 else 0.
Proof.
  unfold _is_in_range, in_range_rule, Py.ne, Py.eq, Py.gt, Py.lt, Py.ge, Py.le.
  destruct high as [high|]; simpl.
  - destruct (Z.compare_spec low high), (Z.compare_spec high low),
      (Z.compare_spec x high), (Z.compare_spec x low), (Z.compare_spec low x),
      (Z.eqb_spec high low), (Z.eqb_spec x low), (Z.ltb_spec low high),
      (Z.leb_spec low x), (Z.leb_spec x high); simpl; try reflexivity; lia.
  - destruct (Z.compare_spec low x), (Z.eqb_spec x low); simpl; try reflexivity; lia.
Qed.

(** C1.  [_is_in_range] on integers is the matching rule of the
    specification: with no high bound, or with high = low, a value matches
    iff it equals low; with high > low iff low <= x <= high; with
    high < low iff x >= low or x <= high.  Every function of [SCALES] is a
    loop that reads the bounds of each range and applies [_is_in_range] to
    the scale's value of the instant. *)
Theorem range_matching_rule :
  (forall x low : Z,
      (_is_in_range (Py.Int x) (Py.Int low) None = 1 <-> x = low) /\
      (_is_in_range (Py.Int x) (Py.Int low) (Some (Py.Int low)) = 1 <-> x = low)) /\
  (forall x low high : Z, high > low ->
      (_is_in_range (Py.Int x) (Py.Int low) (Some (Py.Int high)) = 1
       <-> low <= x <= high)) /\
  (forall x low high : Z, high < low ->
      (_is_in_range (Py.Int x) (Py.Int low) (Some (Py.Int high)) = 1
       <-> x >= low \/ x <= high)) /\
  (forall (x low : Z) (high : option Z),
      _is_in_range (Py.Int x) (Py.Int low) (option_map Py.Int high)
      = if in_range_rule x low high then 1 else 0) /\
  (forall (code : string) (f : scale_function),
      get SCALES code = Some f ->
      exists k, kind_of code = Some k /\
        forall ranges dt, f ranges dt = any_range (range_test k dt) ranges) /\
  (forall k dt range low high,
      read_bounds k dt range = Ok (low, high) ->
      range_test k dt range = Ok (_is_in_range (now k dt) low high)).
Proof.
  assert (R : forall x low high,
             _is_in_range (Py.Int x) (Py.Int low) (option_map Py.Int high) = 1
             <-> in_range_rule x low high = true).
  { intros x low high. rewrite is_in_range_ints.
    destruct (in_range_rule x low high); split; intros H;
      first [reflexivity | discriminate]. }
  split; [|split; [|split; [|split; [|split]]]].
  - intros x low. split.
    + rewrite (R x low None). simpl. apply Z.eqb_eq.
    + rewrite (R x low (Some low)). simpl. rewrite Z.eqb_refl. apply Z.eqb_eq.
  - intros x low high Hgt. rewrite (R x low (Some high)). simpl.
    destruct (Z.eqb_spec high low); [lia|].
    destruct (Z.ltb_spec low high); [|lia].
    rewrite andb_true_iff, !Z.leb_le. reflexivity.
  - intros x low high Hlt. rewrite (R x low (Some high)). simpl.
    destruct (Z.eqb_spec high low); [lia|].
    destruct (Z.ltb_spec low high); [lia|].
    rewrite orb_true_iff, !Z.leb_le. lia.
  - apply is_in_range_ints.
  - apply scales_are_loops.
  - intros k dt range low high H. unfold range_test. rewrite H. reflexivity.
Qed.

(** *** Evaluation of a well-formed period *)

Lemma any_range_exists (k : scale_kind) (dt : Py.datetime) (ranges : list string) :
  forallb (range_ok k dt) ranges = true ->
  any_range (range_test k dt) ranges
  = Ok (if existsb (range_matches k dt) ranges then 1 else 0).
Proof.
  induction ranges as [|range ranges IH]; intros H; [reflexivity|].
  cbn [forallb] in H. apply andb_true_iff in H as [Hr Hrs].
  cbn [any_range existsb]. unfold range_ok in Hr. unfold range_matches at 1.
  destruct (range_test k dt range) as [r|e]; [|discriminate]. cbn [bind].
  destruct (Py.truthy r); [reflexivity | exact (IH Hrs)].
Qed.

Lemma kind_of_scales (code : string) (k : scale_kind) :
  kind_of code = Some k ->
  exists f, get SCALES code = Some f /\
            forall ranges dt, f ranges dt = any_range (range_test k dt) ranges.
Proof.
  intros H.
  destruct (get SCALES code) as [f|] eqn:E.
  - destruct (scales_are_loops code f E) as [k' [Hk Hf]].
    rewrite H in Hk. injection Hk as <-. exists f. split; [reflexivity | exact Hf].
  - exfalso. revert H E. unfold SCALES, kind_of. cbn [get].
    repeat (destruct (_ =? code)%string; [discriminate|]). discriminate.
Qed.

Lemma scales_have_kinds (code : string) :
  get SCALES code <> None -> kind_of code <> None.
Proof.
  unfold SCALES, kind_of. cbn [get].
  repeat (destruct (_ =? code)%string; [discriminate|]). intros H. contradiction H. reflexivity.
Qed.

Lemma check_scales_forall (dt : Py.datetime) (tests : list (string * list string)) :
  forallb (scale_test_ok dt) tests = true ->
  check_scales tests dt
  = Ok (if forallb (scale_test_matches dt) tests then 1 else 0).
Proof.
  induction tests as [|[scale ranges] tests IH]; intros H; [reflexivity|].
  cbn [forallb] in H. apply andb_true_iff in H as [Ht Hts].
  cbn [check_scales forallb]. unfold scale_test_ok in Ht.
  unfold scale_test_matches at 1. cbn [fst snd] in *.
  destruct (kind_of scale) as [k|] eqn:Ek; [|discriminate].
  destruct (kind_of_scales scale k Ek) as [f [Hg Hf]].
  rewrite Hg, Hf, (any_range_exists k dt ranges Ht). cbn [bind].
  destruct (existsb (range_matches k dt) ranges); cbn [negb Z.eqb andb].
  - exact (IH Hts).
  - reflexivity.
Qed.

(** *** The scale tests the code builds *)

Lemma parse_scale_reads (scale_exp : string) :
  _parse_scale scale_exp = read_fragment scale_exp.
Proof.
  unfold _parse_scale, read_fragment.
  destruct (search scale_exp) as [[scale range]|]; [|reflexivity].
  destruct (get SCALES scale) as [f|] eqn:E.
  - destruct (kind_of scale) eqn:K; [reflexivity|].
    exfalso. apply (scales_have_kinds scale); [rewrite E; discriminate | exact K].
  - destruct (kind_of scale) as [k|] eqn:K; [|reflexivity].
    destruct (kind_of_scales scale k K) as [f [Hg _]]. rewrite Hg in E. discriminate.
Qed.

Lemma build_range_lists_reads (scales : list string)
    (range_lists : list (string * list string)) :
  build_range_lists scales range_lists
  = (tests <- read_fragments scales ;; Ok (add_all range_lists tests)).
Proof.
  revert range_lists. induction scales as [|scale_exp scales IH]; intros range_lists;
    cbn [build_range_lists read_fragments]; [reflexivity|].
  rewrite parse_scale_reads.
  destruct (read_fragment scale_exp) as [[scale ranges]|e]; cbn [bind]; [|reflexivity].
  rewrite IH. destruct (read_fragments scales); reflexivity.
Qed.

Lemma codes_of_snoc (tests : list (string * list string)) (code : string)
    (ranges : list string) :
  codes_of (tests ++ [(code, ranges)])
  = if existsb (String.eqb code) (codes_of tests) then codes_of tests
    else (codes_of tests ++ [code])%list.
Proof.
  induction tests as [|[c r] tests IH]; cbn [app codes_of fst existsb filter];
    [reflexivity|].
  rewrite IH. clear IH.
  assert (F : forall l, existsb (String.eqb code)
                          (filter (fun x => negb (x =? c)%string) l)
                        = negb (code =? c)%string && existsb (String.eqb code) l).
  { induction l as [|x l IHl]; cbn [filter existsb]; [rewrite andb_false_r; reflexivity|].
    destruct (String.eqb_spec x c) as [->|Hx]; cbn [negb existsb].
    - rewrite IHl. destruct (String.eqb_spec code c); reflexivity.
    - rewrite IHl. destruct (String.eqb_spec code x) as [->|];
        [|reflexivity].
      destruct (String.eqb_spec x c); [contradiction | reflexivity]. }
  rewrite F.
  destruct (String.eqb_spec code c) as [->|Hc]; cbn [negb andb orb].
  - destruct (existsb (String.eqb c) (codes_of tests)); [reflexivity|].
    rewrite filter_app. cbn [filter]. rewrite String.eqb_refl. cbn [negb].
    rewrite app_nil_r. reflexivity.
  - destruct (existsb (String.eqb code) (codes_of tests)); [reflexivity|].
    rewrite filter_app. cbn [filter].
    destruct (String.eqb_spec code c); [contradiction|]. reflexivity.
Qed.

Lemma codes_of_NoDup (tests : list (string * list string)) : NoDup (codes_of tests).
Proof.
  induction tests as [|[c r] tests IH]; cbn [codes_of fst]; constructor.
  - intros H. apply filter_In in H as [_ H]. rewrite String.eqb_refl in H.
    discriminate.
  - apply NoDup_filter, IH.
Qed.

Lemma codes_of_In (tests : list (string * list string)) (code : string) :
  In code (codes_of tests) <-> In code (map fst tests).
Proof.
  induction tests as [|[c r] tests IH]; cbn [codes_of map fst In]; [reflexivity|].
  rewrite filter_In, IH. destruct (String.eqb_spec code c) as [->|Hc].
  - split; intros _; left; reflexivity.
  - split.
    + intros [E|[H _]]; [left; exact E | right; exact H].
    + intros [E|H]; [left; exact E | right; split; [exact H | reflexivity]].
Qed.

Lemma ranges_for_absent (tests : list (string * list string)) (code : string) :
  ~ In code (map fst tests) -> ranges_for code tests = [].
Proof.
  unfold ranges_for.
  induction tests as [|[c r] tests IH]; cbn [flat_map map fst snd In]; intros H;
    [reflexivity|].
  destruct (String.eqb_spec c code) as [->|_]; [contradiction H; left; reflexivity|].
  apply IH. intros H'. apply H. right. exact H'.
Qed.

Lemma ranges_for_snoc (tests : list (string * list string)) (code c : string)
    (ranges : list string) :
  ranges_for code (tests ++ [(c, ranges)])
  = (ranges_for code tests ++ (if (c =? code)%string then ranges else []))%list.
Proof.
  unfold ranges_for. rewrite flat_map_app. cbn [flat_map fst snd].
  rewrite app_nil_r. reflexivity.
Qed.

Lemma add_ranges_fresh (range_lists : list (string * list string)) (scale : string)
    (ranges : list string) :
  ~ In scale (map fst range_lists) ->
  add_ranges range_lists scale ranges = (range_lists ++ [(scale, ranges)])%list.
Proof.
  induction range_lists as [|[k v] rest IH]; cbn [add_ranges map fst In app];
    intros H; [reflexivity|].
  destruct (String.eqb_spec k scale) as [->|_]; [contradiction H; left; reflexivity|].
  rewrite IH; [reflexivity|]. intros H'. apply H. right. exact H'.
Qed.

Lemma add_ranges_present (codes : list string) (g : string -> list string)
    (scale : string) (ranges : list string) :
  NoDup codes -> In scale codes ->
  add_ranges (map (fun code => (code, g code)) codes) scale ranges
  = map (fun code => (code, (g code ++ (if (scale =? code)%string then ranges else []))%list))
        codes.
Proof.
  induction codes as [|c codes IH]; intros Hnd Hin; [contradiction|].
  apply NoDup_cons_iff in Hnd as [Hc Hnd]. cbn [map add_ranges].
  destruct (String.eqb_spec c scale) as [->|Hne].
  - rewrite String.eqb_refl. f_equal. apply map_ext_in. intros x Hx.
    destruct (String.eqb_spec scale x) as [->|_]; [contradiction|].
    rewrite app_nil_r. reflexivity.
  - destruct (String.eqb_spec scale c) as [->|_]; [contradiction Hne; reflexivity|].
    rewrite app_nil_r. f_equal. apply IH; [exact Hnd|].
    destruct Hin as [E|Hin]; [contradiction | exact Hin].
Qed.

Lemma accumulate_snoc (tests : list (string * list string)) (scale : string)
    (ranges : list string) :
  accumulate (tests ++ [(scale, ranges)]) = add_ranges (accumulate tests) scale ranges.
Proof.
  unfold accumulate. rewrite codes_of_snoc.
  destruct (existsb (String.eqb scale) (codes_of tests)) eqn:E.
  - apply existsb_exists in E as [x [Hx Ex]]. apply String.eqb_eq in Ex as <-.
    rewrite (add_ranges_present _ (fun code => ranges_for code tests) scale ranges
               (codes_of_NoDup tests) Hx).
    apply map_ext. intros code. rewrite ranges_for_snoc. reflexivity.
  - assert (Hn : ~ In scale (codes_of tests)).
    { intros H. assert (existsb (String.eqb scale) (codes_of tests) = true) as E';
        [|rewrite E' in E; discriminate].
      apply existsb_exists. exists scale. split; [exact H | apply String.eqb_refl]. }
    rewrite add_ranges_fresh; [|rewrite map_map; cbn [fst]; rewrite map_id; exact Hn].
    rewrite map_app. cbn [map]. f_equal.
    + apply map_ext_in. intros code Hc. rewrite ranges_for_snoc.
      destruct (String.eqb_spec scale code) as [->|_]; [contradiction|].
      rewrite app_nil_r. reflexivity.
    + rewrite ranges_for_snoc, String.eqb_refl, ranges_for_absent; [reflexivity|].
      rewrite <- codes_of_In. exact Hn.
Qed.

Lemma add_all_accumulate (tests : list (string * list string)) :
  add_all [] tests = accumulate tests.
Proof.
  unfold add_all. induction tests as [|[scale ranges] tests IH] using rev_ind;
    [reflexivity|].
  rewrite fold_left_app. cbn [fold_left fst snd]. rewrite IH, accumulate_snoc.
  reflexivity.
Qed.

(** The dictionary [_is_in_sub_period] builds holds the scale tests of the
    sub-period, in the order in which their codes first appear. *)
Lemma scale_tests_built (sp : string) :
  build_range_lists (Py.split_char "|" sp) [] = scale_tests sp.
Proof.
  unfold scale_tests. rewrite build_range_lists_reads.
  destruct (read_fragments (Py.split_char "|" sp)) as [tests|e]; cbn [bind];
    [|reflexivity].
  rewrite add_all_accumulate. reflexivity.
Qed.
Lemma is_in_sub_period_fixed (sp : string) (dt : Py.datetime) (b : bool) :
  fixed_sub_period sp = Some b -> _is_in_sub_period sp dt = Ok (if b then 1 else 0).
Proof.
  unfold fixed_sub_period, _is_in_sub_period.
  destruct (sp =? "never")%string; [intros H; injection H as <-; reflexivity|].
  destruct ((sp =? "none")%string || (sp =? "always")%string || (sp =? "")%string);
    [intros H; injection H as <-; reflexivity | discriminate].
Qed.

Lemma is_in_sub_period_tests (sp : string) (dt : Py.datetime) :
  fixed_sub_period sp = None ->
  _is_in_sub_period sp dt = (tests <- scale_tests sp ;; check_scales tests dt).
Proof.
  rewrite <- scale_tests_built. unfold fixed_sub_period, _is_in_sub_period.
  destruct (sp =? "never")%string; [discriminate|].
  destruct ((sp =? "none")%string || (sp =? "always")%string || (sp =? "")%string);
    [discriminate | reflexivity].
Qed.

Lemma is_in_sub_period_matches (sp : string) (dt : Py.datetime) :
  sub_period_ok dt sp = true ->
  _is_in_sub_period sp dt = Ok (if sub_period_matches dt sp then 1 else 0).
Proof.
  unfold sub_period_ok, sub_period_matches.
  destruct (fixed_sub_period sp) as [b|] eqn:E; intros H.
  - apply is_in_sub_period_fixed, E.
  - rewrite (is_in_sub_period_tests sp dt E).
    destruct (scale_tests sp) as [tests|e]; [|discriminate].
    cbn [bind]. apply check_scales_forall, H.
Qed.

Lemma any_sub_period_exists (sps : list string) (dt : Py.datetime) :
  forallb (sub_period_ok dt) sps = true ->
  any_sub_period sps dt = Ok (existsb (sub_period_matches dt) sps).
Proof.
  induction sps as [|sp sps IH]; intros H; [reflexivity|].
  cbn [forallb] in H. apply andb_true_iff in H as [Hs Hss].
  cbn [any_sub_period existsb]. rewrite (is_in_sub_period_matches sp dt Hs).
  cbn [bind]. destruct (sub_period_matches dt sp); [reflexivity | exact (IH Hss)].
Qed.

Lemma in_period_sub_periods (period : string) (dt : Py.datetime) :
  in_period period dt = any_sub_period (sub_periods period) dt.
Proof.
  unfold in_period, sub_periods.
  destruct (String.eqb_spec (normalize period) "") as [E|E]; [|reflexivity].
  rewrite E. reflexivity.
Qed.

Lemma any_sub_period_app (l1 l2 : list string) (dt : Py.datetime) :
  any_sub_period (l1 ++ l2) dt
  = match any_sub_period l1 dt with
    | Ok true => Ok true
    | Ok false => any_sub_period l2 dt
    | Raise e => Raise e
    end.
Proof.
  induction l1 as [|sp l1 IH]; [reflexivity|].
  cbn [app any_sub_period]. destruct (_is_in_sub_period sp dt) as [r|e]; [|reflexivity].
  cbn [bind]. destruct (Py.truthy r); [reflexivity | exact IH].
Qed.

Lemma any_sub_period_first_match (pre post : list string) (sp : string)
    (dt : Py.datetime) :
  forallb (fun s => sub_period_ok dt s && negb (sub_period_matches dt s)) pre = true ->
  sub_period_ok dt sp = true -> sub_period_matches dt sp = true ->
  any_sub_period (pre ++ sp :: post) dt = Ok true.
Proof.
  intros Hpre Hok Hm. induction pre as [|s pre IH].
  - cbn [app any_sub_period]. rewrite (is_in_sub_period_matches sp dt Hok), Hm.
    reflexivity.
  - cbn [forallb] in Hpre. apply andb_true_iff in Hpre as [Hs Hpre].
    apply andb_true_iff in Hs as [Hsok Hsm]. apply negb_true_iff in Hsm.
    cbn [app any_sub_period]. rewrite (is_in_sub_period_matches s dt Hsok), Hsm.
    cbn [bind]. exact (IH Hpre).
Qed.

Lemma add_ranges_same (range_lists : list (string * list string)) (scale : string)
    (ranges : list string) :
  get (add_ranges range_lists scale ranges) scale
  = Some (match get range_lists scale with
          | Some old => (old ++ ranges)%list
          | None => ranges
          end).
Proof.
  induction range_lists as [|[k v] rest IH]; cbn [add_ranges get].
  - rewrite String.eqb_refl. reflexivity.
  - destruct (k =? scale)%string eqn:E; cbn [get]; rewrite E; [reflexivity | exact IH].
Qed.

Lemma add_ranges_other (range_lists : list (string * list string))
    (scale other : string) (ranges : list string) :
  scale <> other ->
  get (add_ranges range_lists scale ranges) other = get range_lists other.
Proof.
  intros Hne. induction range_lists as [|[k v] rest IH]; cbn [add_ranges get].
  - destruct (String.eqb_spec scale other); [contradiction | reflexivity].
  - destruct (String.eqb_spec k scale) as [->|Hk]; cbn [get].
    + destruct (String.eqb_spec scale other); [contradiction | reflexivity].
    + rewrite IH. reflexivity.
Qed.

(** C2.  On a well-formed period [in_period] returns whether some
    sub-period matches, a sub-period matching when all its scale tests do
    and a scale test when any of its accumulated ranges does; the same holds
    one level at a time, and the first sub-period that matches decides,
    whatever follows it.  The scale tests are read off the text of the
    sub-period: the dictionary that [_is_in_sub_period] builds holds, for
    each code in the order of first appearance, the ranges of all fragments
    with that code; a fragment adds its ranges after those already
    accumulated for its code and leaves the other codes alone. *)
Theorem period_is_or_of_ands (period : string) (dt : Py.datetime) :
  (well_formed period dt = true ->
   in_period period dt = Ok (period_matches period dt)) /\
  (forall pre sp post,
      sub_periods period = (pre ++ sp :: post)%list ->
      forallb (fun s => sub_period_ok dt s && negb (sub_period_matches dt s)) pre = true ->
      sub_period_ok dt sp = true -> sub_period_matches dt sp = true ->
      in_period period dt = Ok true) /\
  (forall sp,
      sub_period_ok dt sp = true ->
      _is_in_sub_period sp dt = Ok (if sub_period_matches dt sp then 1 else 0)) /\
  (forall code f ranges,
      get SCALES code = Some f -> scale_test_ok dt (code, ranges) = true ->
      f ranges dt = Ok (if scale_test_matches dt (code, ranges) then 1 else 0)) /\
  (forall range_lists scale ranges,
      get (add_ranges range_lists scale ranges) scale
      = Some (match get range_lists scale with
              | Some old => (old ++ ranges)%list
              | None => ranges
              end) /\
      forall other, scale <> other ->
        get (add_ranges range_lists scale ranges) other = get range_lists other) /\
  (forall sp, build_range_lists (Py.split_char "|" sp) [] = scale_tests sp) /\
  (forall sp tests,
      scale_tests sp = Ok tests ->
      _is_in_sub_period sp dt
      = match fixed_sub_period sp with
        | Some b => Ok (if b then 1 else 0)
        | None => check_scales tests dt
        end).
Proof.
  split; [|split; [|split; [|split; [|split; [|split]]]]].
  - intros H. rewrite in_period_sub_periods. apply any_sub_period_exists, H.
  - intros pre sp post E Hpre Hok Hm. rewrite in_period_sub_periods, E.
    apply any_sub_period_first_match; assumption.
  - intros sp. apply is_in_sub_period_matches.
  - intros code f ranges Hg. unfold scale_test_ok, scale_test_matches. cbn [fst snd].
    destruct (scales_are_loops code f Hg) as [k [Hk Hf]]. rewrite Hk, Hf.
    apply any_range_exists.
  - intros range_lists scale ranges. split.
    + apply add_ranges_same.
    + intros other. apply add_ranges_other.
  - apply scale_tests_built.
  - intros sp tests Ht. destruct (fixed_sub_period sp) as [b|] eqn:F.
    + apply is_in_sub_period_fixed, F.
    + rewrite (is_in_sub_period_tests sp dt F), Ht. reflexivity.
Qed.

(** Two well-formed periods of two sub-periods each at 2014-02-11 12:05, a
    Tuesday: in the first the second sub-period matches, in the second the
    hour of the second sub-period does not. *)
Lemma period_is_or_of_ands_witness :
  let dt := Py.mkdatetime 2014 2 11 12 5 0 in
  let period := "wd {mo} hr {0-12}, wd {tu} hr {12-23}" in
  let other := "wd {mo} hr {0-12}, wd {tu} hr {13-23} hr {0-11}" in
  (well_formed period dt = true /\ in_period period dt = Ok true) /\
  (well_formed other dt = true /\ in_period other dt = Ok false) /\
  scale_tests "wd{tu}|hr{13-23}|hr{0-11}" = Ok [("wd", ["tu"]); ("hr", ["13-23"; "0-11"])].
Proof.
  cbv zeta. split; [|split].
  - split; [vm_compute; reflexivity|].
    rewrite (proj1 (period_is_or_of_ands _ _)); vm_compute; reflexivity.
  - split; [vm_compute; reflexivity|].
    rewrite (proj1 (period_is_or_of_ands _ _)); vm_compute; reflexivity.
  - vm_compute. reflexivity.
Defined.

(** C3.  Whatever the instant, the empty period and ["always"] match and
    ["never"] does not. *)
Theorem fixed_periods (dt : Py.datetime) :
  in_period "" dt = Ok true /\
  in_period "never" dt = Ok false /\
  in_period "always" dt = Ok true.
Proof. repeat split; reflexivity. Qed.

Lemma weekday_bounds (dt : Py.datetime) : 0 <= Py.weekday dt <= 6.
Proof.
  unfold Py.weekday.
  pose proof (Z.mod_pos_bound (Py.toordinal dt + 6) 7). lia.
Qed.

Lemma wd_fr_mo (dt : Py.datetime) :
  in_period "wd {fr-mo}" dt
  = Ok (Py.truthy (_is_in_range (Py.Int (wd_today dt)) (Py.Int 6) (Some (Py.Int 2)))).
Proof.
  cbv -[wd_today _is_in_range Py.truthy].
  destruct (Py.truthy _); reflexivity.
Qed.

Lemma weekday_cases (dt : Py.datetime) :
  Py.weekday dt = 0 \/ Py.weekday dt = 1 \/ Py.weekday dt = 2 \/
  Py.weekday dt = 3 \/ Py.weekday dt = 4 \/ Py.weekday dt = 5 \/ Py.weekday dt = 6.
Proof. pose proof (weekday_bounds dt). lia. Qed.

(** C4.  ["wd {fr-mo}"] matches exactly on Friday, Saturday, Sunday and
    Monday ([weekday()] 4, 5, 6, 0) and not from Tuesday to Thursday (1, 2,
    3); the value [wd] tests is [(weekday() + 2) mod 7] with 0 replaced by
    7, which numbers Sunday 1, Monday 2, ..., Saturday 7. *)
Theorem weekday_wraparound (dt : Py.datetime) :
  in_period "wd {fr-mo}" dt = Ok (existsb (Z.eqb (Py.weekday dt)) [4; 5; 6; 0]) /\
  (in_period "wd {fr-mo}" dt = Ok false <->
   Py.weekday dt = 1 \/ Py.weekday dt = 2 \/ Py.weekday dt = 3) /\
  0 <= Py.weekday dt <= 6 /\
  wd_today dt = (if (Py.weekday dt + 2) mod 7 =? 0 then 7
                 else (Py.weekday dt + 2) mod 7) /\
  wd_today dt = nth (Z.to_nat (Py.weekday dt)) [2; 3; 4; 5; 6; 7; 1] 0.
Proof.
  rewrite wd_fr_mo. unfold wd_today.
  split; [|split; [|split; [apply weekday_bounds | split; [reflexivity|]]]];
    destruct (weekday_cases dt) as [H|[H|[H|[H|[H|[H|H]]]]]]; rewrite H;
    try reflexivity;
    (split; [intros E; first [discriminate E | lia] | intros E; first [reflexivity | lia]]).
Qed.

Lemma translate_months_names :
  forallb (fun entry => (translate MONTHS (fst entry) =? Py.str (snd entry))%string)
          MONTHS = true.
Proof. reflexivity. Qed.

(** C5.  ["mo {jan-mar}"] and ["mo {1-3}"] give the same result at every
    instant: the month names of a range are replaced by their numbers
    before the bounds are read as integers. *)
Theorem month_names_are_numbers (dt : Py.datetime) :
  in_period "mo {jan-mar}" dt = in_period "mo {1-3}" dt /\
  in_period "mo {1-3}" dt = Ok ((1 <=? Py.month dt) && (Py.month dt <=? 3)) /\
  translate MONTHS "jan-mar" = "1-3" /\
  (forall name code, In (name, code) MONTHS -> translate MONTHS name = Py.str code).
Proof.
  split; [|split; [|split]].
  - cbv -[_is_in_range Py.truthy Py.month]. reflexivity.
  - transitivity (Ok (Py.truthy (_is_in_range (Py.Int (Py.month dt)) (Py.Int 1)
                                              (option_map Py.Int (Some 3))))).
    + cbv -[_is_in_range Py.truthy Py.month].
      destruct (Py.truthy _); reflexivity.
    + rewrite is_in_range_ints. unfold in_range_rule.
      change (3 =? 1) with false. change (1 <? 3) with true. cbv beta iota.
      destruct ((1 <=? Py.month dt) && (Py.month dt <=? 3)); reflexivity.
  - reflexivity.
  - intros name code H.
    pose proof translate_months_names as A. rewrite forallb_forall in A.
    apply String.eqb_eq. exact (A _ H).
Qed.

(** C6, as the code behaves.  On 2014-02-11 12:05 the literal 14 is not
    expanded to 2014: [dt.year / 100] is 20.14, the bound becomes 2028.0,
    and ["yr {14}"] does not match, although ["yr {2014}"] does. *)
Theorem two_digit_year_in_2014 :
  let dt := Py.mkdatetime 2014 2 11 12 5 0 in
  expand_year_spec 14 (Py.year dt) = 2014 /\
  (exists bound, normal_year_of "14" dt = Ok bound /\
                 Py.eq bound (Py.Int 2028) = true /\
                 Py.eq bound (Py.Int (expand_year_spec 14 (Py.year dt))) = false) /\
  in_period "yr {14}" dt = Ok false /\
  in_period "yr {2014}" dt = Ok true.
Proof.
  cbv zeta. split; [reflexivity | split; [|split; vm_compute; reflexivity]].
  eexists. split; [vm_compute; reflexivity|].
  split; vm_compute; reflexivity.
Qed.


(** *** Errors *)

Lemma truthy_false (r : Z) : Py.truthy r = false <-> r = 0.
Proof.
  unfold Py.truthy. rewrite negb_false_iff. apply Z.eqb_eq.
Qed.

Lemma any_sub_period_raises (sps : list string) (dt : Py.datetime) (e : exn) :
  any_sub_period sps dt = Raise e <->
  exists pre sp post,
    sps = (pre ++ sp :: post)%list /\
    Forall (fun s => _is_in_sub_period s dt = Ok 0) pre /\
    _is_in_sub_period sp dt = Raise e.
Proof.
  induction sps as [|s sps IH]; cbn [any_sub_period].
  - split; [discriminate|]. intros [pre [sp [post [E _]]]].
    destruct pre; discriminate.
  - destruct (_is_in_sub_period s dt) as [r|e'] eqn:Es; cbn [bind].
    + destruct (Py.truthy r) eqn:Et.
      * split; [discriminate|]. intros [pre [sp [post [E [Hpre Hsp]]]]].
        destruct pre as [|p pre]; injection E as -> ->.
        -- rewrite Es in Hsp. discriminate.
        -- inversion Hpre as [|? ? Hp _]. rewrite Es in Hp. injection Hp as ->.
           discriminate.
      * apply truthy_false in Et. subst r. rewrite IH. split.
        -- intros [pre [sp [post [E [Hpre Hsp]]]]]. exists (s :: pre), sp, post.
           subst sps. repeat split; [constructor|]; assumption.
        -- intros [pre [sp [post [E [Hpre Hsp]]]]].
           destruct pre as [|p pre]; injection E as -> ->.
           ++ rewrite Es in Hsp. discriminate.
           ++ exists pre, sp, post. inversion Hpre. repeat split; assumption.
    + split.
      * intros H. injection H as ->. exists [], s, sps.
        repeat split; [constructor | assumption].
      * intros [pre [sp [post [E [Hpre Hsp]]]]].
        destruct pre as [|p pre]; injection E as -> ->.
        -- rewrite Es in Hsp. injection Hsp as ->. reflexivity.
        -- inversion Hpre as [|? ? Hp _]. rewrite Es in Hp. discriminate.
Qed.

Lemma in_min_max_raises low high min max scale e :
  _in_min_max low high min max scale = Raise e -> is_invalid_format e.
Proof.
  unfold _in_min_max, integer_required, not_valid.
  destruct (int low) as [l|]; [|intros H; injection H as <-; eexists; reflexivity].
  destruct ((l <? min) || (l >? max)); [intros H; injection H as <-; eexists; reflexivity|].
  destruct high as [high|]; [|discriminate].
  destruct (int high) as [h|]; [|intros H; injection H as <-; eexists; reflexivity].
  destruct ((h <? min) || (h >? max)); [intros H; injection H as <-; eexists; reflexivity|].
  discriminate.
Qed.

Lemma checked_bounds_raises range min max scale e :
  checked_bounds range min max scale = Raise e -> is_invalid_format e.
Proof.
  unfold checked_bounds, as_nums. destruct (_splitrange range) as [low high].
  destruct (_in_min_max _ _ _ _ _) as [[l h]|e'] eqn:E; cbn [bind]; [discriminate|].
  intros H. injection H as <-. exact (in_min_max_raises _ _ _ _ _ _ E).
Qed.

Lemma normal_year_of_raises year dt e :
  normal_year_of year dt = Raise e -> is_invalid_format e.
Proof.
  unfold normal_year_of, integer_required. destruct (Py.int_of_str year) as [y|].
  - destruct (y <? 100); discriminate.
  - intros H. injection H as <-. eexists. reflexivity.
Qed.

Lemma normal_hour_of_raises hour e :
  normal_hour_of hour = Raise e -> is_invalid_format e.
Proof.
  unfold normal_hour_of, integer_required. destruct (Py.int_of_str hour) as [h|].
  - discriminate.
  - intros H. injection H as <-. eexists. reflexivity.
Qed.

Lemma read_bounds_raises k dt range e :
  read_bounds k dt range = Raise e -> is_invalid_format e.
Proof.
  destruct k; cbn [read_bounds]; try apply checked_bounds_raises.
  - destruct (_splitrange range) as [low high].
    destruct (normal_year_of low dt) as [l|e'] eqn:El; cbn [bind].
    + unfold normal_year. destruct high as [high|]; [|discriminate].
      destruct (normal_year_of high dt) as [h|e''] eqn:Eh; cbn [bind]; [discriminate|].
      intros H. injection H as <-. exact (normal_year_of_raises _ _ _ Eh).
    + intros H. injection H as <-. exact (normal_year_of_raises _ _ _ El).
  - destruct (_splitrange range) as [low high].
    destruct (normal_hour_of low) as [l|e'] eqn:El; cbn [bind].
    + unfold normal_hour. destruct high as [high|]; cbn [bind].
      * destruct (normal_hour_of high) as [h|e''] eqn:Eh; cbn [bind].
        -- unfold as_nums.
           destruct (_in_min_max _ _ _ _ _) as [[l' h']|e3] eqn:E; cbn [bind];
             [discriminate|].
           intros H. injection H as <-. exact (in_min_max_raises _ _ _ _ _ _ E).
        -- intros H. injection H as <-. exact (normal_hour_of_raises _ _ Eh).
      * unfold as_nums.
        destruct (_in_min_max _ _ _ _ _) as [[l' h']|e3] eqn:E; cbn [bind];
          [discriminate|].
        intros H. injection H as <-. exact (in_min_max_raises _ _ _ _ _ _ E).
    + intros H. injection H as <-. exact (normal_hour_of_raises _ _ El).
Qed.

Lemma any_range_raises k dt ranges e :
  any_range (range_test k dt) ranges = Raise e -> is_invalid_format e.
Proof.
  induction ranges as [|range ranges IH]; cbn [any_range]; [discriminate|].
  unfold range_test at 1.
  destruct (read_bounds k dt range) as [[low high]|e'] eqn:E; cbn [bind].
  - destruct (Py.truthy _); [discriminate | exact IH].
  - intros H. injection H as <-. exact (read_bounds_raises _ _ _ _ E).
Qed.

Lemma parse_scale_known scale_exp scale ranges :
  _parse_scale scale_exp = Ok (scale, ranges) -> kind_of scale <> None.
Proof.
  unfold _parse_scale. destruct (search scale_exp) as [[s r]|]; [|discriminate].
  destruct (get SCALES s) as [f|] eqn:E; [|discriminate].
  intros H. injection H as <- _. apply scales_have_kinds. rewrite E. discriminate.
Qed.

Lemma parse_scale_raises scale_exp e :
  _parse_scale scale_exp = Raise e -> is_invalid_format e.
Proof.
  unfold _parse_scale. destruct (search scale_exp) as [[s r]|].
  - destruct (get SCALES s); [discriminate|].
    intros H. injection H as <-. eexists. reflexivity.
  - intros H. injection H as <-. eexists. reflexivity.
Qed.

Lemma add_ranges_known range_lists scale ranges :
  known_scales range_lists -> kind_of scale <> None ->
  known_scales (add_ranges range_lists scale ranges).
Proof.
  intros H Hs. induction H as [|[k v] rest Hk Hrest IH]; cbn [add_ranges].
  - repeat constructor. exact Hs.
  - destruct (k =? scale)%string; constructor; assumption.
Qed.

Lemma build_range_lists_known scales acc range_lists :
  known_scales acc -> build_range_lists scales acc = Ok range_lists ->
  known_scales range_lists.
Proof.
  revert acc. induction scales as [|scale_exp scales IH]; intros acc Hacc;
    cbn [build_range_lists].
  - intros H. injection H as <-. exact Hacc.
  - destruct (_parse_scale scale_exp) as [[scale ranges]|e] eqn:E; cbn [bind];
      [|discriminate].
    apply IH, add_ranges_known; [exact Hacc | exact (parse_scale_known _ _ _ E)].
Qed.

Lemma build_range_lists_raises scales acc e :
  build_range_lists scales acc = Raise e -> is_invalid_format e.
Proof.
  revert acc. induction scales as [|scale_exp scales IH]; intros acc;
    cbn [build_range_lists]; [discriminate|].
  destruct (_parse_scale scale_exp) as [[scale ranges]|e'] eqn:E; cbn [bind].
  - apply IH.
  - intros H. injection H as <-. exact (parse_scale_raises _ _ E).
Qed.

Lemma check_scales_raises range_lists dt e :
  known_scales range_lists -> check_scales range_lists dt = Raise e ->
  is_invalid_format e.
Proof.
  intros H. induction H as [|[scale ranges] rest Hk Hrest IH]; cbn [check_scales];
    [discriminate|].
  cbn [fst] in Hk. destruct (kind_of scale) as [k|] eqn:Ek; [|contradiction].
  destruct (kind_of_scales scale k Ek) as [f [Hg Hf]]. rewrite Hg, Hf.
  destruct (any_range (range_test k dt) ranges) as [r|e'] eqn:E; cbn [bind].
  - destruct (negb (r =? 1)); [discriminate | exact IH].
  - intros H. injection H as <-. exact (any_range_raises _ _ _ _ E).
Qed.

Lemma is_in_sub_period_raises sp dt e :
  _is_in_sub_period sp dt = Raise e -> is_invalid_format e.
Proof.
  unfold _is_in_sub_period.
  destruct (sp =? "never")%string; [discriminate|].
  destruct ((sp =? "none")%string || (sp =? "always")%string || (sp =? "")%string);
    [discriminate|].
  destruct (build_range_lists _ []) as [range_lists|e'] eqn:E; cbn [bind].
  - apply check_scales_raises.
    exact (build_range_lists_known _ _ _ (Forall_nil _) E).
  - intros H. injection H as <-. exact (build_range_lists_raises _ _ _ E).
Qed.

(** C8, as the code behaves.  [in_period] raises exactly when a sub-period
    raises after all the sub-periods before it have evaluated to false; the
    exception is then that sub-period's, an [InvalidFormat], and nothing
    catches it.  A sub-period after the first match is not looked at. *)
Theorem errors_abort_until_first_match (period : string) (dt : Py.datetime) (e : exn) :
  (in_period period dt = Raise e <->
   exists pre sp post,
     sub_periods period = (pre ++ sp :: post)%list /\
     Forall (fun s => _is_in_sub_period s dt = Ok 0) pre /\
     _is_in_sub_period sp dt = Raise e) /\
  (in_period period dt = Raise e -> exists msg, e = InvalidFormat msg).
Proof.
  split.
  - rewrite in_period_sub_periods. apply any_sub_period_raises.
  - rewrite in_period_sub_periods, any_sub_period_raises.
    intros [pre [sp [post [_ [_ H]]]]]. exact (is_in_sub_period_raises _ _ _ H).
Qed.

(** A malformed second sub-period behind a first one that does not match. *)
Lemma errors_abort_until_first_match_witness :
  in_period "never, xx {1}" (Py.mkdatetime 2014 2 11 12 5 0)
  = Raise (InvalidFormat "xx is not a valid scale.").
Proof.
  apply (proj1 (errors_abort_until_first_match _ _ _)).
  exists ["never"], "xx{1}", []. repeat split.
  repeat constructor.
Defined.

(** C8, refuted as stated: malformed text behind a match is not reported.
    At 12:05 a malformed sub-period after a matching one, a malformed scale
    test after a failing one, and a malformed range after a matching one all
    go unnoticed, though each raises when it stands alone. *)
Lemma error_behind_match_is_not_reported :
  let dt := Py.mkdatetime 2014 2 11 12 5 0 in
  in_period "hr {0-23}, xx {1}" dt = Ok true /\
  in_period "xx {1}" dt = Raise (InvalidFormat "xx is not a valid scale.") /\
  in_period "hr {11} min {99}" dt = Ok false /\
  in_period "min {99}" dt
  = Raise (InvalidFormat "99 is not valid for minute. Valid options are between 0 and 59.") /\
  in_period "hr {12 99}" dt = Ok true /\
  in_period "hr {99}" dt
  = Raise (InvalidFormat "99 is not valid for hour. Valid options are between 0 and 23.").
Proof. cbv zeta. repeat split; vm_compute; reflexivity. Qed.

(** *** Malformed periods *)

Lemma build_range_lists_first_error (pre post : list string) (scale_exp : string)
    (acc : list (string * list string)) (e : exn) :
  Forall (fun x => exists r, _parse_scale x = Ok r) pre ->
  _parse_scale scale_exp = Raise e ->
  build_range_lists (pre ++ scale_exp :: post) acc = Raise e.
Proof.
  intros Hpre He. revert acc. induction Hpre as [|x pre [[scale ranges] Hx] _ IH];
    intros acc; cbn [app build_range_lists].
  - rewrite He. reflexivity.
  - rewrite Hx. cbn [bind]. apply IH.
Qed.

Lemma any_range_app (test : string -> result Z) (before rest : list string) :
  any_range test before = Ok 0 ->
  any_range test (before ++ rest) = any_range test rest.
Proof.
  induction before as [|r before IH]; cbn [app any_range]; [reflexivity|].
  destruct (test r) as [z|e]; cbn [bind]; [|discriminate].
  destruct (Py.truthy z); [discriminate | exact IH].
Qed.

Lemma check_scales_app (earlier rest : list (string * list string))
    (dt : Py.datetime) :
  check_scales earlier dt = Ok 1 ->
  check_scales (earlier ++ rest) dt = check_scales rest dt.
Proof.
  induction earlier as [|[scale ranges] earlier IH]; cbn [app check_scales];
    [reflexivity|].
  destruct (get SCALES scale) as [f|]; [|discriminate].
  destruct (f ranges dt) as [r|e]; cbn [bind]; [|discriminate].
  destruct (Z.eqb_spec r 1) as [->|Hr]; cbn [negb]; [exact IH|].
  intros H. injection H as ->. contradiction Hr. reflexivity.
Qed.

Lemma any_sub_period_reached (pre post : list string) (sp : string)
    (dt : Py.datetime) (e : exn) :
  any_sub_period pre dt = Ok false -> _is_in_sub_period sp dt = Raise e ->
  any_sub_period (pre ++ sp :: post) dt = Raise e.
Proof.
  intros Hpre He. rewrite any_sub_period_app, Hpre. cbn [any_sub_period].
  rewrite He. reflexivity.
Qed.

Lemma bound_fault_int (k : scale_kind) (bound : string) :
  Py.int_of_str bound = None ->
  bound_fault k bound = Some (integer_required (scale_label k)).
Proof. intros H. unfold bound_fault. rewrite H. reflexivity. Qed.

(** [_in_min_max] on the two bounds of a range, in the words of
    [bound_fault]. *)
Lemma checked_bounds_faults (k : scale_kind) (lo hi : Z) (low : string)
    (high : option string) :
  domain k = Some (lo, hi) ->
  as_nums (_in_min_max (Text low) (option_map Text high) lo hi (scale_label k))
  = match bound_fault k low, high with
    | Some e, _ => Raise e
    | None, None =>
        match Py.int_of_str low with
        | Some l => Ok (Py.Int l, None)
        | None => Raise (integer_required (scale_label k))
        end
    | None, Some high =>
        match bound_fault k high with
        | Some e => Raise e
        | None =>
            match Py.int_of_str low, Py.int_of_str high with
            | Some l, Some h => Ok (Py.Int l, Some (Py.Int h))
            | _, _ => Raise (integer_required (scale_label k))
            end
        end
    end.
Proof.
  intros D. unfold _in_min_max, bound_fault. rewrite D. cbn [int].
  destruct (Py.int_of_str low) as [l|]; [|reflexivity].
  replace ((l <? lo) || (l >? hi)) with (negb ((lo <=? l) && (l <=? hi)))
    by (destruct (Z.ltb_spec l lo), (Z.gtb_spec l hi), (Z.leb_spec lo l),
          (Z.leb_spec l hi); cbn; try reflexivity; lia).
  destruct ((lo <=? l) && (l <=? hi)); cbn [negb]; [|reflexivity].
  destruct high as [high|]; cbn [option_map int]; [|reflexivity].
  destruct (Py.int_of_str high) as [h|]; [|reflexivity].
  replace ((h <? lo) || (h >? hi)) with (negb ((lo <=? h) && (h <=? hi)))
    by (destruct (Z.ltb_spec h lo), (Z.gtb_spec h hi), (Z.leb_spec lo h),
          (Z.leb_spec h hi); cbn; try reflexivity; lia).
  destruct ((lo <=? h) && (h <=? hi)); reflexivity.
Qed.

Lemma read_bounds_checked (k : scale_kind) (lo hi : Z) (dt : Py.datetime)
    (range : string) :
  domain k = Some (lo, hi) -> k <> Hour ->
  read_bounds k dt range
  = let '(low, high) := _splitrange (resolved k range) in
    as_nums (_in_min_max (Text low) (option_map Text high) lo hi (scale_label k)).
Proof.
  intros D Hk. destruct k; try discriminate D; try contradiction;
    injection D as <- <-; reflexivity.
Qed.

Lemma checked_range_ok (k : scale_kind) (lo hi : Z) (dt : Py.datetime)
    (range : string) :
  domain k = Some (lo, hi) -> k <> Hour ->
  range_ok k dt range = bounds_ok k range.
Proof.
  intros D Hk. unfold range_ok, range_test, bounds_ok.
  rewrite (read_bounds_checked k lo hi dt range D Hk).
  destruct (_splitrange (resolved k range)) as [low high].
  rewrite (checked_bounds_faults k lo hi low high D).
  unfold bound_fault. rewrite D.
  destruct (Py.int_of_str low) as [l|]; [|reflexivity].
  destruct ((lo <=? l) && (l <=? hi)); [|reflexivity].
  destruct high as [high|]; [|reflexivity].
  destruct (Py.int_of_str high) as [h|]; [|reflexivity].
  destruct ((lo <=? h) && (h <=? hi)); reflexivity.
Qed.

(** A range raises exactly when one of its bounds has a fault. *)
Lemma range_ok_bounds (k : scale_kind) (dt : Py.datetime) (range : string) :
  range_ok k dt range = bounds_ok k range.
Proof.
  destruct k; try (eapply checked_range_ok; [reflexivity | discriminate]);
    unfold range_ok, range_test, bounds_ok; cbn [read_bounds resolved];
    destruct (_splitrange range) as [low high].
  - unfold normal_year_of, normal_year, bound_fault. cbn [domain].
    destruct (Py.int_of_str low) as [l|]; cbn [bind]; [|reflexivity].
    destruct (l <? 100); cbn [bind];
      (destruct high as [high|]; cbn [bind]; [|reflexivity];
       unfold normal_year_of; destruct (Py.int_of_str high) as [h|]; [|reflexivity];
       destruct (h <? 100); reflexivity).
  - unfold normal_hour_of, normal_hour, bound_fault, _in_min_max. cbn [domain int].
    destruct (Py.int_of_str low) as [l|]; cbn [bind]; [|reflexivity].
    destruct high as [high|]; cbn [bind option_map int].
    + unfold normal_hour_of. destruct (Py.int_of_str high) as [h|]; cbn [bind].
      * destruct (Z.ltb_spec l 0), (Z.gtb_spec l 23), (Z.leb_spec 0 l),
          (Z.leb_spec l 23); cbn; try reflexivity; try lia;
        destruct (Z.ltb_spec h 0), (Z.gtb_spec h 23), (Z.leb_spec 0 h),
          (Z.leb_spec h 23); cbn; try reflexivity; lia.
      * destruct ((0 <=? l) && (l <=? 23)); reflexivity.
    + destruct (Z.ltb_spec l 0), (Z.gtb_spec l 23), (Z.leb_spec 0 l),
        (Z.leb_spec l 23); cbn; try reflexivity; lia.
Qed.

Lemma in_domain_test (lo hi n : Z) :
  (n <? lo) || (n >? hi) = negb ((lo <=? n) && (n <=? hi)).
Proof.
  destruct (Z.ltb_spec n lo), (Z.gtb_spec n hi), (Z.leb_spec lo n), (Z.leb_spec n hi);
    cbn; try reflexivity; lia.
Qed.

(** What [read_bounds] does, scale by scale, in the words of [bound_fault]:
    the hour scale reads both bounds as integers before it checks either
    against its domain, the others check the low bound before they read the
    high one. *)
Lemma read_bounds_outcome (k : scale_kind) (dt : Py.datetime) (range low : string)
    (high : option string) :
  _splitrange (resolved k range) = (low, high) ->
  match read_bounds k dt range with
  | Ok _ => bounds_ok k range = true
  | Raise e =>
      (bound_fault k low = Some e /\
       (k = Hour -> Py.int_of_str low <> None ->
        forall h, high = Some h -> Py.int_of_str h <> None)) \/
      (exists h, high = Some h /\ bound_fault k h = Some e /\
                 (bound_fault k low = None \/
                  k = Hour /\ Py.int_of_str low <> None /\ Py.int_of_str h = None))
  end.
Proof.
  intros S. pose proof (range_ok_bounds k dt range) as R.
  unfold range_ok, range_test in R.
  destruct (read_bounds k dt range) as [[l h]|e] eqn:E; cbn [bind] in R;
    [symmetry; exact R|]. clear R.
  destruct (domain k) as [[lo hi]|] eqn:D.
  - destruct k; try discriminate D.
    all: try (rewrite (read_bounds_checked _ lo hi dt range D ltac:(discriminate)) in E;
              rewrite S, (checked_bounds_faults _ lo hi low high D) in E;
              destruct (bound_fault _ low) as [e1|] eqn:F1;
              [injection E as <-; left; split; [reflexivity | discriminate]|];
              destruct high as [high|];
              [destruct (bound_fault _ high) as [e2|] eqn:F2;
               [injection E as <-; right; exists high; repeat split; try assumption;
                left; reflexivity|]|];
              exfalso; unfold bound_fault in *;
              repeat match goal with
                     | H : context [Py.int_of_str ?s] |- _ =>
                         destruct (Py.int_of_str s); try discriminate
                     end).
    cbn [read_bounds resolved] in E, S. rewrite S in E.
    unfold normal_hour_of, normal_hour, bound_fault, _in_min_max in *.
    cbn [domain int scale_label] in *.
    destruct (Py.int_of_str low) as [l|] eqn:L; cbn [bind] in E.
    + destruct high as [high|]; cbn [bind option_map int] in E.
      * unfold normal_hour_of in E.
        destruct (Py.int_of_str high) as [h|] eqn:Hh; cbn [bind] in E.
        -- rewrite in_domain_test in E.
           destruct ((0 <=? l) && (l <=? 23)); cbn [negb option_map int] in E.
           ++ rewrite in_domain_test in E.
              destruct ((0 <=? h) && (h <=? 23)) eqn:Bh; cbn [negb] in E;
                [discriminate|].
              injection E as <-. right. exists high. rewrite Hh, Bh.
              repeat split. left. reflexivity.
           ++ injection E as <-. left. split; [reflexivity|].
              intros _ _ h' Eh. injection Eh as <-. rewrite Hh. discriminate.
        -- injection E as <-. right. exists high. rewrite Hh.
           repeat split. right. repeat split. discriminate.
      * rewrite in_domain_test in E.
        destruct ((0 <=? l) && (l <=? 23)); cbn [negb] in E; [discriminate|].
        injection E as <-. left. split; [reflexivity|]. intros _ _ h' Eh. discriminate.
    + injection E as <-. left. split; [reflexivity|]. intros _ Hn.
      contradiction Hn. reflexivity.
  - destruct k; try discriminate D. cbn [read_bounds resolved] in E, S.
    rewrite S in E. unfold normal_year_of, normal_year, bound_fault in *.
    cbn [domain scale_label] in *.
    destruct (Py.int_of_str low) as [l|] eqn:L; cbn [bind] in E.
    + assert (E' : (high <- match high with
                             | Some year => y <- normal_year_of year dt ;; Ok (Some y)
                             | None => Ok None
                             end ;; @Ok (Py.num * option Py.num) (Py.Int 0, high))
                   = Raise e).
      { destruct (l <? 100); cbn [bind] in E;
          destruct high as [high|]; cbn [bind] in *; try discriminate;
          destruct (normal_year_of high dt); cbn [bind] in *; try discriminate;
          exact E. }
      clear E. destruct high as [high|]; cbn [bind] in E'; [|discriminate].
      unfold normal_year_of in E'.
      destruct (Py.int_of_str high) as [h|] eqn:Hh; cbn [bind] in E'.
      * destruct (h <? 100); discriminate.
      * injection E' as <-. right. exists high. rewrite Hh. repeat split.
        left. reflexivity.
    + injection E as <-. left. split; [reflexivity | discriminate].
Qed.

Lemma bound_fault_outside (k : scale_kind) (lo hi n : Z) (bound : string) :
  domain k = Some (lo, hi) -> Py.int_of_str bound = Some n -> n < lo \/ hi < n ->
  bound_fault k bound = Some (not_valid n (scale_label k) lo hi).
Proof.
  intros D B Hout. unfold bound_fault. rewrite B, D.
  destruct (Z.leb_spec lo n), (Z.leb_spec n hi); cbn [andb]; try reflexivity; lia.
Qed.

Lemma read_bounds_low_fault (k : scale_kind) (dt : Py.datetime) (range low : string)
    (high : option string) (e : exn) :
  _splitrange (resolved k range) = (low, high) ->
  bound_fault k low = Some e ->
  (k = Hour -> Py.int_of_str low <> None ->
   forall h, high = Some h -> Py.int_of_str h <> None) ->
  read_bounds k dt range = Raise e.
Proof.
  intros S F Hh. pose proof (read_bounds_outcome k dt range low high S) as O.
  destruct (read_bounds k dt range) as [r|e'].
  - unfold bounds_ok in O. rewrite S, F in O. discriminate.
  - destruct O as [[F' _]|[h [Eh [_ [F'|[Ek [Hl Hn]]]]]]].
    + rewrite F in F'. injection F' as <-. reflexivity.
    + rewrite F in F'. discriminate.
    + contradiction (Hh Ek Hl h Eh Hn).
Qed.

(** C7.  The three malformed examples raise [InvalidFormat] at every
    instant, the last with a message that names the scale, the value and the
    bounds.  In general [in_period] raises when its evaluation reaches the
    malformed part: a fragment whose code [SCALES] does not list, when no
    sub-period before it matched and the fragments before it in its
    sub-period parse; a range with a bound that is no integer or lies
    outside the domain of its scale, when no sub-period before it matched,
    the scale tests before it in its sub-period matched and no range before
    it in its scale test did.  A range raises exactly when one of its bounds
    has a fault, and what it raises is the fault of one of them: that of the
    low bound when it is no integer, and also when it is outside the domain,
    save that the hour scale reads both bounds as integers first.
    [_parse_scale] and, on the bounds and the domain of a scale,
    [_in_min_max] raise accordingly. *)
Theorem malformed_periods_raise :
  (forall dt, in_period "xx {1}" dt = Raise (InvalidFormat "xx is not a valid scale.")) /\
  (forall dt, in_period "hr {a}" dt
              = Raise (InvalidFormat "An integer value is required for hour.")) /\
  (forall dt, in_period "hr {25}" dt
              = Raise (InvalidFormat
                  "25 is not valid for hour. Valid options are between 0 and 23.")) /\
  (forall period dt pre sp post before fragment after code body,
      sub_periods period = (pre ++ sp :: post)%list ->
      any_sub_period pre dt = Ok false ->
      fixed_sub_period sp = None ->
      Py.split_char "|" sp = (before ++ fragment :: after)%list ->
      Forall (fun x => exists t, _parse_scale x = Ok t) before ->
      search fragment = Some (code, body) -> get SCALES code = None ->
      in_period period dt = Raise (InvalidFormat (code ++ " is not a valid scale."))) /\
  (forall period dt pre sp post earlier code later k before range after e,
      sub_periods period = (pre ++ sp :: post)%list ->
      any_sub_period pre dt = Ok false ->
      fixed_sub_period sp = None ->
      scale_tests sp
      = Ok (earlier ++ (code, (before ++ range :: after)%list) :: later)%list ->
      check_scales earlier dt = Ok 1 ->
      kind_of code = Some k ->
      any_range (range_test k dt) before = Ok 0 ->
      read_bounds k dt range = Raise e ->
      in_period period dt = Raise e) /\
  (forall k dt range low high,
      _splitrange (resolved k range) = (low, high) ->
      range_ok k dt range = bounds_ok k range /\
      (Py.int_of_str low = None ->
       read_bounds k dt range
       = Raise (InvalidFormat
                  ("An integer value is required for " ++ scale_label k ++ "."))) /\
      (forall lo hi n,
          domain k = Some (lo, hi) -> Py.int_of_str low = Some n ->
          n < lo \/ hi < n ->
          (k = Hour -> forall h, high = Some h -> Py.int_of_str h <> None) ->
          read_bounds k dt range
          = Raise (InvalidFormat
                     (Py.str n ++ " is not valid for " ++ scale_label k
                      ++ ". Valid options are between " ++ Py.str lo
                      ++ " and " ++ Py.str hi ++ "."))) /\
      (forall e,
          read_bounds k dt range = Raise e ->
          bound_fault k low = Some e \/
          exists h, high = Some h /\ bound_fault k h = Some e)) /\
  (forall scale_exp scale range,
      search scale_exp = Some (scale, range) -> get SCALES scale = None ->
      _parse_scale scale_exp = Raise (InvalidFormat (scale ++ " is not a valid scale."))) /\
  (forall k lo hi low high,
      domain k = Some (lo, hi) -> Py.int_of_str low = None ->
      _in_min_max (Text low) high lo hi (scale_label k)
      = Raise (InvalidFormat
                 ("An integer value is required for " ++ scale_label k ++ "."))) /\
  (forall k lo hi low l high,
      domain k = Some (lo, hi) -> Py.int_of_str low = Some l -> l < lo \/ hi < l ->
      _in_min_max (Text low) high lo hi (scale_label k)
      = Raise (InvalidFormat
                 (Py.str l ++ " is not valid for " ++ scale_label k
                  ++ ". Valid options are between " ++ Py.str lo
                  ++ " and " ++ Py.str hi ++ "."))) /\
  (forall k lo hi low l high,
      domain k = Some (lo, hi) -> Py.int_of_str low = Some l -> lo <= l <= hi ->
      Py.int_of_str high = None ->
      _in_min_max (Text low) (Some (Text high)) lo hi (scale_label k)
      = Raise (InvalidFormat
                 ("An integer value is required for " ++ scale_label k ++ "."))) /\
  (forall k lo hi low l high h,
      domain k = Some (lo, hi) -> Py.int_of_str low = Some l -> lo <= l <= hi ->
      Py.int_of_str high = Some h -> h < lo \/ hi < h ->
      _in_min_max (Text low) (Some (Text high)) lo hi (scale_label k)
      = Raise (InvalidFormat
                 (Py.str h ++ " is not valid for " ++ scale_label k
                  ++ ". Valid options are between " ++ Py.str lo
                  ++ " and " ++ Py.str hi ++ "."))).
Proof.
  split; [|split; [|split; [|split; [|split; [|split; [|split; [|split; [|split;
    [|split]]]]]]]]].
  - reflexivity.
  - reflexivity.
  - reflexivity.
  - intros period dt pre sp post before fragment after code body E Hpre Hf Hs Hb
      Hm Hg.
    rewrite in_period_sub_periods, E. apply any_sub_period_reached; [exact Hpre|].
    rewrite (is_in_sub_period_tests sp dt Hf), <- scale_tests_built, Hs.
    rewrite (build_range_lists_first_error before after fragment []
               (InvalidFormat (code ++ " is not a valid scale.")) Hb);
      [reflexivity|].
    unfold _parse_scale. rewrite Hm, Hg. reflexivity.
  - intros period dt pre sp post earlier code later k before range after e E Hpre
      Hf Ht He Hk Hb Hr.
    rewrite in_period_sub_periods, E. apply any_sub_period_reached; [exact Hpre|].
    rewrite (is_in_sub_period_tests sp dt Hf), Ht. cbn [bind].
    rewrite (check_scales_app earlier _ dt He). cbn [check_scales].
    destruct (kind_of_scales code k Hk) as [f [Hg Hl]]. rewrite Hg, Hl.
    rewrite (any_range_app _ before _ Hb). cbn [any_range]. unfold range_test.
    rewrite Hr. reflexivity.
  - intros k dt range low high S. split; [apply range_ok_bounds|].
    split; [|split].
    + intros Hl. apply (read_bounds_low_fault k dt range low high _ S).
      * apply bound_fault_int, Hl.
      * intros _ Hn. contradiction.
    + intros lo hi n D Hl Hout Hh.
      apply (read_bounds_low_fault k dt range low high _ S).
      * apply (bound_fault_outside k lo hi n low D Hl Hout).
      * intros Ek _. exact (Hh Ek).
    + intros e He. pose proof (read_bounds_outcome k dt range low high S) as O.
      rewrite He in O. destruct O as [[F _]|[h [Eh [F _]]]].
      * left. exact F.
      * right. exists h. split; assumption.
  - intros scale_exp scale range Hs Hg. unfold _parse_scale. rewrite Hs, Hg.
    reflexivity.
  - intros k lo hi low high _ Hl. unfold _in_min_max. cbn [int]. rewrite Hl.
    reflexivity.
  - intros k lo hi low l high _ Hl Hout. unfold _in_min_max. cbn [int]. rewrite Hl.
    destruct (Z.ltb_spec l lo), (Z.gtb_spec l hi); simpl; try reflexivity; lia.
  - intros k lo hi low l high _ Hl Hin Hh. unfold _in_min_max. cbn [int].
    rewrite Hl, Hh.
    destruct (Z.ltb_spec l lo), (Z.gtb_spec l hi); simpl; try reflexivity; lia.
  - intros k lo hi low l high h _ Hl Hin Hh Hout. unfold _in_min_max. cbn [int].
    rewrite Hl, Hh.
    destruct (Z.ltb_spec l lo), (Z.gtb_spec l hi); simpl; try lia.
    destruct (Z.ltb_spec h lo), (Z.gtb_spec h hi); simpl; try reflexivity; lia.
Qed.

(** At 2014-02-11 12:05 the evaluation of these periods reaches the
    malformed part: the first sub-period fails, the hour of the second
    matches, and then comes an unknown code, or a minute range that is out
    of the domain behind one that does not match. *)
Lemma malformed_periods_raise_witness :
  let dt := Py.mkdatetime 2014 2 11 12 5 0 in
  in_period "hr {11}, hr {12} xx {1}" dt
  = Raise (InvalidFormat "xx is not a valid scale.") /\
  in_period "hr {11}, hr {12} min {4 60}" dt
  = Raise (InvalidFormat "60 is not valid for minute. Valid options are between 0 and 59.").
Proof.
  cbv zeta. destruct malformed_periods_raise as (_ & _ & _ & U & B & _). split.
  - apply (U _ _ ["hr{11}"] "hr{12}|xx{1}" [] ["hr{12}"] "xx{1}" [] "xx" "1");
      try reflexivity.
    repeat constructor. eexists. reflexivity.
  - apply (B _ _ ["hr{11}"] "hr{12}|min{4 60}" [] [("hr", ["12"])] "min" [] Minute
             ["4"] "60" []); reflexivity.
Defined.

(** Malformed parts that the evaluation at 2014-02-11 12:05 does not reach:
    an unknown code behind a sub-period that matches, a bound that is no
    integer and one outside the domain behind a range that matches, and the
    same behind a scale test that fails. *)
Lemma malformed_part_may_go_unread :
  let dt := Py.mkdatetime 2014 2 11 12 5 0 in
  in_period "always, xx {1}" dt = Ok true /\
  in_period "hr {12 a}" dt = Ok true /\
  in_period "hr {12 25}" dt = Ok true /\
  in_period "hr {13} min {a}" dt = Ok false /\
  in_period "hr {13} min {60}" dt = Ok false.
Proof. cbv zeta. repeat split; vm_compute; reflexivity. Qed.

(** *** The normal form *)

Section DeleteRuns.

Variables doomed doomed' : option ascii -> option ascii -> bool.

Lemma first_nonspace_cons_space (c : ascii) (s : string) :
  Py.is_space c = true -> first_nonspace (String c s) = first_nonspace s.
Proof. intros H. unfold first_nonspace. simpl. rewrite H. reflexivity. Qed.

Lemma first_nonspace_cons_other (c : ascii) (s : string) :
  Py.is_space c = false -> first_nonspace (String c s) = Some c.
Proof. intros H. unfold first_nonspace. simpl. rewrite H. reflexivity. Qed.

Lemma first_nonspace_delete_runs (before : option ascii) (s : string) :
  first_nonspace (delete_runs doomed before s) = first_nonspace s.
Proof.
  revert before. induction s as [|c s IH]; intros before; [reflexivity|].
  cbn [delete_runs]. destruct (Py.is_space c) eqn:Ec.
  - rewrite (first_nonspace_cons_space c s Ec).
    destruct (doomed before (first_nonspace s)); [apply IH|].
    rewrite (first_nonspace_cons_space _ _ Ec). apply IH.
  - rewrite !(first_nonspace_cons_other _ _ Ec). reflexivity.
Qed.

Lemma delete_runs_length (before : option ascii) (s : string) :
  (String.length (delete_runs doomed before s) <= String.length s)%nat.
Proof.
  revert before. induction s as [|c s IH]; intros before; [apply le_n|].
  cbn [delete_runs]. destruct (Py.is_space c).
  - destruct (doomed before (first_nonspace s)); cbn [String.length].
    + apply le_S, IH.
    + apply le_n_S, IH.
  - cbn [String.length]. apply le_n_S, IH.
Qed.

Lemma delete_runs_not_longer (before : option ascii) (c : ascii) (s : string) :
  delete_runs doomed before s <> String c s.
Proof.
  intros H. pose proof (delete_runs_length before s) as L.
  rewrite H in L. cbn [String.length] in L. lia.
Qed.

End DeleteRuns.

Lemma delete_runs_ext (P Q : option ascii -> option ascii -> bool)
    (before : option ascii) (s : string) :
  (forall b a, P b a = Q b a) -> delete_runs P before s = delete_runs Q before s.
Proof.
  intros H. revert before. induction s as [|c s IH]; intros before; [reflexivity|].
  cbn [delete_runs]. rewrite H, !IH. reflexivity.
Qed.

(** Two passes in a row delete the runs either of them deletes. *)
Lemma delete_runs_twice (P Q : option ascii -> option ascii -> bool)
    (before : option ascii) (s : string) :
  delete_runs Q before (delete_runs P before s)
  = delete_runs (fun b a => P b a || Q b a) before s.
Proof.
  revert before. induction s as [|c s IH]; intros before; [reflexivity|].
  cbn [delete_runs]. destruct (Py.is_space c) eqn:Ec.
  - destruct (P before (first_nonspace s)) eqn:Ep; cbn [orb].
    + apply IH.
    + cbn [delete_runs]. rewrite Ec, first_nonspace_delete_runs, IH. reflexivity.
  - cbn [delete_runs]. rewrite Ec, IH. reflexivity.
Qed.

Lemma squeezes_delete_doomed (period : string) :
  squeeze_around_close
    (squeeze_after_open
       (squeeze_around_dash
          (squeeze_after_comma (squeeze_before_open (strip_ends period)))))
  = delete_runs doomed_anywhere None period.
Proof.
  unfold squeeze_around_close, squeeze_after_open, squeeze_around_dash,
    squeeze_after_comma, squeeze_before_open, strip_ends.
  rewrite !delete_runs_twice. apply delete_runs_ext. intros b a.
  unfold doomed_anywhere. rewrite !orb_assoc. reflexivity.
Qed.

Lemma normalize_delete_doomed (period : string) :
  normalize period = Py.lower (insert_bars (delete_runs doomed_anywhere None period)).
Proof. unfold normalize. rewrite squeezes_delete_doomed. reflexivity. Qed.

(** A pass that deletes fewer runs leaves the result of a pass alone. *)
Lemma delete_runs_absorbs (P Q : option ascii -> option ascii -> bool) (s : string) :
  (forall b a, Q b a = true -> P b a = true) ->
  delete_runs P None s = s -> delete_runs Q None s = s.
Proof.
  intros H E.
  transitivity (delete_runs Q None (delete_runs P None s)); [rewrite E; reflexivity|].
  rewrite delete_runs_twice.
  transitivity (delete_runs P None s); [|exact E].
  apply delete_runs_ext. intros b a.
  destruct (P b a) eqn:Ep; [reflexivity|]. cbn [orb].
  destruct (Q b a) eqn:Eq; [|reflexivity]. rewrite (H _ _ Eq) in Ep. discriminate.
Qed.

Lemma first_nonspace_insert_bars (s : string) :
  first_nonspace (insert_bars s) = first_nonspace s.
Proof.
  induction s as [|c s IH]; [reflexivity|].
  cbn [insert_bars]. destruct s as [|d s]; [reflexivity|].
  destruct (Py.is_space c) eqn:Ec.
  - destruct ((c =? "}")%char && negb (d =? ",")%char) eqn:E.
    + apply andb_true_iff in E as [E _]. apply Ascii.eqb_eq in E. subst c.
      discriminate Ec.
    + rewrite !(first_nonspace_cons_space _ _ Ec). exact IH.
  - destruct ((c =? "}")%char && negb (d =? ",")%char) eqn:E.
    + apply andb_true_iff in E as [E _]. apply Ascii.eqb_eq in E. subst c.
      reflexivity.
    + rewrite !(first_nonspace_cons_other _ _ Ec). reflexivity.
Qed.

(** Inserting the bars leaves a string without doomed runs without doomed
    runs, provided a run after a closing brace is doomed. *)
Lemma insert_bars_keeps_squeezed (P : option ascii -> option ascii -> bool) :
  (forall a, P (Some "}"%char) a = true) ->
  forall (s : string) (before : option ascii),
    delete_runs P before s = s ->
    delete_runs P before (insert_bars s) = insert_bars s.
Proof.
  intros Hclose. induction s as [|c s IH]; intros before E; [reflexivity|].
  cbn [delete_runs] in E. cbn [insert_bars].
  destruct (Py.is_space c) eqn:Ec.
  - destruct (P before (first_nonspace s)) eqn:Ep.
    + exfalso. exact (delete_runs_not_longer _ _ _ _ E).
    + injection E as E.
      assert (Hc : (c =? "}")%char = false).
      { destruct (Ascii.eqb_spec c "}"); [subst c; discriminate Ec | reflexivity]. }
      rewrite Hc. cbn [andb].
      destruct s as [|d s]; [cbn [delete_runs]; rewrite Ec, Ep; reflexivity|].
      cbn [delete_runs]. rewrite Ec, first_nonspace_insert_bars, Ep, (IH _ E).
      reflexivity.
  - injection E as E. destruct s as [|d s].
    + cbn [delete_runs]. rewrite Ec. reflexivity.
    + destruct ((c =? "}")%char && negb (d =? ",")%char) eqn:Eb.
      * apply andb_true_iff in Eb as [Eb _]. apply Ascii.eqb_eq in Eb. subst c.
        assert (Ed : Py.is_space d = false).
        { destruct (Py.is_space d) eqn:Ed; [|reflexivity]. exfalso.
          cbn [delete_runs] in E. rewrite Ed, Hclose in E.
          exact (delete_runs_not_longer _ _ _ _ E). }
        assert (E' : delete_runs P (Some "|"%char) (String d s) = String d s).
        { cbn [delete_runs] in E |- *. rewrite Ed in E |- *. exact E. }
        cbn [delete_runs]. change (Py.is_space "}") with false.
        change (Py.is_space "|") with false. cbv iota.
        rewrite (IH _ E'). reflexivity.
      * cbn [delete_runs]. rewrite Ec, (IH _ E). reflexivity.
Qed.

Lemma is_space_lower (c : ascii) : Py.is_space (Py.lower_char c) = Py.is_space c.
Proof. destruct c as [[] [] [] [] [] [] [] []]; reflexivity. Qed.

Lemma lower_char_idem (c : ascii) : Py.lower_char (Py.lower_char c) = Py.lower_char c.
Proof. destruct c as [[] [] [] [] [] [] [] []]; reflexivity. Qed.

Lemma eqb_lower_symbol (x c : ascii) :
  Py.is_upper x = false -> Py.is_lower x = false ->
  (Py.lower_char c =? x)%char = (c =? x)%char.
Proof.
  intros Hu Hl. destruct (Ascii.eqb_spec c x) as [->|Hne].
  - unfold Py.lower_char. rewrite Hu. apply Ascii.eqb_refl.
  - apply Ascii.eqb_neq. intros E. unfold Py.lower_char in E.
    destruct (Py.is_upper c) eqn:Ec; [|contradiction].
    subst x. revert Ec Hl. clear.
    destruct c as [[] [] [] [] [] [] [] []]; cbv; congruence.
Qed.

Lemma is_char_lower (x : ascii) (o : option ascii) :
  Py.is_upper x = false -> Py.is_lower x = false ->
  is_char x (option_map Py.lower_char o) = is_char x o.
Proof.
  intros Hu Hl. destruct o as [c|]; [|reflexivity]. apply eqb_lower_symbol; assumption.
Qed.

Lemma is_end_lower (o : option ascii) : is_end (option_map Py.lower_char o) = is_end o.
Proof. destruct o; reflexivity. Qed.

Lemma doomed_anywhere_lower (b a : option ascii) :
  doomed_anywhere (option_map Py.lower_char b) (option_map Py.lower_char a)
  = doomed_anywhere b a.
Proof.
  unfold doomed_anywhere.
  rewrite !is_end_lower, !is_char_lower; reflexivity.
Qed.

Lemma first_nonspace_lower (s : string) :
  first_nonspace (Py.lower s) = option_map Py.lower_char (first_nonspace s).
Proof.
  induction s as [|c s IH]; [reflexivity|]. cbn [Py.lower].
  destruct (Py.is_space c) eqn:Ec.
  - rewrite first_nonspace_cons_space by (rewrite is_space_lower; exact Ec).
    rewrite (first_nonspace_cons_space _ _ Ec). exact IH.
  - rewrite first_nonspace_cons_other by (rewrite is_space_lower; exact Ec).
    rewrite (first_nonspace_cons_other _ _ Ec). reflexivity.
Qed.

Lemma delete_runs_lower (before : option ascii) (s : string) :
  delete_runs doomed_anywhere (option_map Py.lower_char before) (Py.lower s)
  = Py.lower (delete_runs doomed_anywhere before s).
Proof.
  revert before. induction s as [|c s IH]; intros before; [reflexivity|].
  cbn [Py.lower delete_runs].
  rewrite is_space_lower, first_nonspace_lower, doomed_anywhere_lower.
  destruct (Py.is_space c).
  - destruct (doomed_anywhere before (first_nonspace s)); cbn [Py.lower];
      rewrite IH; reflexivity.
  - cbn [Py.lower]. rewrite <- IH. reflexivity.
Qed.

Lemma lower_idem (s : string) : Py.lower (Py.lower s) = Py.lower s.
Proof.
  induction s as [|c s IH]; [reflexivity|].
  cbn [Py.lower]. rewrite lower_char_idem, IH. reflexivity.
Qed.

Lemma insert_bars_lower (s : string) :
  insert_bars (Py.lower s) = Py.lower (insert_bars s).
Proof.
  induction s as [|c s IH]; [reflexivity|].
  cbn [Py.lower insert_bars]. destruct s as [|d s]; [reflexivity|].
  cbn [Py.lower] in IH |- *.
  rewrite !eqb_lower_symbol by reflexivity.
  destruct ((c =? "}")%char && negb (d =? ",")%char) eqn:E.
  - cbn [Py.lower]. rewrite IH. reflexivity.
  - cbn [Py.lower]. rewrite IH. reflexivity.
Qed.

Lemma insert_bars_length (s : string) :
  (String.length s <= String.length (insert_bars s))%nat.
Proof.
  induction s as [|c s IH]; [apply le_n|].
  cbn [insert_bars]. destruct s as [|d s]; [apply le_n|].
  destruct ((c =? "}")%char && negb (d =? ",")%char); cbn [String.length] in *; lia.
Qed.

Lemma insert_bars_cons (c d : ascii) (s : string) :
  insert_bars (String c (String d s))
  = if (c =? "}")%char && negb (d =? ",")%char
    then String "}" (String "|" (insert_bars (String d s)))
    else String c (insert_bars (String d s)).
Proof. reflexivity. Qed.

Lemma insert_bars_fixed (s : string) :
  insert_bars s = s <-> braces_before_commas s = true.
Proof.
  induction s as [|c s IH]; [split; reflexivity|].
  destruct s as [|d s]; [split; reflexivity|].
  rewrite insert_bars_cons.
  change (braces_before_commas (String c (String d s)))
    with (negb ((c =? "}")%char && negb (d =? ",")%char)
          && braces_before_commas (String d s)).
  destruct ((c =? "}")%char && negb (d =? ",")%char) eqn:E; cbn [negb andb].
  - split; [|discriminate]. intros H. injection H as _ _ H.
    pose proof (insert_bars_length (String d s)) as L.
    apply (f_equal String.length) in H.
    change (String.length (insert_bars (String d s)) = String.length s) in H.
    cbn [String.length] in L. lia.
  - rewrite <- IH. split; [intros H; injection H as H; exact H | intros ->; reflexivity].
Qed.

Lemma delete_runs_idem (P : option ascii -> option ascii -> bool) (s : string) :
  delete_runs P None (delete_runs P None s) = delete_runs P None s.
Proof.
  rewrite delete_runs_twice. apply delete_runs_ext. intros b a. apply orb_diag.
Qed.

(** A normal form has no run of whitespace any squeezing pass would delete. *)
Lemma normalize_squeezed (period : string) :
  delete_runs doomed_anywhere None (normalize period) = normalize period.
Proof.
  rewrite normalize_delete_doomed.
  change (@None ascii) with (option_map Py.lower_char None) at 1.
  rewrite delete_runs_lower. f_equal.
  apply insert_bars_keeps_squeezed; [|apply delete_runs_idem].
  intros a. unfold doomed_anywhere.
  change (is_char "}" (Some "}"%char)) with true. rewrite !orb_true_r. reflexivity.
Qed.

Ltac doomed_cases :=
  let b := fresh "b" in let a := fresh "a" in let H := fresh "H" in
  intros b a H; unfold doomed_anywhere;
  destruct (is_end b), (is_end a), (is_char "{" a), (is_char "{" b),
    (is_char "," b), (is_char "-" a), (is_char "-" b), (is_char "}" a),
    (is_char "}" b); first [reflexivity | discriminate H].

Lemma squeezes_fix_normal_form (period : string) :
  strip_ends (normalize period) = normalize period /\
  squeeze_before_open (normalize period) = normalize period /\
  squeeze_after_comma (normalize period) = normalize period /\
  squeeze_around_dash (normalize period) = normalize period /\
  squeeze_after_open (normalize period) = normalize period /\
  squeeze_around_close (normalize period) = normalize period.
Proof.
  pose proof (normalize_squeezed period) as E.
  repeat split;
    (apply (delete_runs_absorbs doomed_anywhere); [doomed_cases | exact E]).
Qed.

Lemma lower_fixes_normal_form (period : string) :
  Py.lower (normalize period) = normalize period.
Proof. unfold normalize. apply lower_idem. Qed.

Lemma normalize_normal_form (period : string) :
  normalize (normalize period) = insert_bars (normalize period).
Proof.
  destruct (squeezes_fix_normal_form period) as [E1 [E2 [E3 [E4 [E5 E6]]]]].
  unfold normalize at 1. cbv zeta. rewrite E1, E2, E3, E4, E5, E6.
  rewrite <- (lower_fixes_normal_form period) at 1.
  rewrite insert_bars_lower, <- insert_bars_lower, lower_fixes_normal_form.
  rewrite <- (lower_fixes_normal_form period), insert_bars_lower, lower_idem.
  reflexivity.
Qed.

(** C9, as the code behaves.  Normalizing a normal form only repeats the
    insertion of bars: the strip, the five squeezing passes and the
    lowercasing leave a normal form as it is.  Hence a normal form is a fixed
    point of the normalizer exactly when each of its closing braces is its
    last character or is followed by a comma. *)
Theorem normalize_twice (period : string) :
  normalize (normalize period) = insert_bars (normalize period) /\
  (normalize (normalize period) = normalize period <->
   braces_before_commas (normalize period) = true) /\
  strip_ends (normalize period) = normalize period /\
  squeeze_before_open (normalize period) = normalize period /\
  squeeze_after_comma (normalize period) = normalize period /\
  squeeze_around_dash (normalize period) = normalize period /\
  squeeze_after_open (normalize period) = normalize period /\
  squeeze_around_close (normalize period) = normalize period /\
  Py.lower (normalize period) = normalize period.
Proof.
  split; [apply normalize_normal_form|].
  split; [rewrite normalize_normal_form; apply insert_bars_fixed|].
  destruct (squeezes_fix_normal_form period) as [E1 [E2 [E3 [E4 [E5 E6]]]]].
  repeat split; try assumption. apply lower_fixes_normal_form.
Qed.

(** A period with one scale test in each sub-period: its normal form is a
    fixed point. *)
Lemma normalize_twice_witness :
  normalize (normalize "Wd {Mon - Fri}, hr { 9-16 }") = normalize "Wd {Mon - Fri}, hr { 9-16 }".
Proof.
  apply (proj1 (proj2 (normalize_twice _))). reflexivity.
Defined.

(** C9, refuted as stated: the normal form of a sub-period with two scale
    tests is not a fixed point, the second pass doubles the bar. *)
Lemma normalize_is_not_idempotent :
  normalize "hr {1} min {2}" = "hr{1}|min{2}" /\
  normalize "hr{1}|min{2}" = "hr{1}||min{2}".
Proof. split; reflexivity. Qed.

Lemma match_here_not_word (c : ascii) (s : string) :
  Py.is_word c = false -> match_here (String c s) = None.
Proof. intros H. unfold match_here. simpl. rewrite H. reflexivity. Qed.

Lemma search_skips_junk (junk s : string) :
  all_chars (fun c => negb (Py.is_word c)) junk = true ->
  search (junk ++ s) = search s.
Proof.
  induction junk as [|c junk IH]; intros H; [reflexivity|].
  simpl in H. apply andb_true_iff in H as [Hc Hj]. apply negb_true_iff in Hc.
  change (String c junk ++ s) with (String c (junk ++ s)).
  cbn [search]. rewrite (match_here_not_word _ _ Hc). apply IH, Hj.
Qed.

Lemma span_word_prefix (w rest : string) :
  all_chars Py.is_word w = true ->
  span_word (w ++ String "{" rest) = (w, String "{" rest).
Proof.
  induction w as [|c w IH]; intros H; [reflexivity|].
  simpl in H. apply andb_true_iff in H as [Hc Hw].
  simpl. rewrite Hc, (IH Hw). reflexivity.
Qed.

Lemma until_close_body (body post : string) :
  all_chars (fun c => negb ((c =? "}")%char || (c =? "010")%char)) body = true ->
  until_close (body ++ String "}" post) = Some body.
Proof.
  induction body as [|c body IH]; intros H; [reflexivity|].
  simpl in H. apply andb_true_iff in H as [Hc Hb].
  apply negb_true_iff, orb_false_iff in Hc as [Hc1 Hc2].
  simpl. rewrite Hc1, Hc2, (IH Hb). reflexivity.
Qed.

Lemma match_here_scale_test (w body post : string) :
  w <> EmptyString -> all_chars Py.is_word w = true ->
  all_chars (fun c => negb ((c =? "}")%char || (c =? "010")%char)) body = true ->
  match_here (w ++ String "{" (body ++ String "}" post)) = Some (w, body).
Proof.
  intros Hne Hw Hb. unfold match_here.
  rewrite (span_word_prefix _ _ Hw), (until_close_body _ _ Hb).
  destruct w; [contradiction | reflexivity].
Qed.

Lemma search_finds_later (pre s : string) :
  search s <> None -> search (pre ++ s) <> None.
Proof.
  intros H. induction pre as [|c pre IH]; [exact H|].
  change (String c pre ++ s) with (String c (pre ++ s)).
  cbn [search]. destruct (match_here _); [discriminate | exact IH].
Qed.

Lemma search_here (s : string) (m : string * string) :
  match_here s = Some m -> search s = Some m.
Proof. intros H. destruct s; cbn [search]; rewrite H; reflexivity. Qed.

(** C10.  [_parse_scale] searches the fragment for a scale test and ignores
    what surrounds it: characters that are no word characters in front of a
    fragment change nothing, a fragment that contains word characters
    followed by a body in braces anywhere is never unparseable, and so
    ["#hr {12}"] gives what ["hr {12}"] gives at every instant. *)
Theorem junk_before_scale_is_ignored :
  (forall dt, in_period "#hr {12}" dt = in_period "hr {12}" dt) /\
  (forall junk scale_exp,
      all_chars (fun c => negb (Py.is_word c)) junk = true ->
      _parse_scale (junk ++ scale_exp) = _parse_scale scale_exp) /\
  (forall pre w body post,
      w <> EmptyString -> all_chars Py.is_word w = true ->
      all_chars (fun c => negb ((c =? "}")%char || (c =? "010")%char)) body = true ->
      search (pre ++ w ++ String "{" (body ++ String "}" post)) <> None) /\
  (forall w body post,
      w <> EmptyString -> all_chars Py.is_word w = true ->
      all_chars (fun c => negb ((c =? "}")%char || (c =? "010")%char)) body = true ->
      search (w ++ String "{" (body ++ String "}" post)) = Some (w, body)).
Proof.
  split; [|split; [|split]].
  - intros dt. reflexivity.
  - intros junk scale_exp H. unfold _parse_scale.
    rewrite (search_skips_junk _ _ H). reflexivity.
  - intros pre w body post Hne Hw Hb. apply search_finds_later.
    rewrite (search_here _ _ (match_here_scale_test w body post Hne Hw Hb)).
    discriminate.
  - intros w body post Hne Hw Hb.
    apply search_here, match_here_scale_test; assumption.
Qed.

(** ** Further properties of the code *)

(** *** Bounds and ranges *)

(** [_in_min_max] accepts a pair of bounds exactly when [int] reads each
    bound that is present and each value lies in [min, max]; it returns the
    values read. *)
Theorem in_min_max_accepts (low : bound) (high : option bound) (min max : Z)
    (scale : string) (l : Z) (h : option Z) :
  _in_min_max low high min max scale = Ok (l, h) <->
  int low = Some l /\ min <= l <= max /\
  match high, h with
  | None, None => True
  | Some hb, Some hv => int hb = Some hv /\ min <= hv <= max
  | _, _ => False
  end.
Proof.
  assert (In_range : forall v, min <= v <= max -> (v <? min) || (v >? max) = false).
  { intros v Hv. apply orb_false_iff. rewrite Z.gtb_ltb, !Z.ltb_ge. lia. }
  assert (Out_range : forall v, (v <? min) || (v >? max) = false -> min <= v <= max).
  { intros v Hv. apply orb_false_iff in Hv. rewrite Z.gtb_ltb, !Z.ltb_ge in Hv. lia. }
  split.
  - unfold _in_min_max. destruct (int low) as [l'|]; [|discriminate].
    destruct ((l' <? min) || (l' >? max)) eqn:El; [discriminate|].
    apply Out_range in El. destruct high as [hb|].
    + destruct (int hb) as [h'|]; [|discriminate].
      destruct ((h' <? min) || (h' >? max)) eqn:Eh; [discriminate|].
      apply Out_range in Eh. intros E. injection E as <- <-.
      repeat split; lia.
    + intros E. injection E as <- <-. repeat split; lia.
  - intros [El [Hl Hh]]. unfold _in_min_max. rewrite El, (In_range l Hl).
    destruct high as [hb|], h as [hv|]; try contradiction; [|reflexivity].
    destruct Hh as [Eh Hh]. rewrite Eh, (In_range hv Hh). reflexivity.
Qed.

(** Both bounds of a range belong to it, in the ordinary and in the
    wraparound case alike; and a range and its reverse, when the bounds
    differ, cover every integer between them and share the two bounds
    only. *)
Theorem range_and_its_reverse (x low high : Z) :
  _is_in_range (Py.Int low) (Py.Int low) (Some (Py.Int high)) = 1 /\
  _is_in_range (Py.Int high) (Py.Int low) (Some (Py.Int high)) = 1 /\
  (low <> high ->
   (_is_in_range (Py.Int x) (Py.Int low) (Some (Py.Int high)) = 1 \/
    _is_in_range (Py.Int x) (Py.Int high) (Some (Py.Int low)) = 1) /\
   (_is_in_range (Py.Int x) (Py.Int low) (Some (Py.Int high)) = 1 /\
    _is_in_range (Py.Int x) (Py.Int high) (Some (Py.Int low)) = 1
    <-> x = low \/ x = high)).
Proof.
  change (Some (Py.Int high)) with (option_map Py.Int (Some high)).
  change (Some (Py.Int low)) with (option_map Py.Int (Some low)).
  rewrite !is_in_range_ints. unfold in_range_rule.
  destruct (Z.eqb_spec high low), (Z.eqb_spec low high), (Z.eqb_spec low low),
    (Z.eqb_spec x low), (Z.eqb_spec x high), (Z.eqb_spec high high),
    (Z.ltb_spec low high), (Z.ltb_spec high low),
    (Z.leb_spec low x), (Z.leb_spec x high), (Z.leb_spec high x),
    (Z.leb_spec x low), (Z.leb_spec low low), (Z.leb_spec high high),
    (Z.leb_spec low high), (Z.leb_spec high low);
    cbn [andb orb]; try lia;
    (split; [reflexivity | split; [reflexivity|]]); intros Hne;
    (split; [first [left; reflexivity | right; reflexivity | lia]
            | split; [intros [A B]; first [discriminate A | discriminate B | lia]
                     | intros C; first [lia | split; reflexivity]]]).
Qed.

(** *** Splitting *)

Lemma split_at_not_nil (sep : ascii -> bool) (s : string) :
  exists piece pieces, Py.split_at sep s = piece :: pieces.
Proof.
  destruct s as [|c s]; cbn [Py.split_at]; [eauto|].
  destruct (sep c); [eauto|]. destruct (Py.split_at sep s); eauto.
Qed.

Lemma split_at_whole (sep : ascii -> bool) (s : string) :
  all_chars (fun c => negb (sep c)) s = true -> Py.split_at sep s = [s].
Proof.
  induction s as [|c s IH]; intros H; [reflexivity|].
  cbn [all_chars] in H. apply andb_true_iff in H as [Hc Hs].
  apply negb_true_iff in Hc. cbn [Py.split_at]. rewrite Hc, (IH Hs). reflexivity.
Qed.

(** Splitting distributes over a separator. *)
Lemma split_at_app (sep : ascii -> bool) (a b : string) (c : ascii) :
  sep c = true ->
  Py.split_at sep (a ++ String c b) = (Py.split_at sep a ++ Py.split_at sep b)%list.
Proof.
  intros Hc. induction a as [|x a IH].
  - cbn [append Py.split_at app]. rewrite Hc. reflexivity.
  - change (String x a ++ String c b) with (String x (a ++ String c b)).
    cbn [Py.split_at]. rewrite IH. destruct (sep x); [reflexivity|].
    destruct (split_at_not_nil sep a) as [piece [pieces E]]. rewrite E. reflexivity.
Qed.

Lemma splitrange_whole (low : string) :
  all_chars (fun c => negb ("-" =? c)%char) low = true ->
  _splitrange low = (low, None).
Proof.
  intros H. unfold _splitrange, Py.split_char. rewrite (split_at_whole _ _ H).
  reflexivity.
Qed.

Lemma splitrange_pair (low high : string) :
  all_chars (fun c => negb ("-" =? c)%char) low = true ->
  all_chars (fun c => negb ("-" =? c)%char) high = true ->
  _splitrange (low ++ String "-" high) = (low, Some high).
Proof.
  intros Hl Hh. unfold _splitrange, Py.split_char.
  rewrite split_at_app by reflexivity.
  rewrite (split_at_whole _ _ Hl), (split_at_whole _ _ Hh). reflexivity.
Qed.

Lemma splitrange_more (low high rest : string) :
  all_chars (fun c => negb ("-" =? c)%char) low = true ->
  all_chars (fun c => negb ("-" =? c)%char) high = true ->
  _splitrange (low ++ String "-" (high ++ String "-" rest)) = (low, Some high).
Proof.
  intros Hl Hh. unfold _splitrange, Py.split_char.
  rewrite !split_at_app by reflexivity.
  rewrite (split_at_whole _ _ Hl), (split_at_whole _ _ Hh). reflexivity.
Qed.

(** [_splitrange] returns a token without a dash whole, cuts a token at its
    first dash, and drops whatever follows a second dash: a range such as
    [1-2-x] is read as [1-2] by every scale that does not translate
    names. *)
Theorem splitrange_parts :
  (forall low,
      all_chars (fun c => negb ("-" =? c)%char) low = true ->
      _splitrange low = (low, None)) /\
  (forall low high,
      all_chars (fun c => negb ("-" =? c)%char) low = true ->
      all_chars (fun c => negb ("-" =? c)%char) high = true ->
      _splitrange (low ++ String "-" high) = (low, Some high)) /\
  (forall low high rest,
      all_chars (fun c => negb ("-" =? c)%char) low = true ->
      all_chars (fun c => negb ("-" =? c)%char) high = true ->
      _splitrange (low ++ String "-" (high ++ String "-" rest)) = (low, Some high)) /\
  (forall k dt low high rest,
      k <> Month -> k <> WeekDay ->
      all_chars (fun c => negb ("-" =? c)%char) low = true ->
      all_chars (fun c => negb ("-" =? c)%char) high = true ->
      read_bounds k dt (low ++ String "-" (high ++ String "-" rest))
      = read_bounds k dt (low ++ String "-" high)).
Proof.
  split; [exact splitrange_whole | split; [exact splitrange_pair
         | split; [exact splitrange_more|]]].
  intros k dt low high rest Hm Hw Hl Hh.
  destruct k; try contradiction; cbn [read_bounds]; unfold checked_bounds;
    rewrite (splitrange_more low high rest Hl Hh), (splitrange_pair low high Hl Hh);
    reflexivity.
Qed.

(** A scale reads ["1-2-x"] as ["1-2"]. *)
Lemma splitrange_parts_witness :
  read_bounds Hour (Py.mkdatetime 2014 2 11 12 5 0) "1-2-x"
  = read_bounds Hour (Py.mkdatetime 2014 2 11 12 5 0) "1-2".
Proof.
  apply (proj2 (proj2 (proj2 splitrange_parts)) Hour _ "1" "2" "x");
    first [discriminate | reflexivity].
Defined.

(** *** Fragments *)

Lemma append_assoc (a b c : string) : (a ++ b) ++ c = a ++ (b ++ c).
Proof.
  induction a as [|x a IH]; [reflexivity|]. cbn [append]. rewrite IH. reflexivity.
Qed.

Lemma all_chars_app (p : ascii -> bool) (a b : string) :
  all_chars p (a ++ b) = all_chars p a && all_chars p b.
Proof.
  induction a as [|c a IH]; [reflexivity|].
  cbn [append all_chars]. rewrite IH, andb_assoc. reflexivity.
Qed.

Lemma span_word_parts (s w rest : string) :
  span_word s = (w, rest) -> s = w ++ rest.
Proof.
  revert w rest. induction s as [|c s IH]; intros w rest; cbn [span_word].
  - intros E. injection E as <- <-. reflexivity.
  - destruct (Py.is_word c).
    + destruct (span_word s) as [w' r'] eqn:E'. intros E. injection E as <- <-.
      cbn [append]. rewrite (IH w' r' eq_refl). reflexivity.
    + intros E. injection E as <- <-. reflexivity.
Qed.

Lemma match_here_needs_open (s : string) :
  all_chars (fun c => negb (c =? "{")%char) s = true -> match_here s = None.
Proof.
  intros H. unfold match_here. destruct (span_word s) as [w rest] eqn:E.
  apply span_word_parts in E. subst s. rewrite all_chars_app in H.
  apply andb_true_iff in H as [_ H].
  destruct w as [|c w]; [reflexivity|]. destruct rest as [|d rest]; [reflexivity|].
  cbn [all_chars] in H. apply andb_true_iff in H as [H _].
  apply negb_true_iff, Ascii.eqb_neq in H.
  destruct d as [[] [] [] [] [] [] [] []]; first [reflexivity | contradiction H; reflexivity].
Qed.

Lemma until_close_needs_close (s : string) :
  all_chars (fun c => negb (c =? "}")%char) s = true -> until_close s = None.
Proof.
  induction s as [|c s IH]; intros H; [reflexivity|].
  cbn [all_chars] in H. apply andb_true_iff in H as [Hc Hs].
  apply negb_true_iff in Hc. cbn [until_close]. rewrite Hc, (IH Hs).
  destruct (c =? "010")%char; reflexivity.
Qed.

Lemma match_here_needs_close (s : string) :
  all_chars (fun c => negb (c =? "}")%char) s = true -> match_here s = None.
Proof.
  intros H. unfold match_here. destruct (span_word s) as [w rest] eqn:E.
  apply span_word_parts in E. subst s. rewrite all_chars_app in H.
  apply andb_true_iff in H as [_ H].
  destruct w as [|c w]; [reflexivity|]. destruct rest as [|d rest]; [reflexivity|].
  cbn [all_chars] in H. apply andb_true_iff in H as [_ H].
  rewrite (until_close_needs_close _ H).
  destruct d as [[] [] [] [] [] [] [] []]; reflexivity.
Qed.

Lemma search_needs_braces (s : string) :
  all_chars (fun c => negb (c =? "{")%char) s = true \/
  all_chars (fun c => negb (c =? "}")%char) s = true ->
  search s = None.
Proof.
  induction s as [|c s IH]; intros H; [reflexivity|].
  cbn [search].
  assert (M : match_here (String c s) = None).
  { destruct H as [H|H]; [apply match_here_needs_open | apply match_here_needs_close];
      exact H. }
  rewrite M. apply IH.
  destruct H as [H|H]; cbn [all_chars] in H; apply andb_true_iff in H as [_ H];
    [left | right]; exact H.
Qed.

Lemma all_chars_split (p sep : ascii -> bool) (s : string) :
  all_chars p s = true ->
  Forall (fun piece => all_chars p piece = true) (Py.split_at sep s).
Proof.
  induction s as [|c s IH]; intros H; [repeat constructor|].
  cbn [all_chars] in H. apply andb_true_iff in H as [Hc Hs].
  specialize (IH Hs). cbn [Py.split_at]. destruct (sep c).
  - constructor; [reflexivity | exact IH].
  - destruct (Py.split_at sep s) as [|piece pieces]; [repeat constructor; cbn; rewrite Hc; reflexivity|].
    inversion IH as [|? ? Hp Hps]. constructor; [|exact Hps].
    cbn [all_chars]. rewrite Hc, Hp. reflexivity.
Qed.

(** A sub-period other than the fixed words that lacks an opening brace, or
    a closing one, cannot be parsed, whatever the instant. *)
Theorem fragment_needs_braces (sp : string) (dt : Py.datetime) :
  fixed_sub_period sp = None ->
  all_chars (fun c => negb (c =? "{")%char) sp = true \/
  all_chars (fun c => negb (c =? "}")%char) sp = true ->
  _is_in_sub_period sp dt
  = Raise (InvalidFormat "Unable to parse the given time period.").
Proof.
  intros Hf H. rewrite (is_in_sub_period_tests sp dt Hf). rewrite <- scale_tests_built.
  destruct (split_at_not_nil (Ascii.eqb "|") sp) as [piece [pieces E]].
  unfold Py.split_char. rewrite E. cbn [build_range_lists].
  assert (S : search piece = None).
  { apply search_needs_braces.
    destruct H as [H|H]; [left | right];
      apply (all_chars_split _ (Ascii.eqb "|")) in H; rewrite E in H;
      inversion H; assumption. }
  unfold _parse_scale. rewrite S. reflexivity.
Qed.

(** A scale code without braces. *)
Lemma fragment_needs_braces_witness :
  _is_in_sub_period "hr" (Py.mkdatetime 2014 2 11 12 5 0)
  = Raise (InvalidFormat "Unable to parse the given time period.").
Proof.
  apply fragment_needs_braces; [reflexivity | left; reflexivity].
Defined.

(** The codes of [SCALES] are words. *)
Lemma kind_of_word (code : string) (k : scale_kind) :
  kind_of code = Some k ->
  code <> EmptyString /\ all_chars Py.is_word code = true.
Proof.
  unfold kind_of. cbn [get].
  repeat match goal with
         | |- context [(?c =? code)%string] =>
             destruct (String.eqb_spec c code) as [E|_];
             [subst code; intros _; split; [discriminate | reflexivity]|]
         end.
  discriminate.
Qed.

Lemma not_fixed_with_brace (a b : string) :
  fixed_sub_period (a ++ String "{" b) = None.
Proof.
  assert (N : forall t, all_chars (fun c => negb (c =? "{")%char) t = true ->
                        (a ++ String "{" b =? t)%string = false).
  { intros t Ht. apply String.eqb_neq. intros E. rewrite <- E, all_chars_app in Ht.
    apply andb_true_iff in Ht as [_ Ht]. discriminate Ht. }
  unfold fixed_sub_period. rewrite !N by reflexivity. reflexivity.
Qed.

Lemma parse_scale_test (code body : string) (k : scale_kind) :
  kind_of code = Some k ->
  all_chars (fun c => negb ((c =? "}")%char || (c =? "010")%char)) body = true ->
  _parse_scale (code ++ String "{" (body ++ String "}" EmptyString))
  = Ok (code, Py.split_at Py.is_space body).
Proof.
  intros Hk Hb. destruct (kind_of_word code k Hk) as [Hne Hw].
  destruct (kind_of_scales code k Hk) as [f [Hg _]].
  unfold _parse_scale.
  rewrite (search_here _ _ (match_here_scale_test code body EmptyString Hne Hw Hb)), Hg.
  reflexivity.
Qed.

Lemma word_has_no_bar (s : string) :
  all_chars Py.is_word s = true -> all_chars (fun c => negb ("|" =? c)%char) s = true.
Proof.
  induction s as [|c s IH]; intros H; [reflexivity|].
  cbn [all_chars] in *. apply andb_true_iff in H as [Hc Hs]. rewrite (IH Hs), andb_true_r.
  destruct c as [[] [] [] [] [] [] [] []]; first [reflexivity | discriminate Hc].
Qed.

(** A sub-period made of one scale test is the loop of its scale over the
    ranges between the braces, split at every whitespace character. *)
Lemma single_scale_test (code body : string) (k : scale_kind) (dt : Py.datetime) :
  kind_of code = Some k -> body_ok body = true ->
  _is_in_sub_period (code ++ String "{" (body ++ String "}" EmptyString)) dt
  = any_range (range_test k dt) (Py.split_at Py.is_space body).
Proof.
  intros Hk Hb. apply andb_true_iff in Hb as [Hb Hbar].
  destruct (kind_of_word code k Hk) as [Hne Hw].
  rewrite (is_in_sub_period_tests _ dt (not_fixed_with_brace _ _)).
  rewrite <- scale_tests_built. unfold Py.split_char. rewrite split_at_whole.
  - cbn [build_range_lists]. rewrite (parse_scale_test code body k Hk Hb).
    cbn [bind add_ranges check_scales].
    destruct (kind_of_scales code k Hk) as [f [Hg Hf]]. rewrite Hg, Hf.
    destruct (any_range (range_test k dt) _) as [r|e]; [|reflexivity].
    cbn [bind]. destruct (Z.eqb_spec r 1) as [->|_]; reflexivity.
  - rewrite all_chars_app. cbn [all_chars]. rewrite all_chars_app. cbn [all_chars].
    rewrite (word_has_no_bar _ Hw), Hbar. reflexivity.
Qed.

(** The short and the long code of a scale are interchangeable: a sub-period
    made of one scale test gives the same result under either code. *)
Theorem codes_of_a_scale_agree (short long body : string) (k : scale_kind)
    (dt : Py.datetime) :
  kind_of short = Some k -> kind_of long = Some k -> body_ok body = true ->
  _is_in_sub_period (long ++ String "{" (body ++ String "}" EmptyString)) dt
  = _is_in_sub_period (short ++ String "{" (body ++ String "}" EmptyString)) dt.
Proof.
  intros Hs Hl Hb.
  rewrite (single_scale_test long body k dt Hl Hb),
    (single_scale_test short body k dt Hs Hb).
  reflexivity.
Qed.

(** ["hour{9-16}"] and ["hr{9-16}"]. *)
Lemma codes_of_a_scale_agree_witness :
  _is_in_sub_period "hour{9-16}" (Py.mkdatetime 2014 2 11 12 5 0)
  = _is_in_sub_period "hr{9-16}" (Py.mkdatetime 2014 2 11 12 5 0).
Proof.
  apply (codes_of_a_scale_agree "hr" "hour" "9-16" Hour); reflexivity.
Defined.

(** Braces with nothing between them hold one empty range, which no scale
    reads as an integer: the sub-period raises, naming the scale. *)
Theorem empty_braces_raise (code : string) (k : scale_kind) (dt : Py.datetime) :
  kind_of code = Some k ->
  _is_in_sub_period (code ++ "{}") dt = Raise (integer_required (scale_label k)).
Proof.
  intros Hk.
  change (code ++ "{}") with (code ++ String "{" (EmptyString ++ String "}" EmptyString)).
  rewrite (single_scale_test code EmptyString k dt Hk eq_refl).
  destruct k; reflexivity.
Qed.

(** ["yday{}"]. *)
Lemma empty_braces_raise_witness :
  _is_in_sub_period "yday{}" (Py.mkdatetime 2014 2 11 12 5 0)
  = Raise (InvalidFormat "An integer value is required for year day.").
Proof. apply (empty_braces_raise "yday" YearDay). reflexivity. Defined.

(** *** Results *)

Lemma is_in_range_flag (x low : Py.num) (high : option Py.num) :
  _is_in_range x low high = 0 \/ _is_in_range x low high = 1.
Proof.
  unfold _is_in_range. destruct high as [high|].
  - destruct (Py.eq low high); [destruct (Py.ne low x); auto|].
    destruct (Py.gt high low); [destruct (Py.gt x high || Py.lt x low); auto|].
    destruct (Py.gt low high); [|auto].
    destruct (negb (Py.ge x low || Py.le x high)); auto.
  - destruct (Py.ne low x); auto.
Qed.

Lemma any_range_flag (test : string -> result Z) (ranges : list string) (r : Z) :
  any_range test ranges = Ok r -> r = 0 \/ r = 1.
Proof.
  induction ranges as [|range ranges IH]; cbn [any_range].
  - intros E. injection E as <-. left. reflexivity.
  - destruct (test range) as [v|e]; cbn [bind]; [|discriminate].
    destruct (Py.truthy v); [|exact IH]. intros E. injection E as <-. right. reflexivity.
Qed.

Lemma check_scales_flag (range_lists : list (string * list string))
    (dt : Py.datetime) (r : Z) :
  check_scales range_lists dt = Ok r -> r = 0 \/ r = 1.
Proof.
  induction range_lists as [|[scale ranges] rest IH]; cbn [check_scales].
  - intros E. injection E as <-. right. reflexivity.
  - destruct (get SCALES scale) as [f|] eqn:Eg; [|discriminate].
    destruct (scales_are_loops scale f Eg) as [k [_ Hf]]. rewrite Hf.
    destruct (any_range (range_test k dt) ranges) as [v|e] eqn:Ev; cbn [bind];
      [|discriminate].
    destruct (negb (v =? 1)); [|exact IH].
    intros E. injection E as <-. exact (any_range_flag _ _ _ Ev).
Qed.

(** What the module computes on the way is a flag: [_is_in_range], every
    function of [SCALES] and [_is_in_sub_period] return 0 or 1 and nothing
    else, for integers and floats alike. *)
Theorem results_are_flags :
  (forall x low high, _is_in_range x low high = 0 \/ _is_in_range x low high = 1) /\
  (forall code f ranges dt r,
      get SCALES code = Some f -> f ranges dt = Ok r -> r = 0 \/ r = 1) /\
  (forall sp dt r, _is_in_sub_period sp dt = Ok r -> r = 0 \/ r = 1).
Proof.
  split; [exact is_in_range_flag | split].
  - intros code f ranges dt r Hg. destruct (scales_are_loops code f Hg) as [k [_ Hf]].
    rewrite Hf. apply any_range_flag.
  - intros sp dt r. unfold _is_in_sub_period.
    destruct (sp =? "never")%string; [intros E; injection E as <-; auto|].
    destruct ((sp =? "none")%string || (sp =? "always")%string || (sp =? "")%string);
      [intros E; injection E as <-; auto|].
    destruct (build_range_lists _ []) as [range_lists|e]; cbn [bind]; [|discriminate].
    apply check_scales_flag.
Qed.

(** *** Several scale tests in a sub-period *)

Lemma split_two_fragments (a b : string) :
  all_chars (fun c => negb ("|" =? c)%char) a = true ->
  all_chars (fun c => negb ("|" =? c)%char) b = true ->
  Py.split_char "|" (a ++ String "|" b) = [a; b].
Proof.
  intros Ha Hb. unfold Py.split_char. rewrite split_at_app by reflexivity.
  rewrite (split_at_whole _ _ Ha), (split_at_whole _ _ Hb). reflexivity.
Qed.

Lemma scale_test_has_no_bar (code body : string) (k : scale_kind) :
  kind_of code = Some k -> body_ok body = true ->
  all_chars (fun c => negb ("|" =? c)%char)
            (code ++ String "{" (body ++ String "}" EmptyString)) = true.
Proof.
  intros Hk Hb. apply andb_true_iff in Hb as [_ Hbar].
  destruct (kind_of_word code k Hk) as [_ Hw].
  rewrite all_chars_app. cbn [all_chars]. rewrite all_chars_app. cbn [all_chars].
  rewrite (word_has_no_bar _ Hw), Hbar. reflexivity.
Qed.

Lemma body_ok_joined (b1 b2 : string) :
  body_ok b1 = true -> body_ok b2 = true -> body_ok (b1 ++ String " " b2) = true.
Proof.
  unfold body_ok. intros H1 H2.
  apply andb_true_iff in H1 as [A1 B1]. apply andb_true_iff in H2 as [A2 B2].
  rewrite !all_chars_app. cbn [all_chars]. rewrite A1, A2, B1, B2. reflexivity.
Qed.

(** Two scale tests with the same code in one sub-period count as one test
    with the ranges of both: the ranges accumulate, the second test does
    not replace the first and is not a further condition. *)
Theorem same_code_accumulates (code b1 b2 : string) (k : scale_kind)
    (dt : Py.datetime) :
  kind_of code = Some k -> body_ok b1 = true -> body_ok b2 = true ->
  _is_in_sub_period
    ((code ++ String "{" (b1 ++ String "}" EmptyString))
     ++ String "|" (code ++ String "{" (b2 ++ String "}" EmptyString))) dt
  = _is_in_sub_period
      (code ++ String "{" ((b1 ++ String " " b2) ++ String "}" EmptyString)) dt.
Proof.
  intros Hk H1 H2.
  rewrite (single_scale_test code _ k dt Hk (body_ok_joined _ _ H1 H2)).
  rewrite split_at_app by reflexivity.
  assert (F : fixed_sub_period
                ((code ++ String "{" (b1 ++ String "}" EmptyString))
                 ++ String "|" (code ++ String "{" (b2 ++ String "}" EmptyString)))
              = None).
  { rewrite append_assoc. apply not_fixed_with_brace. }
  rewrite (is_in_sub_period_tests _ dt F). rewrite <- scale_tests_built.
  rewrite (split_two_fragments _ _ (scale_test_has_no_bar _ _ _ Hk H1)
                               (scale_test_has_no_bar _ _ _ Hk H2)).
  pose proof H1 as H1'. pose proof H2 as H2'.
  apply andb_true_iff in H1' as [A1 _]. apply andb_true_iff in H2' as [A2 _].
  cbn [build_range_lists].
  rewrite (parse_scale_test code b1 k Hk A1), (parse_scale_test code b2 k Hk A2).
  cbn [bind add_ranges]. rewrite String.eqb_refl. cbn [bind check_scales].
  destruct (kind_of_scales code k Hk) as [f [Hg Hf]]. rewrite Hg, Hf.
  destruct (any_range (range_test k dt) _) as [r|e]; [|reflexivity].
  cbn [bind]. destruct (Z.eqb_spec r 1) as [->|_]; reflexivity.
Qed.

(** ["hr{1}|hr{2}"] is ["hr{1 2}"]. *)
Lemma same_code_accumulates_witness :
  _is_in_sub_period "hr{1}|hr{2}" (Py.mkdatetime 2014 2 11 12 5 0)
  = _is_in_sub_period "hr{1 2}" (Py.mkdatetime 2014 2 11 12 5 0).
Proof.
  apply (same_code_accumulates "hr" "1" "2" Hour); reflexivity.
Defined.

(** Two scale tests with different codes are two conditions, tested in the
    order they appear, the second only when the first holds; this is so
    even when the two codes name the same scale. *)
Theorem different_codes_are_conjoined (c1 c2 b1 b2 : string) (k1 k2 : scale_kind)
    (dt : Py.datetime) :
  c1 <> c2 -> kind_of c1 = Some k1 -> kind_of c2 = Some k2 ->
  body_ok b1 = true -> body_ok b2 = true ->
  _is_in_sub_period
    ((c1 ++ String "{" (b1 ++ String "}" EmptyString))
     ++ String "|" (c2 ++ String "{" (b2 ++ String "}" EmptyString))) dt
  = (r <- any_range (range_test k1 dt) (Py.split_at Py.is_space b1) ;;
     if r =? 1 then any_range (range_test k2 dt) (Py.split_at Py.is_space b2)
     else Ok r).
Proof.
  intros Hne Hk1 Hk2 H1 H2.
  assert (F : fixed_sub_period
                ((c1 ++ String "{" (b1 ++ String "}" EmptyString))
                 ++ String "|" (c2 ++ String "{" (b2 ++ String "}" EmptyString)))
              = None).
  { rewrite append_assoc. apply not_fixed_with_brace. }
  rewrite (is_in_sub_period_tests _ dt F). rewrite <- scale_tests_built.
  rewrite (split_two_fragments _ _ (scale_test_has_no_bar _ _ _ Hk1 H1)
                               (scale_test_has_no_bar _ _ _ Hk2 H2)).
  pose proof H1 as H1'. pose proof H2 as H2'.
  apply andb_true_iff in H1' as [A1 _]. apply andb_true_iff in H2' as [A2 _].
  cbn [build_range_lists].
  rewrite (parse_scale_test c1 b1 k1 Hk1 A1), (parse_scale_test c2 b2 k2 Hk2 A2).
  cbn [bind add_ranges].
  destruct (String.eqb_spec c1 c2) as [E|_]; [contradiction|].
  cbn [bind check_scales].
  destruct (kind_of_scales c1 k1 Hk1) as [f1 [Hg1 Hf1]].
  destruct (kind_of_scales c2 k2 Hk2) as [f2 [Hg2 Hf2]].
  rewrite Hg1, Hf1, Hg2, Hf2.
  destruct (any_range (range_test k1 dt) _) as [r|e]; [|reflexivity].
  cbn [bind]. destruct (r =? 1); cbn [negb]; [|reflexivity].
  destruct (any_range (range_test k2 dt) _) as [r2|e]; [|reflexivity].
  cbn [bind]. destruct (Z.eqb_spec r2 1) as [->|_]; reflexivity.
Qed.

(** ["hr{12}|hour{13}"] asks for both hours at once. *)
Lemma different_codes_are_conjoined_witness :
  _is_in_sub_period "hr{12}|hour{13}" (Py.mkdatetime 2014 2 11 12 5 0) = Ok 0.
Proof.
  rewrite (different_codes_are_conjoined "hr" "hour" "12" "13" Hour Hour);
    first [reflexivity | discriminate].
Defined.

(** *** The order of sub-periods and of ranges *)

Lemma existsb_permutation {A : Type} (f : A -> bool) (l l' : list A) :
  Permutation l l' -> existsb f l = existsb f l'.
Proof.
  induction 1 as [|x l l' _ IH|x y l|l l' l'' _ IH1 _ IH2]; cbn [existsb].
  - reflexivity.
  - rewrite IH. reflexivity.
  - destruct (f x), (f y); reflexivity.
  - rewrite IH1. exact IH2.
Qed.

Lemma forallb_permutation {A : Type} (f : A -> bool) (l l' : list A) :
  Permutation l l' -> forallb f l = forallb f l'.
Proof.
  induction 1 as [|x l l' _ IH|x y l|l l' l'' _ IH1 _ IH2]; cbn [forallb].
  - reflexivity.
  - rewrite IH. reflexivity.
  - destruct (f x), (f y); reflexivity.
  - rewrite IH1. exact IH2.
Qed.

(** When every sub-period of a period is in order, their order does not
    matter: a period with the same sub-periods in another order gives the
    same result. *)
Theorem sub_period_order_is_irrelevant (p q : string) (dt : Py.datetime) :
  well_formed p dt = true ->
  Permutation (sub_periods p) (sub_periods q) ->
  in_period p dt = in_period q dt.
Proof.
  intros Hp Hperm.
  assert (Hq : well_formed q dt = true).
  { unfold well_formed. rewrite <- (forallb_permutation _ _ _ Hperm). exact Hp. }
  rewrite !in_period_sub_periods.
  rewrite (any_sub_period_exists _ dt Hp), (any_sub_period_exists _ dt Hq).
  rewrite (existsb_permutation _ _ _ Hperm). reflexivity.
Qed.

(** Two sub-periods, swapped. *)
Lemma sub_period_order_is_irrelevant_witness :
  in_period "hr {9-16}, wd {sa}" (Py.mkdatetime 2014 2 11 12 5 0)
  = in_period "wd {sa}, hr {9-16}" (Py.mkdatetime 2014 2 11 12 5 0).
Proof.
  apply sub_period_order_is_irrelevant.
  - reflexivity.
  - exact (perm_swap "wd{sa}" "hr{9-16}" []).
Defined.

(** When every range given to a scale has bounds the scale accepts, the
    order of the ranges does not matter. *)
Theorem range_order_is_irrelevant (code : string) (f : scale_function)
    (k : scale_kind) (ranges ranges' : list string) (dt : Py.datetime) :
  get SCALES code = Some f -> kind_of code = Some k ->
  forallb (range_ok k dt) ranges = true ->
  Permutation ranges ranges' ->
  f ranges dt = f ranges' dt.
Proof.
  intros Hg Hk Hok Hperm.
  destruct (scales_are_loops code f Hg) as [k' [Hk' Hf]].
  rewrite Hk in Hk'. injection Hk' as <-.
  assert (Hok' : forallb (range_ok k dt) ranges' = true).
  { rewrite <- (forallb_permutation _ _ _ Hperm). exact Hok. }
  rewrite !Hf, (any_range_exists k dt _ Hok), (any_range_exists k dt _ Hok').
  rewrite (existsb_permutation _ _ _ Hperm). reflexivity.
Qed.

(** Two ranges of an hour, swapped. *)
Lemma range_order_is_irrelevant_witness :
  hr ["9-12"; "14"] (Py.mkdatetime 2014 2 11 12 5 0)
  = hr ["14"; "9-12"] (Py.mkdatetime 2014 2 11 12 5 0).
Proof.
  apply (range_order_is_irrelevant "hr" hr Hour);
    first [reflexivity | apply perm_swap].
Defined.

(** *** Years and weeks *)

(** The year scale has no domain: a literal that [int] reads as 100 or more
    is compared with the year as it stands and raises nothing; a literal
    that [int] refuses, as it does every literal of more than
    [Py.max_str_digits] digits, raises. *)
Theorem long_years_are_literal (low : string) (dt : Py.datetime) :
  all_chars (fun c => negb ("-" =? c)%char) low = true ->
  (forall n, Py.int_of_str low = Some n -> 100 <= n ->
             yr [low] dt = Ok (if Py.year dt =? n then 1 else 0)) /\
  (Py.int_of_str low = None ->
   yr [low] dt = Raise (InvalidFormat "An integer value is required for year.")) /\
  (Py.max_str_digits < Py.count_digits low -> Py.int_of_str low = None).
Proof.
  intros Hd. split; [|split].
  - intros n Hi Hn. unfold yr. cbn [any_range].
    rewrite (splitrange_whole low Hd). unfold normal_year_of. rewrite Hi.
    destruct (Z.ltb_spec n 100); [lia|]. cbn [bind normal_year].
    change (@None Py.num) with (option_map Py.Int None).
    rewrite is_in_range_ints. unfold in_range_rule.
    destruct (Py.year dt =? n); reflexivity.
  - intros Hi. unfold yr. cbn [any_range].
    rewrite (splitrange_whole low Hd). unfold normal_year_of. rewrite Hi.
    reflexivity.
  - intros Hc. unfold Py.int_of_str.
    destruct (Z.ltb_spec Py.max_str_digits (Py.count_digits low)); [reflexivity | lia].
Qed.

(** The year 12345 in 2014, and a year of 4301 digits. *)
Lemma long_years_are_literal_witness :
  let dt := Py.mkdatetime 2014 2 11 12 5 0 in
  yr ["12345"] dt = Ok 0 /\
  yr [zeros 4301] dt = Raise (InvalidFormat "An integer value is required for year.").
Proof.
  cbv zeta. split.
  - apply (proj1 (long_years_are_literal "12345" (Py.mkdatetime 2014 2 11 12 5 0)
                    eq_refl) 12345); first [reflexivity | lia].
  - assert (D : all_chars (fun c => negb ("-" =? c)%char) (zeros 4301) = true)
      by (vm_compute; reflexivity).
    destruct (long_years_are_literal (zeros 4301) (Py.mkdatetime 2014 2 11 12 5 0) D)
      as (_ & R & L).
    apply R, L. vm_compute. reflexivity.
Defined.

Lemma Zrange_complete (count : nat) (first z : Z) :
  first <= z < first + Z.of_nat count -> In z (Zrange first count).
Proof.
  revert first. induction count as [|count IH]; intros first H; [lia|].
  cbn [Zrange In]. destruct (Z.eq_dec first z) as [E|E]; [left; exact E|].
  right. apply IH. lia.
Qed.

Lemma short_years_checked :
  forallb (fun y => short_year_misses y (y mod 100) || (y mod 100 =? 0))
          (Zrange 1 (Z.to_nat 9999)) = true.
Proof. vm_compute. reflexivity. Qed.

(** With [/] as true division the century of [normal_year] is no integer,
    and the two-digit literal of a year does not match it: whatever the year
    from 1 to 9999, its last two digits, unless they are 00, give a bound
    that differs from the year. *)
Theorem last_two_digits_do_not_match (low : string) (dt : Py.datetime) :
  1 <= Py.year dt <= 9999 ->
  all_chars (fun c => negb ("-" =? c)%char) low = true ->
  Py.int_of_str low = Some (Py.year dt mod 100) ->
  Py.year dt mod 100 <> 0 ->
  yr [low] dt = Ok 0.
Proof.
  intros Hy Hd Hi Hn. unfold yr. cbn [any_range].
  rewrite (splitrange_whole low Hd). unfold normal_year_of. rewrite Hi.
  pose proof (Z.mod_pos_bound (Py.year dt) 100 ltac:(lia)) as Hm.
  destruct (Z.ltb_spec (Py.year dt mod 100) 100); [|lia].
  cbn [bind normal_year]. unfold _is_in_range.
  pose proof short_years_checked as C. rewrite forallb_forall in C.
  specialize (C (Py.year dt) (Zrange_complete (Z.to_nat 9999) 1 (Py.year dt) ltac:(lia))).
  apply orb_true_iff in C as [C|C]; [|apply Z.eqb_eq in C; contradiction].
  unfold short_year_misses in C. rewrite C. reflexivity.
Qed.

(** The literal 14 in 2014. *)
Lemma last_two_digits_do_not_match_witness :
  yr ["14"] (Py.mkdatetime 2014 2 11 12 5 0) = Ok 0.
Proof.
  apply last_two_digits_do_not_match;
    first [reflexivity | discriminate | cbn; lia].
Defined.

Lemma weeks_checked :
  forallb (fun d => forallb (week_is_exact d) (Zrange 1 5)) (Zrange 1 31) = true.
Proof. vm_compute. reflexivity. Qed.

(** With [/] as true division the week of a day is a whole number on the
    days 1, 8, 15, 22 and 29 only, so week [n] matches on day
    [7 * (n - 1) + 1] and on no other day of the month. *)
Theorem weeks_match_one_day_only (low : string) (n : Z) (dt : Py.datetime) :
  1 <= Py.day dt <= 31 ->
  all_chars (fun c => negb ("-" =? c)%char) low = true ->
  Py.int_of_str low = Some n -> 1 <= n <= 5 ->
  wk [low] dt = Ok (if Py.day dt =? 7 * (n - 1) + 1 then 1 else 0).
Proof.
  intros Hday Hd Hi Hn. unfold wk, _simple_test. cbn [any_range].
  rewrite (splitrange_whole low Hd). unfold _in_min_max. cbn [int option_map].
  rewrite Hi. destruct (Z.ltb_spec n 1), (Z.gtb_spec n 5); try lia.
  cbn [orb bind]. unfold _is_in_range, Py.ne.
  pose proof weeks_checked as C. rewrite forallb_forall in C.
  specialize (C (Py.day dt) (Zrange_complete 31 1 (Py.day dt) ltac:(lia))).
  rewrite forallb_forall in C.
  specialize (C n (Zrange_complete 5 1 n ltac:(lia))).
  unfold week_is_exact in C. apply Bool.eqb_prop in C. rewrite C.
  destruct (Py.day dt =? 7 * (n - 1) + 1); reflexivity.
Qed.

(** Week 2 on the 11th. *)
Lemma weeks_match_one_day_only_witness :
  wk ["2"] (Py.mkdatetime 2014 2 11 12 5 0) = Ok 0.
Proof.
  apply (weeks_match_one_day_only "2" 2); first [reflexivity | cbn; lia].
Defined.

(** *** What the normalizer ignores and what it keeps *)

Lemma normalize_lower (period : string) :
  normalize (Py.lower period) = normalize period.
Proof.
  rewrite !normalize_delete_doomed.
  change (@None ascii) with (option_map Py.lower_char None) at 1.
  rewrite delete_runs_lower, insert_bars_lower, lower_idem. reflexivity.
Qed.

Lemma in_period_by_normal_form (p q : string) (dt : Py.datetime) :
  normalize p = normalize q -> in_period p dt = in_period q dt.
Proof. intros E. unfold in_period. rewrite E. reflexivity. Qed.

(** Letter case is irrelevant: two periods that differ only in the case of
    their letters give the same result, or raise the same exception, at
    every instant. *)
Theorem case_is_irrelevant (p q : string) (dt : Py.datetime) :
  Py.lower p = Py.lower q -> in_period p dt = in_period q dt.
Proof.
  intros E. apply in_period_by_normal_form.
  rewrite <- (normalize_lower p), <- (normalize_lower q), E. reflexivity.
Qed.

(** Upper case and mixed case. *)
Lemma case_is_irrelevant_witness :
  in_period "WD {MON-FRI} HR {9-16}" (Py.mkdatetime 2014 2 11 12 5 0)
  = in_period "Wd {Mon-Fri} Hr {9-16}" (Py.mkdatetime 2014 2 11 12 5 0).
Proof. apply case_is_irrelevant. reflexivity. Defined.

Lemma delete_leading_run (ws s : string) :
  all_chars Py.is_space ws = true ->
  delete_runs doomed_anywhere None (ws ++ s) = delete_runs doomed_anywhere None s.
Proof.
  induction ws as [|c ws IH]; intros H; [reflexivity|].
  cbn [all_chars] in H. apply andb_true_iff in H as [Hc Hws].
  cbn [append delete_runs]. rewrite Hc. exact (IH Hws).
Qed.

Lemma first_nonspace_spaces (ws : string) :
  all_chars Py.is_space ws = true -> first_nonspace ws = None.
Proof.
  induction ws as [|c ws IH]; intros H; [reflexivity|].
  cbn [all_chars] in H. apply andb_true_iff in H as [Hc Hws].
  rewrite (first_nonspace_cons_space c ws Hc). exact (IH Hws).
Qed.

Lemma first_nonspace_before_spaces (s ws : string) :
  all_chars Py.is_space ws = true -> first_nonspace (s ++ ws) = first_nonspace s.
Proof.
  intros H. induction s as [|c s IH]; [exact (first_nonspace_spaces ws H)|].
  cbn [append]. destruct (Py.is_space c) eqn:Ec.
  - rewrite !(first_nonspace_cons_space _ _ Ec). exact IH.
  - rewrite !(first_nonspace_cons_other _ _ Ec). reflexivity.
Qed.

Lemma delete_final_run (s ws : string) (before : option ascii) :
  all_chars Py.is_space ws = true ->
  delete_runs doomed_anywhere before (s ++ ws) = delete_runs doomed_anywhere before s.
Proof.
  intros H. revert before. induction s as [|c s IH]; intros before.
  - cbn [append]. clear -H. induction ws as [|c ws IH]; [reflexivity|].
    cbn [all_chars] in H. apply andb_true_iff in H as [Hc Hws].
    cbn [delete_runs]. rewrite Hc, (first_nonspace_spaces ws Hws).
    unfold doomed_anywhere. cbn [is_end]. rewrite !orb_true_r. cbn [orb].
    exact (IH Hws).
  - cbn [append delete_runs]. rewrite (first_nonspace_before_spaces s ws H), !IH.
    reflexivity.
Qed.

Lemma normalize_outer_whitespace (ws ws' p : string) :
  all_chars Py.is_space ws = true -> all_chars Py.is_space ws' = true ->
  normalize (ws ++ p ++ ws') = normalize p.
Proof.
  intros H H'. rewrite !normalize_delete_doomed.
  rewrite (delete_leading_run ws _ H), (delete_final_run p ws' None H'). reflexivity.
Qed.

(** Whitespace in front of a period and behind it is irrelevant, whichever
    whitespace characters it is made of. *)
Theorem outer_whitespace_is_irrelevant (ws ws' p : string) (dt : Py.datetime) :
  all_chars Py.is_space ws = true -> all_chars Py.is_space ws' = true ->
  in_period (ws ++ p ++ ws') dt = in_period p dt.
Proof.
  intros H H'. apply in_period_by_normal_form, normalize_outer_whitespace; assumption.
Qed.

(** Spaces in front, a line feed behind. *)
Lemma outer_whitespace_is_irrelevant_witness :
  in_period ("  " ++ "hr {9-16}" ++ String "010" EmptyString)
            (Py.mkdatetime 2014 2 11 12 5 0)
  = in_period "hr {9-16}" (Py.mkdatetime 2014 2 11 12 5 0).
Proof. apply outer_whitespace_is_irrelevant; reflexivity. Defined.

Lemma is_payload_space (c : ascii) : Py.is_space c = true -> is_payload c = false.
Proof. intros H. unfold is_payload. rewrite H. reflexivity. Qed.

Lemma keep_delete_runs (doomed : option ascii -> option ascii -> bool)
    (before : option ascii) (s : string) :
  keep is_payload (delete_runs doomed before s) = keep is_payload s.
Proof.
  revert before. induction s as [|c s IH]; intros before; [reflexivity|].
  cbn [delete_runs keep]. destruct (Py.is_space c) eqn:Ec.
  - rewrite (is_payload_space c Ec).
    destruct (doomed before (first_nonspace s)); [apply IH|].
    cbn [keep]. rewrite (is_payload_space c Ec). apply IH.
  - cbn [keep]. rewrite IH. reflexivity.
Qed.

Lemma keep_insert_bars (s : string) :
  keep is_payload (insert_bars s) = keep is_payload s.
Proof.
  induction s as [|c s IH]; [reflexivity|].
  destruct s as [|d s]; [reflexivity|]. rewrite insert_bars_cons.
  destruct ((c =? "}")%char && negb (d =? ",")%char) eqn:E.
  - apply andb_true_iff in E as [E _]. apply Ascii.eqb_eq in E. subst c.
    change (keep is_payload (String "}" (String "|" (insert_bars (String d s)))))
      with (String "}" (keep is_payload (insert_bars (String d s)))).
    rewrite IH. reflexivity.
  - change (keep is_payload (String c (insert_bars (String d s))))
      with (if is_payload c then String c (keep is_payload (insert_bars (String d s)))
            else keep is_payload (insert_bars (String d s))).
    rewrite IH. reflexivity.
Qed.

Lemma is_payload_lower (c : ascii) : is_payload (Py.lower_char c) = is_payload c.
Proof.
  unfold is_payload. rewrite is_space_lower, eqb_lower_symbol by reflexivity.
  reflexivity.
Qed.

Lemma keep_lower (s : string) :
  keep is_payload (Py.lower s) = Py.lower (keep is_payload s).
Proof.
  induction s as [|c s IH]; [reflexivity|].
  cbn [Py.lower keep]. rewrite is_payload_lower, IH.
  destruct (is_payload c); reflexivity.
Qed.

(** The normalizer loses nothing but whitespace and adds nothing but bars:
    the other characters of a period are those of its normal form, in the
    same order, in lower case. *)
Theorem normalize_keeps_payload (period : string) :
  keep is_payload (normalize period) = Py.lower (keep is_payload period).
Proof.
  rewrite normalize_delete_doomed, keep_lower, keep_insert_bars, keep_delete_runs.
  reflexivity.
Qed.

(** *** Commas *)

Lemma first_nonspace_of_prefix (s rest : string) :
  s <> EmptyString -> ends_without_space s = true ->
  first_nonspace (s ++ rest) = first_nonspace s.
Proof.
  induction s as [|c s IH]; intros Hne H; [contradiction|].
  cbn [append]. destruct (Py.is_space c) eqn:Ec.
  - rewrite !(first_nonspace_cons_space _ _ Ec).
    destruct s as [|d s]; [cbn [ends_without_space] in H; rewrite Ec in H; discriminate|].
    apply IH; [discriminate | exact H].
  - rewrite !(first_nonspace_cons_other _ _ Ec). reflexivity.
Qed.

Lemma delete_runs_before_comma (p q : string) (before : option ascii) :
  ends_without_space p = true ->
  delete_runs doomed_anywhere before (p ++ String "," q)
  = delete_runs doomed_anywhere before p
    ++ String "," (delete_runs doomed_anywhere (Some ","%char) q).
Proof.
  revert before. induction p as [|c p IH]; intros before H; [reflexivity|].
  destruct p as [|d p].
  - cbn [ends_without_space] in H. apply negb_true_iff in H.
    cbn [append delete_runs]. rewrite H. reflexivity.
  - assert (H' : ends_without_space (String d p) = true) by exact H.
    change (String c (String d p) ++ String "," q)
      with (String c (String d p ++ String "," q)).
    cbn [delete_runs].
    rewrite (first_nonspace_of_prefix (String d p) _ ltac:(discriminate) H').
    rewrite !(IH _ H').
    destruct (Py.is_space c); [destruct (doomed_anywhere before _)|]; reflexivity.
Qed.

Lemma delete_runs_after_comma (q : string) :
  delete_runs doomed_anywhere (Some ","%char) q = delete_runs doomed_anywhere None q.
Proof.
  induction q as [|c q IH]; [reflexivity|].
  cbn [delete_runs]. destruct (Py.is_space c); [|reflexivity].
  unfold doomed_anywhere at 1 3. cbn [is_end is_char Ascii.eqb Bool.eqb orb andb].
  rewrite !orb_true_r. cbn [orb]. exact IH.
Qed.

Lemma insert_bars_comma (b : string) :
  insert_bars (String "," b) = String "," (insert_bars b).
Proof. destruct b; reflexivity. Qed.

Lemma insert_bars_before_comma (a b : string) :
  insert_bars (a ++ String "," b) = insert_bars a ++ String "," (insert_bars b).
Proof.
  induction a as [|c a IH]; [apply insert_bars_comma|].
  destruct a as [|d a].
  - cbn [append]. rewrite insert_bars_cons, insert_bars_comma.
    rewrite andb_false_r. reflexivity.
  - change (String c (String d a) ++ String "," b)
      with (String c (String d (a ++ String "," b))).
    rewrite !insert_bars_cons.
    change (String d (a ++ String "," b)) with (String d a ++ String "," b).
    rewrite IH.
    destruct ((c =? "}")%char && negb (d =? ",")%char); reflexivity.
Qed.

Lemma lower_app (a b : string) : Py.lower (a ++ b) = Py.lower a ++ Py.lower b.
Proof.
  induction a as [|c a IH]; [reflexivity|]. cbn [append Py.lower]. rewrite IH.
  reflexivity.
Qed.

Lemma normalize_comma (p q : string) :
  ends_without_space p = true ->
  normalize (p ++ String "," q) = normalize p ++ String "," (normalize q).
Proof.
  intros H. rewrite !normalize_delete_doomed.
  rewrite (delete_runs_before_comma p q None H), delete_runs_after_comma.
  rewrite insert_bars_before_comma, lower_app. reflexivity.
Qed.

Lemma in_period_comma (p q : string) (dt : Py.datetime) :
  ends_without_space p = true ->
  in_period (p ++ String "," q) dt
  = match in_period p dt with
    | Ok true => Ok true
    | Ok false => in_period q dt
    | Raise e => Raise e
    end.
Proof.
  intros H. rewrite !in_period_sub_periods. unfold sub_periods.
  rewrite (normalize_comma p q H). unfold Py.split_char.
  rewrite split_at_app by reflexivity. apply any_sub_period_app.
Qed.

(** A comma is a short-circuit OR of whole periods: joined by a comma, the
    first period decides when it matches or raises, and the second decides
    otherwise.  (The first must not end with whitespace, which the
    normalizer would leave in front of the comma.) *)
Theorem comma_is_short_circuit_or (p q : string) (dt : Py.datetime) :
  ends_without_space p = true ->
  in_period (p ++ String "," q) dt
  = match in_period p dt with
    | Ok true => Ok true
    | Ok false => in_period q dt
    | Raise e => Raise e
    end.
Proof. apply in_period_comma. Qed.

(** A period that matches makes what follows the comma irrelevant. *)
Lemma comma_is_short_circuit_or_witness :
  in_period ("hr {9-16}" ++ String "," " xx {1}") (Py.mkdatetime 2014 2 11 12 5 0)
  = Ok true.
Proof.
  rewrite comma_is_short_circuit_or; reflexivity.
Defined.

(** *** Day and month names *)

Lemma cannot_start_sound (name u tail : string) :
  cannot_start name u = true -> Py.startswith name (u ++ tail) = false.
Proof.
  revert u. induction name as [|a name IH]; intros u H; [discriminate H|].
  destruct u as [|b u]; [discriminate H|].
  unfold cannot_start in H. cbn [Py.startswith] in H.
  cbn [append Py.startswith].
  destruct (Ascii.eqb_spec a b) as [->|Hab]; [|reflexivity].
  rewrite Ascii.eqb_refl in H. cbn [andb] in *. apply IH. exact H.
Qed.

Lemma sub_name_passes_head (name repl u tail : string) :
  forallb (cannot_start name) (suffixes u) = true ->
  sub_name name repl false (u ++ tail) = u ++ sub_name name repl false tail.
Proof.
  induction u as [|c u IH]; intros H; [reflexivity|].
  cbn [suffixes forallb] in H. apply andb_true_iff in H as [Hc Hu].
  change (String c u ++ tail) with (String c (u ++ tail)).
  cbn [sub_name andb].
  change (String c (u ++ tail)) with (String c u ++ tail).
  rewrite (cannot_start_sound _ _ tail Hc), (IH Hu). reflexivity.
Qed.

Lemma sub_name_swallows (name repl s : string) :
  all_chars (fun c => negb (ends_name c)) s = true ->
  sub_name name repl true s = EmptyString.
Proof.
  induction s as [|c s IH]; intros H; [reflexivity|].
  cbn [all_chars] in H. apply andb_true_iff in H as [Hc Hs].
  cbn [sub_name andb]. unfold ends_name in Hc. rewrite Hc. exact (IH Hs).
Qed.

Lemma startswith_app (name tail : string) : Py.startswith name (name ++ tail) = true.
Proof.
  induction name as [|c name IH]; [reflexivity|].
  cbn [append Py.startswith]. rewrite Ascii.eqb_refl, IH. reflexivity.
Qed.

Lemma append_empty (s : string) : s ++ EmptyString = s.
Proof. induction s as [|c s IH]; [reflexivity|]. cbn [append]. rewrite IH. reflexivity. Qed.

Lemma sub_name_at_head (name repl tail : string) :
  name <> EmptyString ->
  all_chars (fun c => negb (ends_name c)) name = true ->
  all_chars (fun c => negb (ends_name c)) tail = true ->
  sub_name name repl false (name ++ tail) = repl.
Proof.
  intros Hne Hn Ht. destruct name as [|c name]; [contradiction|].
  assert (S : Py.startswith (String c name) (String c name ++ tail) = true)
    by apply startswith_app.
  change (String c name ++ tail) with (String c (name ++ tail)) in *.
  cbn [sub_name andb]. rewrite S.
  cbn [all_chars] in Hn. apply andb_true_iff in Hn as [_ Hn].
  rewrite sub_name_swallows; [apply append_empty|].
  rewrite all_chars_app, Hn, Ht. reflexivity.
Qed.

Lemma sub_name_keeps_shape (name repl s : string) (inside : bool) :
  all_chars (fun c => negb (ends_name c)) repl = true ->
  all_chars (fun c => negb (ends_name c)) s = true ->
  all_chars (fun c => negb (ends_name c)) (sub_name name repl inside s) = true.
Proof.
  intros Hr. revert inside. induction s as [|c s IH]; intros inside H; [reflexivity|].
  cbn [all_chars] in H. apply andb_true_iff in H as [Hc Hs].
  pose proof Hc as Hc'. unfold ends_name in Hc'.
  destruct inside; cbn [sub_name andb].
  - rewrite Hc'. apply IH, Hs.
  - destruct (Py.startswith name (String c s)).
    + rewrite all_chars_app, Hr. apply IH, Hs.
    + cbn [all_chars]. rewrite Hc. apply IH, Hs.
Qed.

Lemma sub_name_leaves_digits (name repl s : string) :
  match name with
  | EmptyString => false
  | String c _ => negb (Py.is_digit c)
  end = true ->
  all_chars Py.is_digit s = true ->
  sub_name name repl false s = s.
Proof.
  intros Hn. induction s as [|c s IH]; intros H; [reflexivity|].
  cbn [all_chars] in H. apply andb_true_iff in H as [Hc Hs].
  cbn [sub_name andb].
  assert (S : Py.startswith name (String c s) = false).
  { destruct name as [|a name]; [discriminate Hn|]. cbn [Py.startswith].
    destruct (Ascii.eqb_spec a c) as [->|_]; [|reflexivity].
    rewrite Hc in Hn. discriminate Hn. }
  rewrite S, (IH Hs). reflexivity.
Qed.

Lemma digits_have_no_end (s : string) :
  all_chars Py.is_digit s = true -> all_chars (fun c => negb (ends_name c)) s = true.
Proof.
  induction s as [|c s IH]; intros H; [reflexivity|].
  cbn [all_chars] in *. apply andb_true_iff in H as [Hc Hs]. rewrite (IH Hs), andb_true_r.
  destruct c as [[] [] [] [] [] [] [] []]; first [reflexivity | discriminate Hc].
Qed.

(** The entries before a name leave it at the head of the token. *)
Lemma translate_keeps_head (earlier : list (string * Z)) (name tail : string) :
  forallb (leaves_alone name) earlier = true ->
  forallb entry_ok earlier = true ->
  all_chars (fun c => negb (ends_name c)) tail = true ->
  exists tail',
    translate earlier (name ++ tail) = name ++ tail' /\
    all_chars (fun c => negb (ends_name c)) tail' = true.
Proof.
  unfold translate. revert tail.
  induction earlier as [|entry earlier IH]; intros tail Hl Hok Ht.
  - exists tail. split; [reflexivity | exact Ht].
  - cbn [forallb] in Hl, Hok. apply andb_true_iff in Hl as [Hl Hls].
    apply andb_true_iff in Hok as [Hok Hoks].
    unfold entry_ok in Hok. apply andb_true_iff in Hok as [_ Hd].
    cbn [fold_left]. unfold leaves_alone in Hl.
    rewrite (sub_name_passes_head _ _ _ tail Hl).
    apply (IH _ Hls Hoks).
    apply sub_name_keeps_shape; [apply digits_have_no_end, Hd | exact Ht].
Qed.

(** The entries after a name leave its code alone. *)
Lemma translate_keeps_code (later : list (string * Z)) (s : string) :
  forallb entry_ok later = true -> all_chars Py.is_digit s = true ->
  translate later s = s.
Proof.
  unfold translate. induction later as [|entry later IH]; intros Hok Hs; [reflexivity|].
  cbn [forallb] in Hok. apply andb_true_iff in Hok as [Hok Hoks].
  unfold entry_ok in Hok. apply andb_true_iff in Hok as [Hok _].
  apply andb_true_iff in Hok as [Hn _].
  cbn [fold_left]. rewrite (sub_name_leaves_digits _ _ _ Hn Hs). exact (IH Hoks Hs).
Qed.

Lemma names_in_order_split (before after : list (string * Z)) (entry : string * Z) :
  names_in_order (before ++ entry :: after) = true ->
  forallb (leaves_alone (fst entry)) before = true.
Proof.
  induction before as [|e before IH]; intros H; [reflexivity|].
  cbn [app names_in_order] in H. apply andb_true_iff in H as [He H].
  cbn [forallb]. rewrite (IH H), andb_true_r.
  rewrite forallb_app in He. apply andb_true_iff in He as [_ He].
  cbn [forallb] in He. apply andb_true_iff in He as [He _]. exact He.
Qed.

Lemma translate_name_with_tail (table : list (string * Z)) (name tail : string)
    (code : Z) :
  names_in_order table = true -> forallb entry_ok table = true ->
  In (name, code) table ->
  all_chars (fun c => negb (ends_name c)) tail = true ->
  translate table (name ++ tail) = Py.str code.
Proof.
  intros Hord Hok Hin Ht.
  destruct (in_split _ _ Hin) as [before [after E]]. subst table.
  pose proof (names_in_order_split _ _ _ Hord) as Hl. cbn [fst] in Hl.
  rewrite forallb_app in Hok. apply andb_true_iff in Hok as [Hb Ha].
  cbn [forallb] in Ha. apply andb_true_iff in Ha as [He Ha].
  destruct (translate_keeps_head before name tail Hl Hb Ht) as [tail' [E Ht']].
  unfold translate in *. rewrite fold_left_app, E. cbn [fold_left fst snd].
  unfold entry_ok in He. cbn [fst snd] in He.
  apply andb_true_iff in He as [He Hd]. apply andb_true_iff in He as [Hn Hs].
  rewrite sub_name_at_head; [exact (translate_keeps_code after _ Ha Hd) | | exact Hs | exact Ht'].
  destruct name; [discriminate Hn | discriminate].
Qed.

(** A day or month name may be written out, in full or in part: the
    abbreviation followed by any characters other than whitespace and dashes
    is replaced, tail included, by the number of the abbreviation
    ([mon], [monday], [january], ...). *)
Theorem names_may_be_written_out (name tail : string) (code : Z) :
  all_chars (fun c => negb (ends_name c)) tail = true ->
  (In (name, code) DAYS -> translate DAYS (name ++ tail) = Py.str code) /\
  (In (name, code) MONTHS -> translate MONTHS (name ++ tail) = Py.str code).
Proof.
  intros Ht. split; intros Hin;
    (apply translate_name_with_tail; [reflexivity | reflexivity | exact Hin | exact Ht]).
Qed.

(** [wednesday] and [september]. *)
Lemma names_may_be_written_out_witness :
  translate DAYS ("we" ++ "dnesday") = "4" /\
  translate MONTHS ("sep" ++ "tember") = "9".
Proof.
  split.
  - apply (proj1 (names_may_be_written_out "we" "dnesday" 4 eq_refl)).
    cbn. tauto.
  - apply (proj2 (names_may_be_written_out "sep" "tember" 9 eq_refl)).
    cbn. tauto.
Defined.

(** *** The examples of the documentation *)

Lemma wd_today_monday (dt : Py.datetime) (n : Z) :
  1 <= n <= 7 ->
  (wd_today dt =? n) = (Py.weekday dt =? (n + 5) mod 7).
Proof.
  intros Hn. unfold wd_today.
  assert (C : n = 1 \/ n = 2 \/ n = 3 \/ n = 4 \/ n = 5 \/ n = 6 \/ n = 7) by lia.
  destruct (weekday_cases dt) as [H|[H|[H|[H|[H|[H|H]]]]]]; rewrite H;
    destruct C as [->|[->|[->|[->|[->|[->| ->]]]]]]; reflexivity.
Qed.

(** The three examples of the docstring of [in_period]: ["wd {mon}"]
    matches the instants of a Monday, ["wd {mon} hr {9-16}"] those of a
    Monday from 9:00 to 16:59, and
    ["wd {mon} hr {0-12}, wd {fri} hr {0-12}"] those of a Monday or a
    Friday from 0:00 to 12:59. *)
Theorem documented_examples (dt : Py.datetime) :
  in_period "wd {mon}" dt = Ok (Py.weekday dt =? 0) /\
  in_period "wd {mon} hr {9-16}" dt
  = Ok ((Py.weekday dt =? 0) && ((9 <=? Py.hour dt) && (Py.hour dt <=? 16))) /\
  in_period "wd {mon} hr {0-12}, wd {fri} hr {0-12}" dt
  = Ok (((Py.weekday dt =? 0) || (Py.weekday dt =? 4))
        && ((0 <=? Py.hour dt) && (Py.hour dt <=? 12))).
Proof.
  pose proof (wd_today_monday dt 2 ltac:(lia)) as Mon.
  pose proof (wd_today_monday dt 6 ltac:(lia)) as Fri.
  change ((2 + 5) mod 7) with 0 in Mon. change ((6 + 5) mod 7) with 4 in Fri.
  assert (W : forall n, Py.truthy (_is_in_range (Py.Int (wd_today dt)) (Py.Int n) None)
                        = (wd_today dt =? n)).
  { intros n. change (@None Py.num) with (option_map Py.Int None).
    rewrite is_in_range_ints. unfold in_range_rule.
    destruct (wd_today dt =? n); reflexivity. }
  assert (H : forall a b, a <> b -> a < b ->
             Py.truthy (_is_in_range (Py.Int (Py.hour dt)) (Py.Int a) (Some (Py.Int b)))
             = ((a <=? Py.hour dt) && (Py.hour dt <=? b))).
  { intros a b Hab Hlt. change (Some (Py.Int b)) with (option_map Py.Int (Some b)).
    rewrite is_in_range_ints. unfold in_range_rule.
    destruct (Z.eqb_spec b a); [lia|]. destruct (Z.ltb_spec a b); [|lia].
    destruct ((a <=? Py.hour dt) && (Py.hour dt <=? b)); reflexivity. }
  split; [|split].
  - rewrite <- Mon, <- W.
    cbv -[wd_today _is_in_range Py.truthy Py.hour].
    repeat match goal with
           | |- context [Py.truthy (_is_in_range ?x ?l ?h)] =>
               destruct (Py.truthy (_is_in_range x l h))
           end; reflexivity.
  - rewrite <- Mon, <- W, <- (H 9 16) by lia.
    cbv -[wd_today _is_in_range Py.truthy Py.hour].
    repeat match goal with
           | |- context [Py.truthy (_is_in_range ?x ?l ?h)] =>
               destruct (Py.truthy (_is_in_range x l h))
           end; reflexivity.
  - rewrite <- Mon, <- Fri, <- !W, <- (H 0 12) by lia.
    cbv -[wd_today _is_in_range Py.truthy Py.hour].
    repeat match goal with
           | |- context [Py.truthy (_is_in_range ?x ?l ?h)] =>
               destruct (Py.truthy (_is_in_range x l h))
           end; reflexivity.
Qed.

(** *** Domains *)

Lemma digits_have_no_dash (s : string) :
  all_chars Py.is_digit s = true ->
  all_chars (fun c => negb ("-" =? c)%char) s = true.
Proof.
  induction s as [|c s IH]; intros H; [reflexivity|].
  cbn [all_chars] in *. apply andb_true_iff in H as [Hc Hs]. rewrite (IH Hs), andb_true_r.
  destruct c as [[] [] [] [] [] [] [] []]; first [reflexivity | discriminate Hc].
Qed.

Lemma in_min_max_single (b : bound) (n lo hi : Z) (scale : string) :
  int b = Some n ->
  _in_min_max b None lo hi scale
  = if (lo <=? n) && (n <=? hi) then Ok (n, None) else Raise (not_valid n scale lo hi).
Proof.
  intros H. unfold _in_min_max. rewrite H.
  destruct (Z.ltb_spec n lo), (Z.gtb_spec n hi), (Z.leb_spec lo n), (Z.leb_spec n hi);
    cbn [orb andb]; first [reflexivity | lia].
Qed.

Lemma digit_is_plain (c : ascii) :
  Py.is_digit c = true ->
  Py.is_blank c = false /\ (c =? "+")%char = false /\ (c =? "-")%char = false.
Proof.
  destruct c as [[] [] [] [] [] [] [] []]; intros H;
    first [repeat split; reflexivity | discriminate H].
Qed.

Lemma drop_final_blanks_digits (s : string) :
  all_chars Py.is_digit s = true -> Py.drop_final_blanks s = s.
Proof.
  induction s as [|c s IH]; intros H; [reflexivity|].
  cbn [all_chars] in H. apply andb_true_iff in H as [Hc Hs].
  cbn [Py.drop_final_blanks Py.all_blank].
  rewrite (proj1 (digit_is_plain c Hc)), (IH Hs). reflexivity.
Qed.

Lemma int_digits_digits (s : string) (acc : Z) (after_digit : bool) :
  all_chars Py.is_digit s = true ->
  Py.int_digits acc after_digit s = None -> s = EmptyString.
Proof.
  revert acc after_digit. induction s as [|c s IH]; intros acc b H E; [reflexivity|].
  exfalso. cbn [all_chars] in H. apply andb_true_iff in H as [Hc Hs].
  cbn [Py.int_digits] in E. rewrite Hc in E.
  specialize (IH _ _ Hs E). subst s. discriminate E.
Qed.

Lemma count_digits_digits (s : string) :
  all_chars Py.is_digit s = true -> Py.count_digits s = Z.of_nat (String.length s).
Proof.
  induction s as [|c s IH]; intros H; [reflexivity|].
  cbn [all_chars] in H. apply andb_true_iff in H as [Hc Hs].
  cbn [Py.count_digits String.length]. rewrite Hc, (IH Hs). lia.
Qed.

(** [int] refuses a token of digits only when it is empty or too long. *)
Lemma int_of_digits (s : string) :
  all_chars Py.is_digit s = true ->
  Py.int_of_str s = None <->
  s = EmptyString \/ Py.max_str_digits < Z.of_nat (String.length s).
Proof.
  intros H. unfold Py.int_of_str. rewrite (count_digits_digits s H).
  destruct (Z.ltb_spec Py.max_str_digits (Z.of_nat (String.length s))) as [L|L].
  - split; [intros _; right; exact L | reflexivity].
  - assert (E : Py.drop_final_blanks (Py.skip_blanks s) = s).
    { destruct s as [|c s]; [reflexivity|].
      pose proof H as H'. cbn [all_chars] in H'. apply andb_true_iff in H' as [Hc _].
      cbn [Py.skip_blanks]. rewrite (proj1 (digit_is_plain c Hc)).
      apply drop_final_blanks_digits, H. }
    rewrite E. destruct s as [|c s].
    + split; [intros _; left; reflexivity | reflexivity].
    + pose proof H as H'. cbn [all_chars] in H'. apply andb_true_iff in H' as [Hc _].
      assert (P : match String c s with
                  | String "+" r => Py.int_digits 0 false r
                  | String "-" r => option_map Z.opp (Py.int_digits 0 false r)
                  | r => Py.int_digits 0 false r
                  end = Py.int_digits 0 false (String c s)).
      { destruct c as [[] [] [] [] [] [] [] []]; first [reflexivity | discriminate Hc]. }
      rewrite P. split.
      * intros N. left. exact (int_digits_digits _ _ _ H N).
      * intros [N|N]; [discriminate N | lia].
Qed.

(** Each scale but the year has a domain: a token of digits that [int]
    reads is accepted as a single bound exactly when its value lies in the
    domain of the scale (1 to 12 for months, 1 to 5 for weeks, 1 to 366 for
    days of the year, 1 to 31 for days of the month, 1 to 7 for weekdays, 0
    to 23 for hours, 0 to 59 for minutes and seconds), and is otherwise
    refused with the message that names the scale, the value and the
    domain; a token of digits that [int] refuses, which is the empty one or
    one of more than [Py.max_str_digits] digits, is refused as no
    integer. *)
Theorem scale_domains (k : scale_kind) (lo hi : Z) (low : string)
    (dt : Py.datetime) :
  domain k = Some (lo, hi) ->
  all_chars Py.is_digit low = true ->
  read_bounds k dt low
  = match Py.int_of_str low with
    | Some n =>
        if (lo <=? n) && (n <=? hi) then Ok (Py.Int n, None)
        else Raise (InvalidFormat
                      (Py.str n ++ " is not valid for " ++ scale_label k
                       ++ ". Valid options are between " ++ Py.str lo
                       ++ " and " ++ Py.str hi ++ "."))
    | None =>
        Raise (InvalidFormat
                 ("An integer value is required for " ++ scale_label k ++ "."))
    end /\
  (Py.int_of_str low = None <->
   low = EmptyString \/ Py.max_str_digits < Z.of_nat (String.length low)).
Proof.
  intros Hd Hdig. split; [|exact (int_of_digits low Hdig)].
  pose proof (splitrange_whole low (digits_have_no_dash low Hdig)) as Hs.
  destruct (Py.int_of_str low) as [n|] eqn:Hi.
  - destruct k; cbn [domain] in Hd; try discriminate Hd; injection Hd as <- <-;
      cbn [read_bounds scale_label];
      rewrite ?(translate_keeps_code MONTHS low eq_refl Hdig),
        ?(translate_keeps_code DAYS low eq_refl Hdig);
      unfold checked_bounds; rewrite Hs; cbn [option_map];
      try (unfold normal_hour_of; rewrite Hi; cbn [bind normal_hour option_map]);
      rewrite (in_min_max_single _ n) by (cbn [int]; first [exact Hi | reflexivity]);
      match goal with
      | |- context [if ?b then _ else _] => destruct b
      end; reflexivity.
  - destruct k; cbn [domain] in Hd; try discriminate Hd; injection Hd as <- <-;
      cbn [read_bounds scale_label];
      rewrite ?(translate_keeps_code MONTHS low eq_refl Hdig),
        ?(translate_keeps_code DAYS low eq_refl Hdig);
      unfold checked_bounds, _in_min_max, normal_hour_of; rewrite Hs;
      cbn [option_map int]; rewrite Hi; reflexivity.
Qed.

(** Hour 23 is accepted, hour 24 is not, and an hour of 4301 digits is no
    integer. *)
Lemma scale_domains_witness :
  let dt := Py.mkdatetime 2014 2 11 12 5 0 in
  read_bounds Hour dt "23" = Ok (Py.Int 23, None) /\
  read_bounds Hour dt "24"
  = Raise (InvalidFormat "24 is not valid for hour. Valid options are between 0 and 23.") /\
  read_bounds Hour dt (zeros 4301)
  = Raise (InvalidFormat "An integer value is required for hour.").
Proof.
  cbv zeta. split; [|split].
  - exact (proj1 (scale_domains Hour 0 23 "23" _ eq_refl eq_refl)).
  - exact (proj1 (scale_domains Hour 0 23 "24" _ eq_refl eq_refl)).
  - pose proof (scale_domains Hour 0 23 (zeros 4301)
                  (Py.mkdatetime 2014 2 11 12 5 0) eq_refl) as H.
    assert (D : all_chars Py.is_digit (zeros 4301) = true) by (vm_compute; reflexivity).
    destruct (H D) as [R N]. rewrite R.
    rewrite (proj2 N); [reflexivity|]. right. vm_compute. reflexivity.
Defined.

(** *** Blank periods, fixed words and stray commas *)

(** A period made of whitespace only matches every instant, like the empty
    period. *)
Theorem blank_period_matches (period : string) (dt : Py.datetime) :
  all_chars Py.is_space period = true -> in_period period dt = Ok true.
Proof.
  intros H. transitivity (in_period EmptyString dt); [|reflexivity].
  apply in_period_by_normal_form.
  rewrite <- (normalize_outer_whitespace period EmptyString EmptyString H eq_refl).
  cbn [append]. rewrite append_empty. reflexivity.
Qed.

(** A tab and two spaces. *)
Lemma blank_period_matches_witness :
  in_period (String "009" "  ") (Py.mkdatetime 2014 2 11 12 5 0) = Ok true.
Proof. apply blank_period_matches. reflexivity. Defined.

(** In a list of sub-periods ["never"] counts for nothing, while ["always"],
    ["none"] and an empty sub-period match at once: a period that begins
    with a comma matches every instant, and so does a period that ends with
    one unless it raises before, when no whitespace stands before that
    comma.  Whitespace there is kept by the normalizer and belongs to the
    sub-period: ["never ,"] raises, while ["never "] is ["never"]. *)
Theorem fixed_words_in_a_list (q : string) (dt : Py.datetime) :
  in_period ("never" ++ String "," q) dt = in_period q dt /\
  in_period ("always" ++ String "," q) dt = Ok true /\
  in_period ("none" ++ String "," q) dt = Ok true /\
  in_period (String "," q) dt = Ok true /\
  (forall p, ends_without_space p = true ->
     in_period (p ++ ",") dt
     = match in_period p dt with
       | Ok _ => Ok true
       | Raise e => Raise e
       end) /\
  in_period "never " dt = Ok false /\
  in_period "never ," dt
  = Raise (InvalidFormat "Unable to parse the given time period.").
Proof.
  split; [|split; [|split; [|split; [|split; [|split; reflexivity]]]]].
  - rewrite in_period_comma; reflexivity.
  - rewrite in_period_comma; reflexivity.
  - rewrite in_period_comma; reflexivity.
  - change (String "," q) with (EmptyString ++ String "," q).
    rewrite in_period_comma; reflexivity.
  - intros p H. rewrite (in_period_comma p EmptyString dt H).
    destruct (in_period p dt) as [[|]|e]; reflexivity.
Qed.

(** *** The shape of a normal form *)

Lemma space_is_no_mark (c : ascii) :
  Py.is_space c = true ->
  is_mark c = false /\
  ((c =? "{")%char || (c =? "}")%char || (c =? "-")%char) = false.
Proof.
  destruct c as [[] [] [] [] [] [] [] []]; intros H;
    first [split; reflexivity | discriminate H].
Qed.

Lemma squeezed_has_no_gap (s : string) (before : option ascii) :
  delete_runs doomed_anywhere before s = s -> pairs_ok bad_gap s = true.
Proof.
  revert before. induction s as [|a s IH]; intros before E; [reflexivity|].
  cbn [delete_runs] in E. cbn [pairs_ok].
  destruct (Py.is_space a) eqn:Ea.
  - destruct (doomed_anywhere before (first_nonspace s)) eqn:Ed.
    + exfalso. exact (delete_runs_not_longer _ _ _ _ E).
    + injection E as E. rewrite (IH _ E), andb_true_r.
      destruct s as [|b s]; [reflexivity|].
      unfold bad_gap. rewrite Ea, (proj1 (space_is_no_mark a Ea)). cbn [andb orb].
      rewrite orb_false_r. apply negb_true_iff.
      destruct (Py.is_space b) eqn:Eb; [exact (proj2 (space_is_no_mark b Eb))|].
      rewrite (first_nonspace_cons_other _ _ Eb) in Ed.
      unfold doomed_anywhere in Ed. cbn [is_char] in Ed.
      destruct (b =? "{")%char, (b =? "}")%char, (b =? "-")%char;
        cbn [orb] in *;
        first [reflexivity | rewrite ?orb_true_r in Ed; discriminate Ed].
  - injection E as E. rewrite (IH _ E), andb_true_r.
    destruct s as [|b s]; [reflexivity|].
    unfold bad_gap. rewrite Ea. cbn [andb orb].
    destruct (Py.is_space b) eqn:Eb; [|rewrite andb_false_r; reflexivity].
    rewrite andb_true_r. apply negb_true_iff.
    destruct (is_mark a) eqn:Em; [|reflexivity]. exfalso.
    cbn [delete_runs] in E. rewrite Eb in E.
    assert (D : doomed_anywhere (Some a) (first_nonspace s) = true).
    { unfold doomed_anywhere. cbn [is_char is_end]. unfold is_mark in Em.
      destruct (a =? ",")%char, (a =? "{")%char, (a =? "}")%char, (a =? "-")%char;
        cbn [orb] in *; rewrite ?orb_true_r; first [reflexivity | discriminate Em]. }
    rewrite D in E. exact (delete_runs_not_longer _ _ _ _ E).
Qed.

Lemma squeezed_ends_without_space (s : string) (before : option ascii) :
  delete_runs doomed_anywhere before s = s -> ends_without_space s = true.
Proof.
  revert before. induction s as [|a s IH]; intros before E; [reflexivity|].
  cbn [delete_runs] in E. destruct (Py.is_space a) eqn:Ea.
  - destruct (doomed_anywhere before (first_nonspace s)) eqn:Ed.
    + exfalso. exact (delete_runs_not_longer _ _ _ _ E).
    + injection E as E. destruct s as [|b s].
      * exfalso. unfold doomed_anywhere in Ed. cbn [first_nonspace Py.lstrip is_end] in Ed.
        rewrite ?orb_true_r in Ed. cbn [orb] in Ed. discriminate Ed.
      * exact (IH _ E).
  - injection E as E. destruct s as [|b s]; [cbn; rewrite Ea; reflexivity|].
    exact (IH _ E).
Qed.

Lemma squeezed_starts_without_space (s : string) :
  delete_runs doomed_anywhere None s = s ->
  match s with
  | EmptyString => true
  | String c _ => negb (Py.is_space c)
  end = true.
Proof.
  destruct s as [|c s]; [reflexivity|]. cbn [delete_runs].
  destruct (Py.is_space c); [|reflexivity]. intros E. exfalso.
  exact (delete_runs_not_longer _ _ _ _ E).
Qed.

Lemma insert_bars_closes (s : string) : pairs_ok bad_close (insert_bars s) = true.
Proof.
  induction s as [|c s IH]; [reflexivity|].
  destruct s as [|d s]; [reflexivity|]. rewrite insert_bars_cons.
  destruct ((c =? "}")%char && negb (d =? ",")%char) eqn:E.
  - change (pairs_ok bad_close (String "}" (String "|" (insert_bars (String d s)))))
      with (negb (bad_close "}" "|")
            && pairs_ok bad_close (String "|" (insert_bars (String d s)))).
    change (negb (bad_close "}" "|")) with true. cbn [andb].
    change (pairs_ok bad_close (String "|" (insert_bars (String d s))))
      with (match insert_bars (String d s) with
            | EmptyString => true
            | String b _ => negb (bad_close "|" b)
            end && pairs_ok bad_close (insert_bars (String d s))).
    rewrite IH, andb_true_r. destruct (insert_bars (String d s)); reflexivity.
  - change (pairs_ok bad_close (String c (insert_bars (String d s))))
      with (match insert_bars (String d s) with
            | EmptyString => true
            | String b _ => negb (bad_close c b)
            end && pairs_ok bad_close (insert_bars (String d s))).
    rewrite IH, andb_true_r.
    assert (F : exists rest, insert_bars (String d s) = String d rest).
    { destruct s as [|e s]; [eexists; reflexivity|]. rewrite insert_bars_cons.
      destruct ((d =? "}")%char && negb (e =? ",")%char) eqn:E'.
      - apply andb_true_iff in E' as [E' _]. apply Ascii.eqb_eq in E'. subst d.
        eexists. reflexivity.
      - eexists. reflexivity. }
    destruct F as [rest ->]. unfold bad_close.
    destruct (c =? "}")%char; [|reflexivity]. cbn [andb] in *.
    apply negb_false_iff in E. rewrite E. reflexivity.
Qed.

Lemma pairs_ok_lower (bad : ascii -> ascii -> bool) (s : string) :
  (forall a b, bad (Py.lower_char a) (Py.lower_char b) = bad a b) ->
  pairs_ok bad (Py.lower s) = pairs_ok bad s.
Proof.
  intros H. induction s as [|a s IH]; [reflexivity|].
  cbn [Py.lower pairs_ok]. rewrite IH. destruct s as [|b s]; [reflexivity|].
  cbn [Py.lower]. rewrite H. reflexivity.
Qed.

Lemma lower_has_no_upper (s : string) :
  all_chars (fun c => negb (Py.is_upper c)) (Py.lower s) = true.
Proof.
  induction s as [|c s IH]; [reflexivity|].
  cbn [Py.lower all_chars]. rewrite IH, andb_true_r.
  destruct c as [[] [] [] [] [] [] [] []]; reflexivity.
Qed.

(** What a normal form looks like: it neither begins nor ends with
    whitespace; no whitespace stands before a brace or a dash, or after a
    comma, a brace or a dash; every closing brace is followed by a comma or
    a bar, or ends the string; and there is no upper-case letter. *)
Theorem normal_form_shape (period : string) :
  match normalize period with
  | EmptyString => true
  | String c _ => negb (Py.is_space c)
  end = true /\
  ends_without_space (normalize period) = true /\
  pairs_ok bad_gap (normalize period) = true /\
  pairs_ok bad_close (normalize period) = true /\
  all_chars (fun c => negb (Py.is_upper c)) (normalize period) = true.
Proof.
  pose proof (normalize_squeezed period) as S.
  split; [exact (squeezed_starts_without_space _ S)|].
  split; [exact (squeezed_ends_without_space _ _ S)|].
  split; [exact (squeezed_has_no_gap _ _ S)|].
  split.
  - unfold normalize. rewrite pairs_ok_lower; [apply insert_bars_closes|].
    intros a b. unfold bad_close. rewrite !eqb_lower_symbol by reflexivity.
    reflexivity.
  - unfold normalize. apply lower_has_no_upper.
Qed.
